(** * The direct-csi installer (pkg/installer/install.go)

    A shallow embedding of the installer operations.  Every operation
    builds a Kubernetes object and hands it to collaborators that live
    outside the file: the YAML writer and logger of [pkg/utils], the
    version negotiator, the typed Kubernetes client, the random-string
    and certificate helpers.  Calls to those collaborators are the
    visible effects of an operation; they are recorded, with their
    answers, in a trace. *)

From Stdlib Require Import ZArith Ascii DecimalString.
From stdpp Require Import base gmap strings list.

Open Scope string_scope.
Open Scope list_scope.

(** [[]byte]: [len] is the length of the list; a nil slice is [[]]. *)
Abbreviation bytes := (list Byte.byte).

(** ** Errors *)

(** Reasons carried by the API status errors of
    [k8s.io/apimachinery/pkg/api/errors]. *)
Inductive StatusReason :=
| StatusReasonAlreadyExists
| StatusReasonNotFound
| StatusReasonOther (reason : string).

Inductive error :=
| ErrKubeVersionNotSupported
| errEmptyCABundle
| StatusError (reason : StatusReason) (message : string)
| errorString (message : string).

(** [kerr.IsAlreadyExists] and [kerr.IsNotFound]. *)
Definition IsAlreadyExists (err : error) : bool :=
  match err with
  | StatusError StatusReasonAlreadyExists _ => true
  | _ => false
  end.

Definition IsNotFound (err : error) : bool :=
  match err with
  | StatusError StatusReasonNotFound _ => true
  | _ => false
  end.

(** ** Kubernetes object model: the fields install.go fills in.
    Pointer fields are options, Go maps are [gmap]s (a nil map is [∅]),
    zero-valued status blocks are left out. *)

Module metav1.
Record TypeMeta := {
  tm_Kind : string;
  tm_APIVersion : string }.

Record ObjectMeta := {
  om_Name : string;
  om_Namespace : string;
  om_Annotations : gmap string string;
  om_Labels : gmap string string;
  om_Finalizers : list string }.

Record LabelSelector := {
  ls_MatchLabels : gmap string string }.

(** [&metav1.LabelSelector{}] *)
Definition emptyLabelSelector : LabelSelector := {| ls_MatchLabels := ∅ |}.

(** [metav1.AddLabelToSelector]: an empty key adds nothing. *)
Definition AddLabelToSelector (selector : LabelSelector)
    (labelKey labelValue : string) : LabelSelector :=
  if decide (labelKey = EmptyString) then selector
  else {| ls_MatchLabels := <[labelKey := labelValue]> (ls_MatchLabels selector) |}.
End metav1.

Module intstr.
Inductive IntOrString :=
| Int (IntVal : Z)
| String (StrVal : string).

Definition FromString (val : string) : IntOrString := String val.
End intstr.

Module corev1.
Import metav1.

Record NamespaceSpec := { nss_Finalizers : list string }.

Record Namespace := {
  ns_TypeMeta : TypeMeta;
  ns_ObjectMeta : ObjectMeta;
  ns_Spec : NamespaceSpec }.

Record TopologySelectorLabelRequirement := {
  tslr_Key : string;
  tslr_Values : list string }.

Record TopologySelectorTerm := {
  tst_MatchLabelExpressions : list TopologySelectorLabelRequirement }.

Inductive PersistentVolumeReclaimPolicy :=
| PersistentVolumeReclaimDelete.

Record ServicePort := {
  sp_Name : string;
  sp_Port : Z;
  sp_TargetPort : intstr.IntOrString }.

Record ServiceSpec := {
  ss_Ports : list ServicePort;
  ss_Selector : gmap string string }.

Record Service := {
  svc_TypeMeta : TypeMeta;
  svc_ObjectMeta : ObjectMeta;
  svc_Spec : ServiceSpec }.

Inductive URIScheme := URISchemeUnset | URISchemeHTTPS.

Record HTTPGetAction := {
  hga_Path : string;
  hga_Port : intstr.IntOrString;
  hga_Scheme : URIScheme }.

Record Handler := { h_HTTPGet : option HTTPGetAction }.

Record Probe := {
  pr_Handler : Handler;
  pr_InitialDelaySeconds : Z;
  pr_TimeoutSeconds : Z;
  pr_PeriodSeconds : Z;
  pr_FailureThreshold : Z }.

Inductive SeccompProfileType := SeccompProfileTypeLocalhost.

Record SeccompProfile := {
  scp_Type : SeccompProfileType;
  scp_LocalhostProfile : option string }.

Record SecurityContext := {
  sc_Privileged : option bool;
  sc_SeccompProfile : option SeccompProfile }.

Inductive HostPathType := HostPathDirectoryOrCreate.

Record HostPathVolumeSource := {
  hp_Path : string;
  hp_Type : option HostPathType }.

Record SecretVolumeSource := { svs_SecretName : string }.

Record VolumeSource := {
  vs_HostPath : option HostPathVolumeSource;
  vs_Secret : option SecretVolumeSource }.

Record Volume := {
  v_Name : string;
  v_VolumeSource : VolumeSource }.

Inductive MountPropagationMode :=
| MountPropagationNone
| MountPropagationBidirectional.

Record VolumeMount := {
  vm_Name : string;
  vm_ReadOnly : bool;
  vm_MountPath : string;
  vm_MountPropagation : option MountPropagationMode }.

Record ObjectFieldSelector := {
  ofs_APIVersion : string;
  ofs_FieldPath : string }.

Record EnvVarSource := { evs_FieldRef : option ObjectFieldSelector }.

Record EnvVar := {
  ev_Name : string;
  ev_Value : string;
  ev_ValueFrom : option EnvVarSource }.

Inductive Protocol := ProtocolTCP.

Record ContainerPort := {
  cp_Name : string;
  cp_ContainerPort : Z;
  cp_Protocol : Protocol }.

Inductive TerminationMessagePolicy :=
| TerminationMessagePolicyUnset
| TerminationMessageFallbackToLogsOnError.

Record Container := {
  c_Name : string;
  c_Image : string;
  c_Args : list string;
  c_Env : list EnvVar;
  c_VolumeMounts : list VolumeMount;
  c_Ports : list ContainerPort;
  c_SecurityContext : option SecurityContext;
  c_ReadinessProbe : option Probe;
  c_LivenessProbe : option Probe;
  c_TerminationMessagePolicy : TerminationMessagePolicy;
  c_TerminationMessagePath : string }.

Record Toleration := {
  tol_Key : string;
  tol_Operator : string;
  tol_Value : string;
  tol_Effect : string }.

Inductive DNSPolicy := DNSPolicyUnset | DNSClusterFirstWithHostNet.

Record PodSpec := {
  ps_ServiceAccountName : string;
  ps_HostIPC : bool;
  ps_HostPID : bool;
  ps_HostNetwork : bool;
  ps_DNSPolicy : DNSPolicy;
  ps_Volumes : list Volume;
  ps_Containers : list Container;
  ps_NodeSelector : gmap string string;
  ps_Tolerations : list Toleration }.

Record PodTemplateSpec := {
  pts_ObjectMeta : ObjectMeta;
  pts_Spec : PodSpec }.

Record Secret := {
  sec_TypeMeta : TypeMeta;
  sec_ObjectMeta : ObjectMeta;
  sec_Data : gmap string bytes }.
End corev1.

(** [storage/v1] and [storage/v1beta1] declare the same shapes; the two
    schema versions are told apart by the constructor of [Object] and
    by the client endpoint. *)
Module storagev1.
Import metav1.

Inductive VolumeLifecycleMode :=
| VolumeLifecyclePersistent
| VolumeLifecycleEphemeral.

Record CSIDriverSpec := {
  cds_PodInfoOnMount : option bool;
  cds_AttachRequired : option bool;
  cds_VolumeLifecycleModes : list VolumeLifecycleMode }.

Record CSIDriver := {
  cd_TypeMeta : TypeMeta;
  cd_ObjectMeta : ObjectMeta;
  cd_Spec : CSIDriverSpec }.

Inductive VolumeBindingMode := VolumeBindingWaitForFirstConsumer.

Record StorageClass := {
  stc_TypeMeta : TypeMeta;
  stc_ObjectMeta : ObjectMeta;
  stc_Provisioner : string;
  stc_AllowVolumeExpansion : option bool;
  stc_VolumeBindingMode : option VolumeBindingMode;
  stc_AllowedTopologies : list corev1.TopologySelectorTerm;
  stc_ReclaimPolicy : option corev1.PersistentVolumeReclaimPolicy;
  stc_Parameters : gmap string string }.
End storagev1.

Module storagev1beta1 := storagev1.

Module appsv1.
Import metav1.

Record DaemonSetSpec := {
  dss_Selector : LabelSelector;
  dss_Template : corev1.PodTemplateSpec }.

Record DaemonSet := {
  ds_TypeMeta : TypeMeta;
  ds_ObjectMeta : ObjectMeta;
  ds_Spec : DaemonSetSpec }.

Record DeploymentSpec := {
  dps_Replicas : option Z;
  dps_Selector : LabelSelector;
  dps_Template : corev1.PodTemplateSpec }.

Record Deployment := {
  dp_TypeMeta : TypeMeta;
  dp_ObjectMeta : ObjectMeta;
  dp_Spec : DeploymentSpec }.
End appsv1.

Module admissionv1.
Import metav1.

Record ServiceReference := {
  sr_Namespace : string;
  sr_Name : string;
  sr_Path : option string }.

Record WebhookClientConfig := {
  wcc_Service : option ServiceReference;
  wcc_CABundle : bytes }.

Inductive OperationType := Update.

Record Rule := {
  r_APIGroups : list string;
  r_APIVersions : list string;
  r_Resources : list string }.

Record RuleWithOperations := {
  rwo_Operations : list OperationType;
  rwo_Rule : Rule }.

Inductive SideEffectClass := SideEffectClassNone.

Record ValidatingWebhook := {
  vw_Name : string;
  vw_ClientConfig : WebhookClientConfig;
  vw_AdmissionReviewVersions : list string;
  vw_SideEffects : option SideEffectClass;
  vw_Rules : list RuleWithOperations }.

Record ValidatingWebhookConfiguration := {
  vwc_TypeMeta : TypeMeta;
  vwc_ObjectMeta : ObjectMeta;
  vwc_Webhooks : list ValidatingWebhook }.
End admissionv1.

Module schema.
Record GroupVersionKind := {
  Group : string;
  Version : string;
  Kind : string }.
End schema.

(** The objects the installer serializes or submits. *)
Inductive Object :=
| ObjNamespace (ns : corev1.Namespace)
| ObjCSIDriverV1 (d : storagev1.CSIDriver)
| ObjCSIDriverV1beta1 (d : storagev1beta1.CSIDriver)
| ObjStorageClassV1 (sc : storagev1.StorageClass)
| ObjStorageClassV1beta1 (sc : storagev1beta1.StorageClass)
| ObjService (svc : corev1.Service)
| ObjDaemonSet (ds : appsv1.DaemonSet)
| ObjDeployment (d : appsv1.Deployment)
| ObjSecret (s : corev1.Secret)
| ObjValidatingWebhookConfiguration (c : admissionv1.ValidatingWebhookConfiguration).

(** The typed client interfaces reached through [utils.GetKubeClient()]. *)
Inductive Endpoint :=
| CoreV1_Namespaces
| StorageV1_CSIDrivers
| StorageV1beta1_CSIDrivers
| StorageV1_StorageClasses
| StorageV1beta1_StorageClasses
| CoreV1_Services (namespace : string)
| AppsV1_DaemonSets (namespace : string)
| AppsV1_Deployments (namespace : string)
| CoreV1_Secrets (namespace : string)
| AdmissionregistrationV1_ValidatingWebhookConfigurations.

(** [io.Writer]: an interface value, nil or a handle on some sink. *)
Inductive Writer :=
| nilWriter
| writerTo (sink : nat).

(** ** What the file takes from the rest of the repository

    The package-level constants of [pkg/installer] and the pure helpers
    of [pkg/utils] and of the Go library are declared in other files.
    The operations below only pass them around, so they are taken as
    parameters. *)
Class Package := {
  (* pkg/utils and path/filepath *)
  SanitizeKubeResourceName : string -> string;
  filepath_Join : list string -> string;
  TopologyDriverIdentity : string;
  (* labels and names *)
  CreatedByLabel : string;
  DirectCSIPluginName : string;
  DirectCSI : string;
  CSIDriver : string;
  directCSISelector : string;
  webhookSelector : string;
  selectorValueEnabled : string;
  directCSIFinalizerDeleteProtection : string;
  (* ports *)
  conversionWebhookPortName : string;
  ConversionWebhookPort : Z;
  admissionControllerWebhookPort : Z;
  admissionControllerWebhookName : string;
  healthZContainerPortName : string;
  healthZContainerPortPath : string;
  (* host paths and volumes *)
  kubeletDirPath : string;
  csiRootPath : string;
  volumeNameSocketDir : string;
  volumeNameMountpointDir : string;
  volumeNameRegistrationDir : string;
  volumeNamePluginDir : string;
  volumeNameCSIRootDir : string;
  volumeNameSysDir : string;
  volumePathSysDir : string;
  volumeNameDevDir : string;
  volumePathDevDir : string;
  volumeNameRunUdevData : string;
  volumePathRunUdevData : string;
  volumePathSocketDir : string;
  (* containers and images *)
  nodeDriverRegistrarContainerName : string;
  CSIImageNodeDriverRegistrar : string;
  directCSIContainerName : string;
  livenessProbeContainerName : string;
  CSIImageLivenessProbe : string;
  csiProvisionerContainerName : string;
  CSIImageCSIProvisioner : string;
  logLevel : Z;
  kubeNodeNameEnvVar : string;
  endpointEnvVarCSI : string;
  (* secrets and webhooks *)
  conversionCACert : string;
  conversionKeyPair : string;
  conversionCADir : string;
  conversionCertsDir : string;
  admissionControllerCertsDir : string;
  admissionCertsDir : string;
  admissionWebhookSecretName : string;
  admissionWehookDNSName : string;
  validationControllerName : string;
  validationWebhookConfigName : string;
  privateKeyFileName : string;
  publicCertFileName : string;
  caCertFileName : string }.

(** [fmt.Sprintf("%d", n)] *)
Definition Sprintf_d (n : Z) : string := NilZero.string_of_int (Z.to_int n).

(** [strings.Join] *)
Fixpoint strings_Join (elems : list string) (sep : string) : string :=
  match elems with
  | [] => EmptyString
  | [e] => e
  | e :: rest => e +:+ sep +:+ strings_Join rest sep
  end.

(** ** Effects

    [call X] is a request to a collaborator that answers in [X]. *)
Inductive call : Type -> Type :=
| WriteObject (writer : Writer) (obj : Object) : call (option error)
| LogYAML (obj : Object) : call (option error)
| GetGroupKindVersions (group kind : string) (versions : list string)
    : call (error + schema.GroupVersionKind)
| Create (client : Endpoint) (obj : Object) : call (option error)
| Get (client : Endpoint) (name : string) : call (error + corev1.Secret)
| Update (client : Endpoint) (obj : corev1.Secret) : call (option error)
| newRandomString (length : nat) : call string
| getCerts (dnsNames : list string) : call (error + (bytes * bytes * bytes)).

(** A program is a finite tree of calls. *)
Inductive Prog (A : Type) : Type :=
| Ret (a : A)
| Vis {X : Type} (c : call X) (k : X -> Prog A).

Arguments Ret {A} a.
Arguments Vis {A X} c k.

Fixpoint bind {A B : Type} (p : Prog A) (f : A -> Prog B) : Prog B :=
  match p with
  | Ret a => f a
  | Vis c k => Vis c (fun x => bind (k x) f)
  end.

Definition perform {X : Type} (c : call X) : Prog X := Vis c Ret.

Declare Scope prog_scope.
Delimit Scope prog_scope with prog.
Bind Scope prog_scope with Prog.

Notation "x <- p ;; q" := (bind p (fun x => q))
  (at level 20, p at level 99, q at level 200, only parsing) : prog_scope.

(** The Go idiom [if err := f(); err != nil { return err }]. *)
Notation "'check!' p ;; q" :=
  (bind p (fun err => match err with Some e => Ret (Some e) | None => q end))
  (at level 20, p at level 99, q at level 200, only parsing) : prog_scope.

(** ** Traces: each call with the answer it got. *)
Inductive event :=
| EvWriteObject (writer : Writer) (obj : Object) (r : option error)
| EvLogYAML (obj : Object) (r : option error)
| EvGetGroupKindVersions (group kind : string) (versions : list string)
    (r : error + schema.GroupVersionKind)
| EvCreate (client : Endpoint) (obj : Object) (r : option error)
| EvGet (client : Endpoint) (name : string) (r : error + corev1.Secret)
| EvUpdate (client : Endpoint) (obj : corev1.Secret) (r : option error)
| EvNewRandomString (length : nat) (r : string)
| EvGetCerts (dnsNames : list string) (r : error + (bytes * bytes * bytes)).

Definition log {X : Type} (c : call X) : X -> event :=
  match c in call X return X -> event with
  | WriteObject w o => EvWriteObject w o
  | LogYAML o => EvLogYAML o
  | GetGroupKindVersions g k vs => EvGetGroupKindVersions g k vs
  | Create cl o => EvCreate cl o
  | Get cl n => EvGet cl n
  | Update cl o => EvUpdate cl o
  | newRandomString n => EvNewRandomString n
  | getCerts d => EvGetCerts d
  end.

(** The world outside the installer: it answers each call and moves to
    a new state. *)
Definition handler (S : Type) : Type := forall X : Type, call X -> S -> X * S.

Record outcome (S A : Type) := {
  trace : list event;
  final : S;
  result : A }.

Arguments trace {S A} o.
Arguments final {S A} o.
Arguments result {S A} o.

Fixpoint run {S A : Type} (h : handler S) (p : Prog A) (s : S) : outcome S A :=
  match p with
  | Ret a => {| trace := []; final := s; result := a |}
  | Vis c k =>
      let '(x, s') := h _ c s in
      let o := run h (k x) s' in
      {| trace := log c x :: trace o; final := final o; result := result o |}
  end.

(** Calls to the orchestration API proper. *)
Definition is_create (ev : event) : bool :=
  match ev with EvCreate _ _ _ => true | _ => false end.

Definition is_get (ev : event) : bool :=
  match ev with EvGet _ _ _ => true | _ => false end.

Definition is_update (ev : event) : bool :=
  match ev with EvUpdate _ _ _ => true | _ => false end.

Definition is_api_call (ev : event) : bool :=
  is_create ev || is_get ev || is_update ev.

(** The process-wide variables of the package. *)
Record Globals := {
  validationWebhookCaBundle : bytes;
  conversionWebhookCaBundle : bytes }.

(** Both are nil when the process starts. *)
Definition initialGlobals : Globals :=
  {| validationWebhookCaBundle := []; conversionWebhookCaBundle := [] |}.

(** ** The installer *)
Section Installer.
Context `{Package}.
Import metav1.
Local Open Scope prog_scope.

Definition objMeta (name : string) : ObjectMeta :=
  {| om_Name := SanitizeKubeResourceName name;
     om_Namespace := SanitizeKubeResourceName name;
     om_Annotations := {[ CreatedByLabel := DirectCSIPluginName ]};
     om_Labels := <["app" := DirectCSI]> {[ "type" := CSIDriver ]};
     om_Finalizers := [] |}.

Definition namespaceObj (identity : string) : corev1.Namespace :=
  {| corev1.ns_TypeMeta := {| tm_Kind := "Namespace"; tm_APIVersion := "v1" |};
     corev1.ns_ObjectMeta := objMeta identity;
     corev1.ns_Spec := {| corev1.nss_Finalizers := [] |} |}.

(** CreateNamespace creates direct-csi namespace. *)
Definition CreateNamespace (identity : string) (dryRun : bool) (writer : Writer)
    : Prog (option error) :=
  let ns := namespaceObj identity in
  check! perform (WriteObject writer (ObjNamespace ns)) ;;
  if dryRun then perform (LogYAML (ObjNamespace ns))
  else
    check! perform (Create CoreV1_Namespaces (ObjNamespace ns)) ;;
    Ret None.

Definition csiDriverV1 (identity : string) : storagev1.CSIDriver :=
  let podInfoOnMount := true in
  let attachRequired := false in
  {| storagev1.cd_TypeMeta :=
       {| tm_Kind := "CSIDriver"; tm_APIVersion := "storage.k8s.io/v1" |};
     storagev1.cd_ObjectMeta := objMeta identity;
     storagev1.cd_Spec :=
       {| storagev1.cds_PodInfoOnMount := Some podInfoOnMount;
          storagev1.cds_AttachRequired := Some attachRequired;
          storagev1.cds_VolumeLifecycleModes :=
            [storagev1.VolumeLifecyclePersistent;
             storagev1.VolumeLifecycleEphemeral] |} |}.

Definition csiDriverV1beta1 (identity : string) : storagev1beta1.CSIDriver :=
  let podInfoOnMount := true in
  let attachRequired := false in
  {| storagev1beta1.cd_TypeMeta :=
       {| tm_Kind := "CSIDriver"; tm_APIVersion := "storage.k8s.io/v1beta1" |};
     storagev1beta1.cd_ObjectMeta := objMeta identity;
     storagev1beta1.cd_Spec :=
       {| storagev1beta1.cds_PodInfoOnMount := Some podInfoOnMount;
          storagev1beta1.cds_AttachRequired := Some attachRequired;
          storagev1beta1.cds_VolumeLifecycleModes :=
            [storagev1beta1.VolumeLifecyclePersistent;
             storagev1beta1.VolumeLifecycleEphemeral] |} |}.

(** CreateCSIDriver creates CSI driver. *)
Definition CreateCSIDriver (identity : string) (dryRun : bool) (writer : Writer)
    : Prog (option error) :=
  r <- perform (GetGroupKindVersions "storage.k8s.io" "CSIDriver"
                  ["v1"; "v1beta1"; "v1alpha1"]) ;;
  match r with
  | inl err => Ret (Some err)
  | inr gvk =>
      let version := schema.Version gvk in
      if decide (version = "v1") then
        let csiDriver := csiDriverV1 identity in
        check! perform (WriteObject writer (ObjCSIDriverV1 csiDriver)) ;;
        if dryRun then perform (LogYAML (ObjCSIDriverV1 csiDriver))
        else
          check! perform (Create StorageV1_CSIDrivers (ObjCSIDriverV1 csiDriver)) ;;
          Ret None
      else if decide (version = "v1beta1") then
        let csiDriver := csiDriverV1beta1 identity in
        if dryRun then perform (LogYAML (ObjCSIDriverV1beta1 csiDriver))
        else
          check! perform (Create StorageV1beta1_CSIDrivers
                            (ObjCSIDriverV1beta1 csiDriver)) ;;
          Ret None
      else Ret (Some ErrKubeVersionNotSupported)
  end.

Definition getTopologySelectorTerm (identity : string) : corev1.TopologySelectorTerm :=
  let getIdentityLabelRequirement :=
    {| corev1.tslr_Key := TopologyDriverIdentity;
       corev1.tslr_Values := [SanitizeKubeResourceName identity] |} in
  {| corev1.tst_MatchLabelExpressions := [getIdentityLabelRequirement] |}.

Definition storageClassV1 (identity : string) : storagev1.StorageClass :=
  let allowExpansion := false in
  let allowedTopologies := [getTopologySelectorTerm identity] in
  let retainPolicy := corev1.PersistentVolumeReclaimDelete in
  let bindingMode := storagev1.VolumeBindingWaitForFirstConsumer in
  {| storagev1.stc_TypeMeta :=
       {| tm_Kind := "StorageClass"; tm_APIVersion := "storage.k8s.io/v1" |};
     storagev1.stc_ObjectMeta := objMeta identity;
     storagev1.stc_Provisioner := SanitizeKubeResourceName identity;
     storagev1.stc_AllowVolumeExpansion := Some allowExpansion;
     storagev1.stc_VolumeBindingMode := Some bindingMode;
     storagev1.stc_AllowedTopologies := allowedTopologies;
     storagev1.stc_ReclaimPolicy := Some retainPolicy;
     storagev1.stc_Parameters := {[ "fstype" := "xfs" ]} |}.

Definition storageClassV1beta1 (identity : string) : storagev1beta1.StorageClass :=
  let allowExpansion := false in
  let allowedTopologies := [getTopologySelectorTerm identity] in
  let retainPolicy := corev1.PersistentVolumeReclaimDelete in
  let bindingMode := storagev1beta1.VolumeBindingWaitForFirstConsumer in
  {| storagev1beta1.stc_TypeMeta :=
       {| tm_Kind := "StorageClass"; tm_APIVersion := "storage.k8s.io/v1beta1" |};
     storagev1beta1.stc_ObjectMeta := objMeta identity;
     storagev1beta1.stc_Provisioner := SanitizeKubeResourceName identity;
     storagev1beta1.stc_AllowVolumeExpansion := Some allowExpansion;
     storagev1beta1.stc_VolumeBindingMode := Some bindingMode;
     storagev1beta1.stc_AllowedTopologies := allowedTopologies;
     storagev1beta1.stc_ReclaimPolicy := Some retainPolicy;
     storagev1beta1.stc_Parameters := {[ "fstype" := "xfs" ]} |}.

(** CreateStorageClass creates storage class.  (The negotiator is asked
    about the kind "CSIDriver" here too, as in the source.) *)
Definition CreateStorageClass (identity : string) (dryRun : bool) (writer : Writer)
    : Prog (option error) :=
  r <- perform (GetGroupKindVersions "storage.k8s.io" "CSIDriver"
                  ["v1"; "v1beta1"; "v1alpha1"]) ;;
  match r with
  | inl err => Ret (Some err)
  | inr gvk =>
      let version := schema.Version gvk in
      if decide (version = "v1") then
        let storageClass := storageClassV1 identity in
        check! perform (WriteObject writer (ObjStorageClassV1 storageClass)) ;;
        if dryRun then perform (LogYAML (ObjStorageClassV1 storageClass))
        else
          check! perform (Create StorageV1_StorageClasses
                            (ObjStorageClassV1 storageClass)) ;;
          Ret None
      else if decide (version = "v1beta1") then
        let storageClass := storageClassV1beta1 identity in
        check! perform (WriteObject writer (ObjStorageClassV1beta1 storageClass)) ;;
        if dryRun then perform (LogYAML (ObjStorageClassV1beta1 storageClass))
        else
          check! perform (Create StorageV1beta1_StorageClasses
                            (ObjStorageClassV1beta1 storageClass)) ;;
          Ret None
      else Ret (Some ErrKubeVersionNotSupported)
  end.

Definition serviceObj (identity : string) : corev1.Service :=
  let csiPort :=
    {| corev1.sp_Name := "unused"; corev1.sp_Port := 12345;
       corev1.sp_TargetPort := intstr.Int 0 |} in
  let webhookPort :=
    {| corev1.sp_Name := conversionWebhookPortName;
       corev1.sp_Port := ConversionWebhookPort;
       corev1.sp_TargetPort := intstr.String conversionWebhookPortName |} in
  {| corev1.svc_TypeMeta := {| tm_Kind := "Service"; tm_APIVersion := "v1" |};
     corev1.svc_ObjectMeta := objMeta identity;
     corev1.svc_Spec :=
       {| corev1.ss_Ports := [csiPort; webhookPort];
          corev1.ss_Selector := {[ webhookSelector := selectorValueEnabled ]} |} |}.

(** CreateService creates direct-csi service. *)
Definition CreateService (identity : string) (dryRun : bool) (writer : Writer)
    : Prog (option error) :=
  let svc := serviceObj identity in
  check! perform (WriteObject writer (ObjService svc)) ;;
  if dryRun then perform (LogYAML (ObjService svc))
  else
    check! perform (Create (CoreV1_Services (SanitizeKubeResourceName identity))
                      (ObjService svc)) ;;
    Ret None.

Definition getConversionWebhookDNSName (identity : string) : string :=
  strings_Join [SanitizeKubeResourceName identity;
                SanitizeKubeResourceName identity; "svc"] ".".

Definition getConversionHealthzHandler : corev1.Handler :=
  {| corev1.h_HTTPGet :=
       Some {| corev1.hga_Path := healthZContainerPortPath;
               corev1.hga_Port := intstr.FromString conversionWebhookPortName;
               corev1.hga_Scheme := corev1.URISchemeHTTPS |} |}.

Definition getConversionHealthzURL (identity : string) : string :=
  let conversionWebhookDNSName := getConversionWebhookDNSName identity in
  "https://" +:+ conversionWebhookDNSName +:+ ":" +:+
    Sprintf_d ConversionWebhookPort +:+ healthZContainerPortPath.

Definition generateSanitizedUniqueNameFrom (name : string) : Prog string :=
  let sanitizedName := SanitizeKubeResourceName name in
  (* Max length of name is 255. If needed, cut out last 6 bytes
     to make room for randomstring *)
  let sanitizedName :=
    if (255 <=? String.length sanitizedName)%nat
    then String.substring 0 249 sanitizedName
    else sanitizedName in
  (* Get a 5 byte randomstring *)
  shortUUID <- perform (newRandomString 5) ;;
  Ret (sanitizedName +:+ "-" +:+ shortUUID).

Definition newHostPathVolume (name path : string) : corev1.Volume :=
  let hostPathType := corev1.HostPathDirectoryOrCreate in
  let volumeSource :=
    {| corev1.vs_HostPath :=
         Some {| corev1.hp_Path := path; corev1.hp_Type := Some hostPathType |};
       corev1.vs_Secret := None |} in
  {| corev1.v_Name := name; corev1.v_VolumeSource := volumeSource |}.

Definition newSecretVolume (name secretName : string) : corev1.Volume :=
  let volumeSource :=
    {| corev1.vs_HostPath := None;
       corev1.vs_Secret := Some {| corev1.svs_SecretName := secretName |} |} in
  {| corev1.v_Name := name; corev1.v_VolumeSource := volumeSource |}.

Definition newDirectCSIPluginsSocketDir (kubeletDir name : string) : string :=
  filepath_Join [kubeletDir; "plugins"; SanitizeKubeResourceName name].

Definition newVolumeMount (name path : string) (bidirectional readOnly : bool)
    : corev1.VolumeMount :=
  let mountProp :=
    if bidirectional then corev1.MountPropagationBidirectional
    else corev1.MountPropagationNone in
  {| corev1.vm_Name := name;
     corev1.vm_ReadOnly := readOnly;
     corev1.vm_MountPath := path;
     corev1.vm_MountPropagation := Some mountProp |}.

Definition nodeNameEnvVar : corev1.EnvVar :=
  {| corev1.ev_Name := kubeNodeNameEnvVar;
     corev1.ev_Value := EmptyString;
     corev1.ev_ValueFrom :=
       Some {| corev1.evs_FieldRef :=
                 Some {| corev1.ofs_APIVersion := "v1";
                         corev1.ofs_FieldPath := "spec.nodeName" |} |} |}.

Definition endpointEnvVar : corev1.EnvVar :=
  {| corev1.ev_Name := endpointEnvVarCSI;
     corev1.ev_Value := "unix:///csi/csi.sock";
     corev1.ev_ValueFrom := None |}.

(** The descriptor [CreateDaemonSet] builds, given the selector token
    it has generated. *)
Definition daemonSetObj (identity directCSIContainerImage registry org : string)
    (loopBackOnly : bool) (nodeSelector : gmap string string)
    (tolerations : list corev1.Toleration)
    (seccompProfileName apparmorProfileName : string)
    (enableDynamicDiscovery : bool)
    (generatedSelectorValue : string) : appsv1.DaemonSet :=
  let name := SanitizeKubeResourceName identity in
  let conversionHealthzURL := getConversionHealthzURL identity in
  let privileged := true in
  let securityContext :=
    {| corev1.sc_Privileged := Some privileged;
       corev1.sc_SeccompProfile := None |} in
  let securityContext :=
    if decide (seccompProfileName ≠ EmptyString) then
      {| corev1.sc_Privileged := corev1.sc_Privileged securityContext;
         corev1.sc_SeccompProfile :=
           Some {| corev1.scp_Type := corev1.SeccompProfileTypeLocalhost;
                   corev1.scp_LocalhostProfile := Some seccompProfileName |} |}
    else securityContext in
  let volumes :=
    [ newHostPathVolume volumeNameSocketDir
        (newDirectCSIPluginsSocketDir kubeletDirPath name);
      newHostPathVolume volumeNameMountpointDir (kubeletDirPath +:+ "/pods");
      newHostPathVolume volumeNameRegistrationDir (kubeletDirPath +:+ "/plugins_registry");
      newHostPathVolume volumeNamePluginDir (kubeletDirPath +:+ "/plugins");
      newHostPathVolume volumeNameCSIRootDir csiRootPath;
      newSecretVolume conversionCACert conversionCACert;
      newSecretVolume conversionKeyPair conversionKeyPair ] in
  let volumeMounts :=
    [ newVolumeMount volumeNameSocketDir "/csi" false false;
      newVolumeMount volumeNameMountpointDir (kubeletDirPath +:+ "/pods") true false;
      newVolumeMount volumeNamePluginDir (kubeletDirPath +:+ "/plugins") true false;
      newVolumeMount volumeNameCSIRootDir csiRootPath true false;
      newVolumeMount conversionCACert conversionCADir false false;
      newVolumeMount conversionKeyPair conversionCertsDir false false ] in
  let volumes := volumes ++ [newHostPathVolume volumeNameSysDir volumePathSysDir] in
  let volumeMounts :=
    volumeMounts ++ [newVolumeMount volumeNameSysDir volumePathSysDir true true] in
  let volumes :=
    if enableDynamicDiscovery then
      (volumes ++ [newHostPathVolume volumeNameDevDir volumePathDevDir])
        ++ [newHostPathVolume volumeNameRunUdevData volumePathRunUdevData]
    else volumes in
  let volumeMounts :=
    if enableDynamicDiscovery then
      (volumeMounts ++ [newVolumeMount volumeNameDevDir volumePathDevDir true true])
        ++ [newVolumeMount volumeNameRunUdevData volumePathRunUdevData true true]
    else volumeMounts in
  let args :=
    [ "--identity=" +:+ name;
      "-v=" +:+ Sprintf_d logLevel;
      "--endpoint=$(" +:+ endpointEnvVarCSI +:+ ")";
      "--node-id=$(" +:+ kubeNodeNameEnvVar +:+ ")";
      "--conversion-healthz-url=" +:+ conversionHealthzURL;
      "--driver" ] in
  let args := if loopBackOnly then args ++ ["--loopback-only"] else args in
  let args :=
    if enableDynamicDiscovery then args ++ ["--enable-dynamic-discovery"] else args in
  let podSpec :=
    {| corev1.ps_ServiceAccountName := name;
       corev1.ps_HostIPC := true;
       corev1.ps_HostPID := true;
       corev1.ps_HostNetwork := false;
       corev1.ps_DNSPolicy := corev1.DNSPolicyUnset;
       corev1.ps_Volumes := volumes;
       corev1.ps_Containers :=
         [ {| corev1.c_Name := nodeDriverRegistrarContainerName;
              corev1.c_Image := filepath_Join [registry; org; CSIImageNodeDriverRegistrar];
              corev1.c_Args :=
                [ "--v=" +:+ Sprintf_d logLevel;
                  "--csi-address=unix:///csi/csi.sock";
                  "--kubelet-registration-path=" +:+
                    (newDirectCSIPluginsSocketDir kubeletDirPath name +:+ "/csi.sock") ];
              corev1.c_Env := [nodeNameEnvVar];
              corev1.c_VolumeMounts :=
                [ newVolumeMount volumeNameSocketDir volumePathSocketDir false false;
                  newVolumeMount volumeNameRegistrationDir "/registration" false false ];
              corev1.c_Ports := [];
              corev1.c_SecurityContext := None;
              corev1.c_ReadinessProbe := None;
              corev1.c_LivenessProbe := None;
              corev1.c_TerminationMessagePolicy :=
                corev1.TerminationMessageFallbackToLogsOnError;
              corev1.c_TerminationMessagePath :=
                "/var/log/driver-registrar-termination-log" |};
           {| corev1.c_Name := directCSIContainerName;
              corev1.c_Image := filepath_Join [registry; org; directCSIContainerImage];
              corev1.c_Args := args;
              corev1.c_Env := [nodeNameEnvVar; endpointEnvVar];
              corev1.c_VolumeMounts := volumeMounts;
              corev1.c_Ports :=
                [ {| corev1.cp_Name := "healthz";
                     corev1.cp_ContainerPort := 9898;
                     corev1.cp_Protocol := corev1.ProtocolTCP |};
                  {| corev1.cp_Name := conversionWebhookPortName;
                     corev1.cp_ContainerPort := ConversionWebhookPort;
                     corev1.cp_Protocol := corev1.ProtocolTCP |} ];
              corev1.c_SecurityContext := Some securityContext;
              corev1.c_ReadinessProbe :=
                Some {| corev1.pr_Handler := getConversionHealthzHandler;
                        corev1.pr_InitialDelaySeconds := 0;
                        corev1.pr_TimeoutSeconds := 0;
                        corev1.pr_PeriodSeconds := 0;
                        corev1.pr_FailureThreshold := 0 |};
              corev1.c_LivenessProbe :=
                Some {| corev1.pr_Handler :=
                          {| corev1.h_HTTPGet :=
                               Some {| corev1.hga_Path := healthZContainerPortPath;
                                       corev1.hga_Port :=
                                         intstr.FromString healthZContainerPortName;
                                       corev1.hga_Scheme := corev1.URISchemeUnset |} |};
                        corev1.pr_InitialDelaySeconds := 300;
                        corev1.pr_TimeoutSeconds := 5;
                        corev1.pr_PeriodSeconds := 5;
                        corev1.pr_FailureThreshold := 5 |};
              corev1.c_TerminationMessagePolicy :=
                corev1.TerminationMessageFallbackToLogsOnError;
              corev1.c_TerminationMessagePath := "/var/log/driver-termination-log" |};
           {| corev1.c_Name := livenessProbeContainerName;
              corev1.c_Image := filepath_Join [registry; org; CSIImageLivenessProbe];
              corev1.c_Args := ["--csi-address=/csi/csi.sock"; "--health-port=9898"];
              corev1.c_Env := [];
              corev1.c_VolumeMounts :=
                [ newVolumeMount volumeNameSocketDir volumePathSocketDir false false ];
              corev1.c_Ports := [];
              corev1.c_SecurityContext := None;
              corev1.c_ReadinessProbe := None;
              corev1.c_LivenessProbe := None;
              corev1.c_TerminationMessagePolicy :=
                corev1.TerminationMessageFallbackToLogsOnError;
              corev1.c_TerminationMessagePath :=
                "/var/log/driver-liveness-termination-log" |} ];
       corev1.ps_NodeSelector := nodeSelector;
       corev1.ps_Tolerations := tolerations |} in
  let podSpec :=
    if enableDynamicDiscovery then
      {| corev1.ps_ServiceAccountName := corev1.ps_ServiceAccountName podSpec;
         corev1.ps_HostIPC := corev1.ps_HostIPC podSpec;
         corev1.ps_HostPID := corev1.ps_HostPID podSpec;
         corev1.ps_HostNetwork := true;
         corev1.ps_DNSPolicy := corev1.DNSClusterFirstWithHostNet;
         corev1.ps_Volumes := corev1.ps_Volumes podSpec;
         corev1.ps_Containers := corev1.ps_Containers podSpec;
         corev1.ps_NodeSelector := corev1.ps_NodeSelector podSpec;
         corev1.ps_Tolerations := corev1.ps_Tolerations podSpec |}
    else podSpec in
  let annotations : gmap string string :=
    {[ CreatedByLabel := DirectCSIPluginName ]} in
  let annotations :=
    if decide (apparmorProfileName ≠ EmptyString) then
      <["container.apparmor.security.beta.kubernetes.io/direct-csi"
          := apparmorProfileName]> annotations
    else annotations in
  {| appsv1.ds_TypeMeta := {| tm_Kind := "DaemonSet"; tm_APIVersion := "apps/v1" |};
     appsv1.ds_ObjectMeta := objMeta identity;
     appsv1.ds_Spec :=
       {| appsv1.dss_Selector :=
            AddLabelToSelector emptyLabelSelector directCSISelector
              generatedSelectorValue;
          appsv1.dss_Template :=
            {| corev1.pts_ObjectMeta :=
                 {| om_Name := SanitizeKubeResourceName name;
                    om_Namespace := SanitizeKubeResourceName name;
                    om_Annotations := annotations;
                    om_Labels :=
                      <[directCSISelector := generatedSelectorValue]>
                        {[ webhookSelector := selectorValueEnabled ]};
                    om_Finalizers := [] |};
               corev1.pts_Spec := podSpec |} |} |}.

(** CreateDaemonSet creates direct-csi daemonset. *)
Definition CreateDaemonSet (identity directCSIContainerImage : string)
    (dryRun : bool) (registry org : string) (loopBackOnly : bool)
    (nodeSelector : gmap string string) (tolerations : list corev1.Toleration)
    (seccompProfileName apparmorProfileName : string)
    (enableDynamicDiscovery : bool) (writer : Writer) : Prog (option error) :=
  let name := SanitizeKubeResourceName identity in
  generatedSelectorValue <- generateSanitizedUniqueNameFrom name ;;
  let daemonset :=
    daemonSetObj identity directCSIContainerImage registry org loopBackOnly
      nodeSelector tolerations seccompProfileName apparmorProfileName
      enableDynamicDiscovery generatedSelectorValue in
  check! perform (WriteObject writer (ObjDaemonSet daemonset)) ;;
  if dryRun then perform (LogYAML (ObjDaemonSet daemonset))
  else
    check! perform (Create (AppsV1_DaemonSets (SanitizeKubeResourceName identity))
                      (ObjDaemonSet daemonset)) ;;
    Ret None.

Definition controllerServiceObj (generatedSelectorValue identity : string)
    : corev1.Service :=
  let admissionWebhookPort :=
    {| corev1.sp_Name := EmptyString;
       corev1.sp_Port := admissionControllerWebhookPort;
       corev1.sp_TargetPort := intstr.String admissionControllerWebhookName |} in
  {| corev1.svc_TypeMeta := {| tm_Kind := "Service"; tm_APIVersion := "v1" |};
     corev1.svc_ObjectMeta :=
       {| om_Name := validationControllerName;
          om_Namespace := SanitizeKubeResourceName identity;
          om_Annotations := ∅; om_Labels := ∅; om_Finalizers := [] |};
     corev1.svc_Spec :=
       {| corev1.ss_Ports := [admissionWebhookPort];
          corev1.ss_Selector := {[ directCSISelector := generatedSelectorValue ]} |} |}.

(** CreateControllerService creates direct-csi controller service. *)
Definition CreateControllerService (generatedSelectorValue identity : string)
    (dryRun : bool) : Prog (option error) :=
  let svc := controllerServiceObj generatedSelectorValue identity in
  if dryRun then perform (LogYAML (ObjService svc))
  else
    check! perform (Create (CoreV1_Services (SanitizeKubeResourceName identity))
                      (ObjService svc)) ;;
    Ret None.

Definition secretObj (name identity : string) (data : gmap string bytes)
    : corev1.Secret :=
  {| corev1.sec_TypeMeta := {| tm_Kind := "Secret"; tm_APIVersion := "v1" |};
     corev1.sec_ObjectMeta :=
       {| om_Name := name;
          om_Namespace := SanitizeKubeResourceName identity;
          om_Annotations := ∅; om_Labels := ∅; om_Finalizers := [] |};
     corev1.sec_Data := data |}.

(** The closure [getCertsDataMap] of the key-pair secrets. *)
Definition keyPairDataMap (publicCertBytes privateKeyBytes : bytes)
    : gmap string bytes :=
  let mp : gmap string bytes := ∅ in
  let mp := <[privateKeyFileName := privateKeyBytes]> mp in
  let mp := <[publicCertFileName := publicCertBytes]> mp in
  mp.

(** The closure [getCertsDataMap] of the CA secret. *)
Definition caCertDataMap (caCertBytes : bytes) : gmap string bytes :=
  let mp : gmap string bytes := ∅ in
  let mp := <[caCertFileName := caCertBytes]> mp in
  mp.

Definition controllerSecretObj (identity : string)
    (publicCertBytes privateKeyBytes : bytes) : corev1.Secret :=
  secretObj admissionWebhookSecretName identity
    (keyPairDataMap publicCertBytes privateKeyBytes).

(** CreateControllerSecret creates controller secret. *)
Definition CreateControllerSecret (identity : string)
    (publicCertBytes privateKeyBytes : bytes) (dryRun : bool)
    : Prog (option error) :=
  let secret := controllerSecretObj identity publicCertBytes privateKeyBytes in
  if dryRun then perform (LogYAML (ObjSecret secret))
  else
    check! perform (Create (CoreV1_Secrets (SanitizeKubeResourceName identity))
                      (ObjSecret secret)) ;;
    Ret None.

Definition privilegedSecurityContext : corev1.SecurityContext :=
  let privileged := true in
  {| corev1.sc_Privileged := Some privileged; corev1.sc_SeccompProfile := None |}.

(** The descriptor [CreateDeployment] builds, given the selector token
    it has generated. *)
Definition deploymentObj (identity directCSIContainerImage registry org : string)
    (generatedSelectorValue : string) : appsv1.Deployment :=
  let name := SanitizeKubeResourceName identity in
  let conversionHealthzURL := getConversionHealthzURL identity in
  let replicas := 3%Z in
  let podSpec :=
    {| corev1.ps_ServiceAccountName := name;
       corev1.ps_HostIPC := false;
       corev1.ps_HostPID := false;
       corev1.ps_HostNetwork := false;
       corev1.ps_DNSPolicy := corev1.DNSPolicyUnset;
       corev1.ps_Volumes :=
         [ newHostPathVolume volumeNameSocketDir
             (newDirectCSIPluginsSocketDir kubeletDirPath (name +:+ "-controller"));
           newSecretVolume admissionControllerCertsDir admissionWebhookSecretName;
           newSecretVolume conversionCACert conversionCACert;
           newSecretVolume conversionKeyPair conversionKeyPair ];
       corev1.ps_Containers :=
         [ {| corev1.c_Name := csiProvisionerContainerName;
              corev1.c_Image := filepath_Join [registry; org; CSIImageCSIProvisioner];
              corev1.c_Args :=
                [ "--v=" +:+ Sprintf_d logLevel;
                  "--timeout=300s";
                  "--csi-address=$(" +:+ endpointEnvVarCSI +:+ ")";
                  "--leader-election";
                  "--feature-gates=Topology=true";
                  "--strict-topology" ];
              corev1.c_Env := [endpointEnvVar];
              corev1.c_VolumeMounts :=
                [ newVolumeMount volumeNameSocketDir volumePathSocketDir false false ];
              corev1.c_Ports := [];
              corev1.c_SecurityContext := Some privilegedSecurityContext;
              corev1.c_ReadinessProbe := None;
              corev1.c_LivenessProbe := None;
              corev1.c_TerminationMessagePolicy :=
                corev1.TerminationMessageFallbackToLogsOnError;
              corev1.c_TerminationMessagePath :=
                "/var/log/controller-provisioner-termination-log" |};
           {| corev1.c_Name := directCSIContainerName;
              corev1.c_Image := filepath_Join [registry; org; directCSIContainerImage];
              corev1.c_Args :=
                [ "-v=" +:+ Sprintf_d logLevel;
                  "--identity=" +:+ name;
                  "--endpoint=$(" +:+ endpointEnvVarCSI +:+ ")";
                  "--conversion-healthz-url=" +:+ conversionHealthzURL;
                  "--controller" ];
              corev1.c_Env := [nodeNameEnvVar; endpointEnvVar];
              corev1.c_VolumeMounts :=
                [ newVolumeMount volumeNameSocketDir volumePathSocketDir false false;
                  newVolumeMount admissionControllerCertsDir admissionCertsDir false false;
                  newVolumeMount conversionCACert conversionCADir false false;
                  newVolumeMount conversionKeyPair conversionCertsDir false false ];
              corev1.c_Ports :=
                [ {| corev1.cp_Name := admissionControllerWebhookName;
                     corev1.cp_ContainerPort := admissionControllerWebhookPort;
                     corev1.cp_Protocol := corev1.ProtocolTCP |};
                  {| corev1.cp_Name := "healthz";
                     corev1.cp_ContainerPort := 9898;
                     corev1.cp_Protocol := corev1.ProtocolTCP |};
                  {| corev1.cp_Name := conversionWebhookPortName;
                     corev1.cp_ContainerPort := ConversionWebhookPort;
                     corev1.cp_Protocol := corev1.ProtocolTCP |} ];
              corev1.c_SecurityContext := Some privilegedSecurityContext;
              corev1.c_ReadinessProbe :=
                Some {| corev1.pr_Handler := getConversionHealthzHandler;
                        corev1.pr_InitialDelaySeconds := 0;
                        corev1.pr_TimeoutSeconds := 0;
                        corev1.pr_PeriodSeconds := 0;
                        corev1.pr_FailureThreshold := 0 |};
              corev1.c_LivenessProbe := None;
              corev1.c_TerminationMessagePolicy := corev1.TerminationMessagePolicyUnset;
              corev1.c_TerminationMessagePath := EmptyString |} ];
       corev1.ps_NodeSelector := ∅;
       corev1.ps_Tolerations := [] |} in
  let meta := objMeta identity in
  {| appsv1.dp_TypeMeta := {| tm_Kind := "Deployment"; tm_APIVersion := "apps/v1" |};
     appsv1.dp_ObjectMeta :=
       {| om_Name := om_Name meta;
          om_Namespace := om_Namespace meta;
          om_Annotations := om_Annotations meta;
          om_Labels := om_Labels meta;
          om_Finalizers :=
            [SanitizeKubeResourceName identity +:+ directCSIFinalizerDeleteProtection] |};
     appsv1.dp_Spec :=
       {| appsv1.dps_Replicas := Some replicas;
          appsv1.dps_Selector :=
            AddLabelToSelector emptyLabelSelector directCSISelector
              generatedSelectorValue;
          appsv1.dps_Template :=
            {| corev1.pts_ObjectMeta :=
                 {| om_Name := SanitizeKubeResourceName name;
                    om_Namespace := SanitizeKubeResourceName name;
                    om_Annotations := {[ CreatedByLabel := DirectCSIPluginName ]};
                    om_Labels :=
                      <[directCSISelector := generatedSelectorValue]>
                        {[ webhookSelector := selectorValueEnabled ]};
                    om_Finalizers := [] |};
               corev1.pts_Spec := podSpec |} |} |}.

(** CreateDeployment creates direct-csi deployment.  It stores the CA
    certificate it obtains in [validationWebhookCaBundle]. *)
Definition CreateDeployment (identity directCSIContainerImage : string)
    (dryRun : bool) (registry org : string) (writer : Writer) (g : Globals)
    : Prog (option error * Globals) :=
  let name := SanitizeKubeResourceName identity in
  generatedSelectorValue <- generateSanitizedUniqueNameFrom name ;;
  certs <- perform (getCerts [admissionWehookDNSName]) ;;
  match certs with
  | inl certErr => Ret (Some certErr, g)
  | inr (caCertBytes, publicCertBytes, privateKeyBytes) =>
      let g :=
        {| validationWebhookCaBundle := caCertBytes;
           conversionWebhookCaBundle := conversionWebhookCaBundle g |} in
      let deployment :=
        deploymentObj identity directCSIContainerImage registry org
          generatedSelectorValue in
      let afterSecret : Prog (option error) :=
        check! perform (WriteObject writer (ObjDeployment deployment)) ;;
        if dryRun then perform (LogYAML (ObjDeployment deployment))
        else
          check! perform (Create (AppsV1_Deployments (SanitizeKubeResourceName identity))
                            (ObjDeployment deployment)) ;;
          check! CreateControllerService generatedSelectorValue identity dryRun ;;
          Ret None in
      err <- CreateControllerSecret identity publicCertBytes privateKeyBytes dryRun ;;
      res <- match err with
             | Some err =>
                 if negb (IsAlreadyExists err) then Ret (Some err) else afterSecret
             | None => afterSecret
             end ;;
      Ret (res, g)
  end.

Definition getDriveValidatingWebhookConfig (identity : string) (g : Globals)
    : admissionv1.ValidatingWebhookConfiguration :=
  let name := SanitizeKubeResourceName identity in
  let getServiceRef :=
    let path := "/validatedrive" in
    {| admissionv1.sr_Namespace := name;
       admissionv1.sr_Name := validationControllerName;
       admissionv1.sr_Path := Some path |} in
  let getClientConfig :=
    {| admissionv1.wcc_Service := Some getServiceRef;
       admissionv1.wcc_CABundle := validationWebhookCaBundle g |} in
  let getValidationRules :=
    [ {| admissionv1.rwo_Operations := [admissionv1.Update];
         admissionv1.rwo_Rule :=
           {| admissionv1.r_APIGroups := ["*"];
              admissionv1.r_APIVersions := ["*"];
              admissionv1.r_Resources := ["directcsidrives"] |} |} ] in
  let getValidatingWebhooks :=
    let supportedReviewVersions := ["v1"; "v1beta1"; "v1beta2"; "v1beta3"] in
    let sideEffectClass := admissionv1.SideEffectClassNone in
    [ {| admissionv1.vw_Name := validationWebhookConfigName;
         admissionv1.vw_ClientConfig := getClientConfig;
         admissionv1.vw_AdmissionReviewVersions := supportedReviewVersions;
         admissionv1.vw_SideEffects := Some sideEffectClass;
         admissionv1.vw_Rules := getValidationRules |} ] in
  {| admissionv1.vwc_TypeMeta :=
       {| tm_Kind := "ValidatingWebhookConfiguration";
          tm_APIVersion := "admissionregistration.k8s.io/v1" |};
     admissionv1.vwc_ObjectMeta :=
       {| om_Name := validationWebhookConfigName;
          om_Namespace := name;
          om_Annotations := ∅; om_Labels := ∅;
          om_Finalizers :=
            [SanitizeKubeResourceName identity +:+ directCSIFinalizerDeleteProtection] |};
     admissionv1.vwc_Webhooks := getValidatingWebhooks |}.

(** RegisterDriveValidationRules registers drive validation rules. *)
Definition RegisterDriveValidationRules (identity : string) (dryRun : bool)
    (writer : Writer) (g : Globals) : Prog (option error) :=
  let driveValidatingWebhookConfig := getDriveValidatingWebhookConfig identity g in
  check! perform (WriteObject writer
                    (ObjValidatingWebhookConfiguration driveValidatingWebhookConfig)) ;;
  if dryRun then
    perform (LogYAML (ObjValidatingWebhookConfiguration driveValidatingWebhookConfig))
  else
    check! perform (Create AdmissionregistrationV1_ValidatingWebhookConfigurations
                      (ObjValidatingWebhookConfiguration driveValidatingWebhookConfig)) ;;
    Ret None.

(** [existingSecret.Data = secret.Data] *)
Definition withData (existingSecret : corev1.Secret) (data : gmap string bytes)
    : corev1.Secret :=
  {| corev1.sec_TypeMeta := corev1.sec_TypeMeta existingSecret;
     corev1.sec_ObjectMeta := corev1.sec_ObjectMeta existingSecret;
     corev1.sec_Data := data |}.

(** CreateOrUpdateConversionKeyPairSecret creates/updates conversion
    keypairs secret. *)
Definition CreateOrUpdateConversionKeyPairSecret (identity : string)
    (publicCertBytes privateKeyBytes : bytes) (dryRun : bool) (writer : Writer)
    : Prog (option error) :=
  let secretsClient := CoreV1_Secrets (SanitizeKubeResourceName identity) in
  let secret :=
    secretObj conversionKeyPair identity
      (keyPairDataMap publicCertBytes privateKeyBytes) in
  check! perform (WriteObject writer (ObjSecret secret)) ;;
  if dryRun then perform (LogYAML (ObjSecret secret))
  else
    existing <- perform (Get secretsClient conversionKeyPair) ;;
    match existing with
    | inl err =>
        if negb (IsNotFound err) then Ret (Some err)
        else
          check! perform (Create secretsClient (ObjSecret secret)) ;;
          Ret None
    | inr existingSecret =>
        let existingSecret := withData existingSecret (corev1.sec_Data secret) in
        check! perform (Update secretsClient existingSecret) ;;
        Ret None
    end.

(** CreateOrUpdateConversionCACertSecret creates/updates conversion CA
    certs secret. *)
Definition CreateOrUpdateConversionCACertSecret (identity : string)
    (caCertBytes : bytes) (dryRun : bool) (writer : Writer)
    : Prog (option error) :=
  let secretsClient := CoreV1_Secrets (SanitizeKubeResourceName identity) in
  let secret := secretObj conversionCACert identity (caCertDataMap caCertBytes) in
  check! perform (WriteObject writer (ObjSecret secret)) ;;
  if dryRun then perform (LogYAML (ObjSecret secret))
  else
    existing <- perform (Get secretsClient conversionCACert) ;;
    match existing with
    | inl err =>
        if negb (IsNotFound err) then Ret (Some err)
        else
          check! perform (Create secretsClient (ObjSecret secret)) ;;
          Ret None
    | inr existingSecret =>
        let existingSecret := withData existingSecret (corev1.sec_Data secret) in
        check! perform (Update secretsClient existingSecret) ;;
        Ret None
    end.

(** GetConversionCABundle gets conversion CA bundle.  The Go function
    returns a pair [([]byte, error)]. *)
Definition GetConversionCABundle (identity : string) (dryRun : bool) (g : Globals)
    : Prog (bytes * option error) :=
  let getCABundlerFromGlobal : bytes * option error :=
    if decide (List.length (conversionWebhookCaBundle g) = 0%nat)
    then ([], Some errEmptyCABundle)
    else (conversionWebhookCaBundle g, None) in
  r <- perform (Get (CoreV1_Secrets (SanitizeKubeResourceName identity))
                  conversionCACert) ;;
  match r with
  | inl err =>
      if IsNotFound err && dryRun then Ret getCABundlerFromGlobal
      else Ret ([], Some err)
  | inr secret =>
      match corev1.sec_Data secret !! caCertFileName with
      | Some value => Ret (value, None)
      | None => Ret ([], Some errEmptyCABundle)
      end
  end.

Definition checkConversionSecrets (identity : string) : Prog (option error) :=
  let secretsClient := CoreV1_Secrets (SanitizeKubeResourceName identity) in
  r <- perform (Get secretsClient conversionKeyPair) ;;
  match r with
  | inl err => Ret (Some err)
  | inr _ =>
      r <- perform (Get secretsClient conversionCACert) ;;
      match r with
      | inl err => Ret (Some err)
      | inr _ => Ret None
      end
  end.

(** CreateConversionWebhookSecrets creates conversion webhook secrets.
    It stores the CA certificate it obtains in
    [conversionWebhookCaBundle]. *)
Definition CreateConversionWebhookSecrets (identity : string) (dryRun : bool)
    (writer : Writer) (g : Globals) : Prog (option error * Globals) :=
  err <- checkConversionSecrets identity ;;
  match err with
  | None => Ret (None, g)
  | Some err =>
      if negb (IsNotFound err) then Ret (Some err, g)
      else
        certs <- perform (getCerts [getConversionWebhookDNSName identity]) ;;
        match certs with
        | inl certErr => Ret (Some certErr, g)
        | inr (caCertBytes, publicCertBytes, privateKeyBytes) =>
            let g :=
              {| validationWebhookCaBundle := validationWebhookCaBundle g;
                 conversionWebhookCaBundle := caCertBytes |} in
            res <- (check! CreateOrUpdateConversionKeyPairSecret identity
                             publicCertBytes privateKeyBytes dryRun writer ;;
                    CreateOrUpdateConversionCACertSecret identity caCertBytes
                      dryRun writer) ;;
            Ret (res, g)
        end
  end.

End Installer.

(** ** The version negotiator *)

(** Modelled from the spec: the version negotiator
    ([utils.GetGroupKindVersions]) is declared outside this file.  Given
    the versions the cluster advertises for a group and kind and an
    ordered preference list of candidates, it returns the
    highest-preference candidate that is offered, and fails with
    UnsupportedVersion when none of the candidates is offered. *)
Definition negotiate (advertised : list string) (group kind : string)
    (candidates : list string) : error + schema.GroupVersionKind :=
  match List.find (fun v => bool_decide (v ∈ advertised)) candidates with
  | Some v => inr {| schema.Group := group; schema.Version := v; schema.Kind := kind |}
  | None => inl ErrKubeVersionNotSupported
  end.

(** ** A reference world

    One concrete environment for the operations to run in: a cluster
    that keeps the objects submitted to it by endpoint and name, a
    sink that accepts every object, a fixed supply of random strings
    and a fixed answer of the certificate helper. *)

#[global] Instance Endpoint_eq_dec : EqDecision Endpoint.
Proof. solve_decision. Defined.

Definition Endpoint_code (ep : Endpoint) : nat * string :=
  match ep with
  | CoreV1_Namespaces => (0, EmptyString)
  | StorageV1_CSIDrivers => (1, EmptyString)
  | StorageV1beta1_CSIDrivers => (2, EmptyString)
  | StorageV1_StorageClasses => (3, EmptyString)
  | StorageV1beta1_StorageClasses => (4, EmptyString)
  | CoreV1_Services ns => (5, ns)
  | AppsV1_DaemonSets ns => (6, ns)
  | AppsV1_Deployments ns => (7, ns)
  | CoreV1_Secrets ns => (8, ns)
  | AdmissionregistrationV1_ValidatingWebhookConfigurations => (9, EmptyString)
  end%nat.

Definition Endpoint_of_code (c : nat * string) : Endpoint :=
  match c with
  | (0, _) => CoreV1_Namespaces
  | (1, _) => StorageV1_CSIDrivers
  | (2, _) => StorageV1beta1_CSIDrivers
  | (3, _) => StorageV1_StorageClasses
  | (4, _) => StorageV1beta1_StorageClasses
  | (5, ns) => CoreV1_Services ns
  | (6, ns) => AppsV1_DaemonSets ns
  | (7, ns) => AppsV1_Deployments ns
  | (8, ns) => CoreV1_Secrets ns
  | _ => AdmissionregistrationV1_ValidatingWebhookConfigurations
  end%nat.

#[global] Instance Endpoint_countable : Countable Endpoint.
Proof.
  apply (inj_countable' Endpoint_code Endpoint_of_code).
  intros []; reflexivity.
Defined.

(** The name an object is stored under. *)
Definition objName (obj : Object) : string :=
  metav1.om_Name
    match obj with
    | ObjNamespace ns => corev1.ns_ObjectMeta ns
    | ObjCSIDriverV1 d => storagev1.cd_ObjectMeta d
    | ObjCSIDriverV1beta1 d => storagev1beta1.cd_ObjectMeta d
    | ObjStorageClassV1 sc => storagev1.stc_ObjectMeta sc
    | ObjStorageClassV1beta1 sc => storagev1beta1.stc_ObjectMeta sc
    | ObjService svc => corev1.svc_ObjectMeta svc
    | ObjDaemonSet ds => appsv1.ds_ObjectMeta ds
    | ObjDeployment d => appsv1.dp_ObjectMeta d
    | ObjSecret sec => corev1.sec_ObjectMeta sec
    | ObjValidatingWebhookConfiguration c => admissionv1.vwc_ObjectMeta c
    end.

Record World := {
  secrets : gmap (Endpoint * string) corev1.Secret;
  objects : gmap (Endpoint * string) Object;
  advertised : list string;
  randoms : list string;
  certs : error + (bytes * bytes * bytes);
  written : list (Writer * Object) }.

Definition alreadyExists (name : string) : error :=
  StatusError StatusReasonAlreadyExists name.

Definition notFound (name : string) : error :=
  StatusError StatusReasonNotFound name.

Definition world_create (client : Endpoint) (obj : Object) (w : World)
    : option error * World :=
  match obj with
  | ObjSecret sec =>
      match secrets w !! (client, objName obj) with
      | Some _ => (Some (alreadyExists (objName obj)), w)
      | None =>
          (None,
           {| secrets := <[(client, objName obj) := sec]> (secrets w);
              objects := objects w; advertised := advertised w;
              randoms := randoms w; certs := certs w; written := written w |})
      end
  | _ =>
      match objects w !! (client, objName obj) with
      | Some _ => (Some (alreadyExists (objName obj)), w)
      | None =>
          (None,
           {| secrets := secrets w;
              objects := <[(client, objName obj) := obj]> (objects w);
              advertised := advertised w;
              randoms := randoms w; certs := certs w; written := written w |})
      end
  end.

Definition world_get (client : Endpoint) (name : string) (w : World)
    : (error + corev1.Secret) * World :=
  match secrets w !! (client, name) with
  | Some sec => (inr sec, w)
  | None => (inl (notFound name), w)
  end.

Definition world_update (client : Endpoint) (sec : corev1.Secret) (w : World)
    : option error * World :=
  let name := objName (ObjSecret sec) in
  match secrets w !! (client, name) with
  | Some _ =>
      (None,
       {| secrets := <[(client, name) := sec]> (secrets w);
          objects := objects w; advertised := advertised w;
          randoms := randoms w; certs := certs w; written := written w |})
  | None => (Some (notFound name), w)
  end.

Definition world_write (writer : Writer) (obj : Object) (w : World)
    : option error * World :=
  (None,
   {| secrets := secrets w; objects := objects w; advertised := advertised w;
      randoms := randoms w; certs := certs w;
      written := written w ++ [(writer, obj)] |}).

Definition world_random (w : World) : string * World :=
  match randoms w with
  | [] => (EmptyString, w)
  | r :: rest =>
      (r,
       {| secrets := secrets w; objects := objects w; advertised := advertised w;
          randoms := rest; certs := certs w; written := written w |})
  end.

Definition world : handler World :=
  fun X c =>
    match c in call X return World -> X * World with
    | WriteObject writer obj => world_write writer obj
    | LogYAML _ => fun w => (None, w)
    | GetGroupKindVersions group kind versions =>
        fun w => (negotiate (advertised w) group kind versions, w)
    | Create client obj => world_create client obj
    | Get client name => world_get client name
    | Update client sec => world_update client sec
    | newRandomString _ => world_random
    | getCerts _ => fun w => (certs w, w)
    end.

(** A world whose cluster is empty and advertises the given versions. *)
Definition freshWorld (versions : list string) (rs : list string)
    (cs : error + (bytes * bytes * bytes)) : World :=
  {| secrets := ∅; objects := ∅; advertised := versions;
     randoms := rs; certs := cs; written := [] |}.

(** A sink that refuses every object, in front of the reference world. *)
Definition errSinkClosed : error := errorString "write: sink closed".

Definition closedSink : handler World :=
  fun X c =>
    match c in call X return World -> X * World with
    | WriteObject _ _ => fun w => (Some errSinkClosed, w)
    | c' => world _ c'
    end.

(** A sample name sanitizer: at most 253 bytes, upper-case letters
    lowered, every byte outside [a-z0-9] replaced by a hyphen. *)
Definition sanitizeByte (a : ascii) : ascii :=
  let n := nat_of_ascii a in
  if (65 <=? n)%nat && (n <=? 90)%nat then ascii_of_nat (n + 32)
  else if ((97 <=? n)%nat && (n <=? 122)%nat) || ((48 <=? n)%nat && (n <=? 57)%nat)
       then a
       else "-"%char.

Fixpoint mapString (f : ascii -> ascii) (s : string) : string :=
  match s with
  | EmptyString => EmptyString
  | String a rest => String (f a) (mapString f rest)
  end.

Definition sanitizeName (name : string) : string :=
  mapString sanitizeByte
    (if (253 <? String.length name)%nat then String.substring 0 253 name else name).

(** [path/filepath] on a Unix system. *)
Module filepath.

(** The elements of a path between its slashes. *)
Fixpoint elements (path current : string) : list string :=
  match path with
  | EmptyString => [current]
  | String a rest =>
      if Ascii.eqb a "/" then current :: elements rest EmptyString
      else elements rest (current +:+ String a EmptyString)
  end.

(** One element more: empty and dot elements are dropped, a dot-dot
    element takes away the element before it, or is dropped at the root. *)
Definition keep (rooted : bool) (kept : list string) (elem : string) : list string :=
  if decide (elem = EmptyString) then kept
  else if decide (elem = ".") then kept
  else if decide (elem = "..") then
    match kept with
    | top :: below => if decide (top = "..") then elem :: kept else below
    | [] => if rooted then [] else [elem]
    end
  else elem :: kept.

(** [filepath.Clean] *)
Definition Clean (path : string) : string :=
  let rooted := match path with String "/" _ => true | _ => false end in
  let kept := rev (fold_left (keep rooted) (elements path EmptyString) []) in
  let out := (if rooted then "/" else EmptyString) +:+ strings_Join kept "/" in
  if decide (out = EmptyString) then "." else out.

(** [filepath.Join]: leading empty elements are skipped, and the rest
    joined and cleaned. *)
Fixpoint Join (elem : list string) : string :=
  match elem with
  | [] => EmptyString
  | e :: rest =>
      if decide (e = EmptyString) then Join rest
      else Clean (strings_Join elem "/")
  end.

End filepath.

(** A sample assignment of the package constants, with the sample
    sanitizer and [filepath.Join]. *)
Definition samplePackage : Package :=
  {| SanitizeKubeResourceName := sanitizeName;
     filepath_Join := filepath.Join;
     TopologyDriverIdentity := "direct.csi.min.io/identity";
     CreatedByLabel := "created-by";
     DirectCSIPluginName := "kubectl-direct-csi";
     DirectCSI := "direct.csi.min.io";
     CSIDriver := "CSIDriver";
     directCSISelector := "selector.direct.csi.min.io";
     webhookSelector := "selector.direct.csi.min.io.webhook";
     selectorValueEnabled := "enabled";
     directCSIFinalizerDeleteProtection := "/delete-protection";
     conversionWebhookPortName := "convwebhook";
     ConversionWebhookPort := 30443;
     admissionControllerWebhookPort := 20443;
     admissionControllerWebhookName := "validatinghook";
     healthZContainerPortName := "healthz";
     healthZContainerPortPath := "/healthz";
     kubeletDirPath := "/var/lib/kubelet";
     csiRootPath := "/var/lib/direct-csi/";
     volumeNameSocketDir := "socket-dir";
     volumeNameMountpointDir := "mountpoint-dir";
     volumeNameRegistrationDir := "registration-dir";
     volumeNamePluginDir := "plugins-dir";
     volumeNameCSIRootDir := "direct-csi-common-root";
     volumeNameSysDir := "sysfs";
     volumePathSysDir := "/sys";
     volumeNameDevDir := "devfs";
     volumePathDevDir := "/dev";
     volumeNameRunUdevData := "run-udev-data-dir";
     volumePathRunUdevData := "/run/udev/data";
     volumePathSocketDir := "/csi";
     nodeDriverRegistrarContainerName := "node-driver-registrar";
     CSIImageNodeDriverRegistrar := "csi-node-driver-registrar";
     directCSIContainerName := "direct-csi";
     livenessProbeContainerName := "liveness-probe";
     CSIImageLivenessProbe := "livenessprobe";
     csiProvisionerContainerName := "csi-provisioner";
     CSIImageCSIProvisioner := "csi-provisioner";
     logLevel := 3;
     kubeNodeNameEnvVar := "KUBE_NODE_NAME";
     endpointEnvVarCSI := "CSI_ENDPOINT";
     conversionCACert := "conversion-webhook-ca-cert";
     conversionKeyPair := "conversion-webhook-tls";
     conversionCADir := "/etc/conversion/CAs";
     conversionCertsDir := "/etc/conversion/certs";
     admissionControllerCertsDir := "admission-webhook-certs";
     admissionCertsDir := "/etc/admission/certs";
     admissionWebhookSecretName := "validationwebhookcerts";
     admissionWehookDNSName := "validation-controller.direct-csi.svc";
     validationControllerName := "validation-controller";
     validationWebhookConfigName := "drive.validation.controller";
     privateKeyFileName := "key.pem";
     publicCertFileName := "cert.pem";
     caCertFileName := "ca.pem" |}.


(** ** Vocabulary for the statements *)

Definition is_write (ev : event) : bool :=
  match ev with EvWriteObject _ _ _ => true | _ => false end.

(** The object an event serializes, logs or submits. *)
Definition event_object (ev : event) : option Object :=
  match ev with
  | EvWriteObject _ obj _ | EvLogYAML obj _ | EvCreate _ obj _ => Some obj
  | EvUpdate _ sec _ => Some (ObjSecret sec)
  | _ => None
  end.

(** The three-step protocol of the installer operations, in the words
    of the specification: serialize the descriptor to the writer; in
    dry-run mode stop there (after logging it); otherwise submit it
    through the create primitive of the API. *)
Definition protocol (writer : Writer) (obj : Object) (dryRun : bool)
    (client : Endpoint) : Prog (option error) :=
  bind (perform (WriteObject writer obj)) (fun written =>
    match written with
    | Some e => Ret (Some e)
    | None =>
        if dryRun then perform (LogYAML obj)
        else bind (perform (Create client obj)) (fun created => Ret created)
    end).

(** The get-or-create-or-update reconciliation of a secret, in the words
    of the specification. *)
Definition reconcileSecret (client : Endpoint) (name : string)
    (secret : corev1.Secret) (dryRun : bool) (writer : Writer)
    : Prog (option error) :=
  bind (perform (WriteObject writer (ObjSecret secret))) (fun written =>
    match written with
    | Some e => Ret (Some e)
    | None =>
        if dryRun then perform (LogYAML (ObjSecret secret))
        else
          bind (perform (Get client name)) (fun fetched =>
            match fetched with
            | inl e =>
                if IsNotFound e then perform (Create client (ObjSecret secret))
                else Ret (Some e)
            | inr existing =>
                perform (Update client (withData existing (corev1.sec_Data secret)))
            end)
    end).

(** The outcome of two programs run one after the other. *)
Definition run2 {S A B : Type} (h : handler S) (p : Prog A) (q : Prog B) (s : S)
    : outcome S A * outcome S B :=
  let o1 := run h p s in
  (o1, run h q (final o1)).


(** The question [CreateCSIDriver] and [CreateStorageClass] put to the
    version negotiator. *)
Definition storageNegotiation : call (error + schema.GroupVersionKind) :=
  GetGroupKindVersions "storage.k8s.io" "CSIDriver" ["v1"; "v1beta1"; "v1alpha1"].

(** Two programs that no environment can tell apart. *)
Definition same_runs {A : Type} (p q : Prog A) : Prop :=
  forall (S : Type) (h : handler S) (s : S), run h p s = run h q s.

(** The objects a run serializes, logs or submits. *)
Definition descriptors (tr : list event) : list Object := omap event_object tr.

(** The random strings a run draws. *)
Definition draws (tr : list event) : list string :=
  omap (fun ev => match ev with EvNewRandomString _ r => Some r | _ => None end) tr.

(** The failed create calls of a run: the object and the error answered. *)
Definition create_failures (tr : list event) : list (Object * error) :=
  omap (fun ev => match ev with EvCreate _ obj (Some e) => Some (obj, e) | _ => None end) tr.

(** Readers of the workload descriptors. *)
Definition daemonSetSelector (ds : appsv1.DaemonSet) : gmap string string :=
  metav1.ls_MatchLabels (appsv1.dss_Selector (appsv1.ds_Spec ds)).

Definition daemonSetTemplate (ds : appsv1.DaemonSet) : corev1.PodTemplateSpec :=
  appsv1.dss_Template (appsv1.ds_Spec ds).

Definition deploymentSelector (d : appsv1.Deployment) : gmap string string :=
  metav1.ls_MatchLabels (appsv1.dps_Selector (appsv1.dp_Spec d)).

Definition deploymentTemplate (d : appsv1.Deployment) : corev1.PodTemplateSpec :=
  appsv1.dps_Template (appsv1.dp_Spec d).

Definition templateLabels (t : corev1.PodTemplateSpec) : gmap string string :=
  metav1.om_Labels (corev1.pts_ObjectMeta t).

Definition templateAnnotations (t : corev1.PodTemplateSpec) : gmap string string :=
  metav1.om_Annotations (corev1.pts_ObjectMeta t).

(** The security contexts of the containers that have one. *)
Definition securityContexts (t : corev1.PodTemplateSpec) : list corev1.SecurityContext :=
  omap corev1.c_SecurityContext (corev1.ps_Containers (corev1.pts_Spec t)).

(** A pod template with the value of one label removed. *)
Definition templateWithoutLabel (key : string) (t : corev1.PodTemplateSpec)
    : corev1.PodTemplateSpec :=
  let meta := corev1.pts_ObjectMeta t in
  {| corev1.pts_ObjectMeta :=
       {| metav1.om_Name := metav1.om_Name meta;
          metav1.om_Namespace := metav1.om_Namespace meta;
          metav1.om_Annotations := metav1.om_Annotations meta;
          metav1.om_Labels := delete key (metav1.om_Labels meta);
          metav1.om_Finalizers := metav1.om_Finalizers meta |};
     corev1.pts_Spec := corev1.pts_Spec t |}.

(** A workload descriptor with the selector label taken out of the
    selector and of the pod template: everything but the token. *)
Definition daemonSetWithoutToken (key : string) (ds : appsv1.DaemonSet)
    : appsv1.DaemonSet :=
  {| appsv1.ds_TypeMeta := appsv1.ds_TypeMeta ds;
     appsv1.ds_ObjectMeta := appsv1.ds_ObjectMeta ds;
     appsv1.ds_Spec :=
       {| appsv1.dss_Selector :=
            {| metav1.ls_MatchLabels := delete key (daemonSetSelector ds) |};
          appsv1.dss_Template := templateWithoutLabel key (daemonSetTemplate ds) |} |}.

Definition deploymentWithoutToken (key : string) (d : appsv1.Deployment)
    : appsv1.Deployment :=
  {| appsv1.dp_TypeMeta := appsv1.dp_TypeMeta d;
     appsv1.dp_ObjectMeta := appsv1.dp_ObjectMeta d;
     appsv1.dp_Spec :=
       {| appsv1.dps_Replicas := appsv1.dps_Replicas (appsv1.dp_Spec d);
          appsv1.dps_Selector :=
            {| metav1.ls_MatchLabels := delete key (deploymentSelector d) |};
          appsv1.dps_Template := templateWithoutLabel key (deploymentTemplate d) |} |}.

(** The CA bundles a webhook configuration carries. *)
Definition caBundles (c : admissionv1.ValidatingWebhookConfiguration) : list bytes :=
  map (fun w => admissionv1.wcc_CABundle (admissionv1.vw_ClientConfig w))
    (admissionv1.vwc_Webhooks c).

(** The annotation key of the apparmor profile of the direct-csi container. *)
Definition apparmorAnnotation : string :=
  "container.apparmor.security.beta.kubernetes.io/direct-csi".

(** Every secret of a world is stored under its own name. *)
Definition secrets_by_name (w : World) : Prop :=
  forall client name sec,
    secrets w !! (client, name) = Some sec -> objName (ObjSecret sec) = name.

Fixpoint repeatByte (n : nat) (a : ascii) : string :=
  match n with
  | O => EmptyString
  | S n' => String a (repeatByte n' a)
  end.

(** Sample certificate material. *)
Definition sampleCerts : error + (bytes * bytes * bytes) :=
  inr ([Byte.x01; Byte.x02], [Byte.x03], [Byte.x04]).

(** The name [generateSanitizedUniqueNameFrom] returns when the random
    string it draws is [shortUUID]. *)
Definition uniqueName `{Package} (name shortUUID : string) : string :=
  let sanitizedName := SanitizeKubeResourceName name in
  (if (255 <=? String.length sanitizedName)%nat
   then String.substring 0 249 sanitizedName
   else sanitizedName) +:+ "-" +:+ shortUUID.

(** The descriptor was handed to the writer. *)
Definition serialized_to (writer : Writer) (obj : Object) (tr : list event) : Prop :=
  exists r, In (EvWriteObject writer obj r) tr.

(** The operation returns the error of any create call that failed. *)
Definition verbatim {S : Type} (h : handler S) (s : S) (p : Prog (option error)) : Prop :=
  forall obj e,
    In (obj, e) (create_failures (trace (run h p s))) ->
    result (run h p s) = Some e.

(** The runs of a reconciliation once the secret has been serialized:
    the secret is fetched by name; not found, it is created; found, it
    is updated with its data overwritten; any other fetch error is
    returned. *)
Inductive reconcile_run (client : Endpoint) (name : string) (secret : corev1.Secret)
    (writer : Writer) : list event -> option error -> Prop :=
| reconcile_created (e : error) (r : option error) :
    IsNotFound e = true ->
    reconcile_run client name secret writer
      [EvWriteObject writer (ObjSecret secret) None;
       EvGet client name (inl e);
       EvCreate client (ObjSecret secret) r] r
| reconcile_updated (existing : corev1.Secret) (r : option error) :
    reconcile_run client name secret writer
      [EvWriteObject writer (ObjSecret secret) None;
       EvGet client name (inr existing);
       EvUpdate client (withData existing (corev1.sec_Data secret)) r] r
| reconcile_fetch_failed (e : error) :
    IsNotFound e = false ->
    reconcile_run client name secret writer
      [EvWriteObject writer (ObjSecret secret) None;
       EvGet client name (inl e)] (Some e).

(** Calls that change the cluster. *)
Definition is_change (ev : event) : bool := is_create ev || is_update ev.

(** A run that contacts no API endpoint. *)
Definition quiet {S A : Type} (h : handler S) (s : S) (p : Prog A) : Prop :=
  existsb is_api_call (trace (run h p s)) = false.

(** ** More vocabulary: how the objects refer to one another *)

(** The namespace an object's metadata names. *)
Definition objNamespace (obj : Object) : string :=
  metav1.om_Namespace
    match obj with
    | ObjNamespace ns => corev1.ns_ObjectMeta ns
    | ObjCSIDriverV1 d => storagev1.cd_ObjectMeta d
    | ObjCSIDriverV1beta1 d => storagev1beta1.cd_ObjectMeta d
    | ObjStorageClassV1 sc => storagev1.stc_ObjectMeta sc
    | ObjStorageClassV1beta1 sc => storagev1beta1.stc_ObjectMeta sc
    | ObjService svc => corev1.svc_ObjectMeta svc
    | ObjDaemonSet ds => appsv1.ds_ObjectMeta ds
    | ObjDeployment d => appsv1.dp_ObjectMeta d
    | ObjSecret sec => corev1.sec_ObjectMeta sec
    | ObjValidatingWebhookConfiguration c => admissionv1.vwc_ObjectMeta c
    end.

(** The namespace a namespaced client interface is bound to. *)
Definition endpointNamespace (client : Endpoint) : option string :=
  match client with
  | CoreV1_Services ns | AppsV1_DaemonSets ns | AppsV1_Deployments ns
  | CoreV1_Secrets ns => Some ns
  | _ => None
  end.

(** The create calls of a run: the client interface and the object. *)
Definition creates (tr : list event) : list (Endpoint * Object) :=
  omap (fun ev => match ev with EvCreate client obj _ => Some (client, obj) | _ => None end) tr.

(** The create calls of a run that succeeded. *)
Definition created (tr : list event) : list (Endpoint * Object) :=
  omap (fun ev => match ev with EvCreate client obj None => Some (client, obj) | _ => None end) tr.

(** The objects a run has logged as its dry-run preview. *)
Definition logged (tr : list event) : list Object :=
  omap (fun ev => match ev with EvLogYAML obj None => Some obj | _ => None end) tr.

(** The serialization errors of a run. *)
Definition write_failures (tr : list event) : list error :=
  omap (fun ev => match ev with EvWriteObject _ _ (Some e) => Some e | _ => None end) tr.

(** The volumes a pod declares and the volumes its containers mount. *)
Definition volumeNames (t : corev1.PodTemplateSpec) : list string :=
  map corev1.v_Name (corev1.ps_Volumes (corev1.pts_Spec t)).

Definition mountedVolumeNames (t : corev1.PodTemplateSpec) : list string :=
  concat (map (fun c => map corev1.vm_Name (corev1.c_VolumeMounts c))
            (corev1.ps_Containers (corev1.pts_Spec t))).

(** The secrets a pod takes its secret volumes from. *)
Definition secretVolumeSources (t : corev1.PodTemplateSpec) : list string :=
  omap (fun v => corev1.svs_SecretName <$> corev1.vs_Secret (corev1.v_VolumeSource v))
    (corev1.ps_Volumes (corev1.pts_Spec t)).

(** The named ports the containers of a pod declare. *)
Definition containerPorts (t : corev1.PodTemplateSpec) : list (string * Z) :=
  concat (map (fun c => map (fun p => (corev1.cp_Name p, corev1.cp_ContainerPort p))
                          (corev1.c_Ports c))
            (corev1.ps_Containers (corev1.pts_Spec t))).

(** The arguments of the containers of a pod. *)
Definition containerArguments (t : corev1.PodTemplateSpec) : list string :=
  concat (map corev1.c_Args (corev1.ps_Containers (corev1.pts_Spec t))).

(** The named ports that the ports of a service target. *)
Definition targetedPorts (svc : corev1.Service) : list (string * Z) :=
  omap (fun p => match corev1.sp_TargetPort p with
                 | intstr.String name => Some (name, corev1.sp_Port p)
                 | intstr.Int _ => None
                 end)
    (corev1.ss_Ports (corev1.svc_Spec svc)).

(** The services the webhooks of a configuration call: namespace and name. *)
Definition webhookServices (c : admissionv1.ValidatingWebhookConfiguration)
    : list (string * string) :=
  omap (fun w => (fun ref => (admissionv1.sr_Namespace ref, admissionv1.sr_Name ref))
                   <$> admissionv1.wcc_Service (admissionv1.vw_ClientConfig w))
    (admissionv1.vwc_Webhooks c).

(** A label selector matches a set of labels. *)
Definition selects (selector labels : gmap string string) : Prop :=
  forall key value, selector !! key = Some value -> labels !! key = Some value.

(** Every create call of a run goes through the client interface of the
    namespace the submitted object names. *)
Definition well_addressed (tr : list event) : Prop :=
  forall client obj ns,
    In (client, obj) (creates tr) ->
    endpointNamespace client = Some ns ->
    objNamespace obj = ns.

(** The discovery query of the version negotiator. *)
Definition is_discovery (ev : event) : bool :=
  match ev with EvGetGroupKindVersions _ _ _ _ => true | _ => false end.

(** A run that stops at a serialization error: the error is returned,
    the failed serialization is the last call of the run, and the calls
    made before it are as [before] says. *)
Definition stops_at_write_failure {S A : Type} (h : handler S) (s : S) (p : Prog A)
    (returned : A -> option error) (before : list event -> Prop) : Prop :=
  forall e,
    In e (write_failures (trace (run h p s))) ->
    returned (result (run h p s)) = Some e /\
    exists calls writer obj,
      trace (run h p s) = calls ++ [EvWriteObject writer obj (Some e)] /\
      before calls.

(** * Properties *)

(** ** Running programs *)

Lemma run_bind {S A B : Type} (h : handler S) (p : Prog A) (f : A -> Prog B) (s : S) :
  run h (bind p f) s =
  {| trace := trace (run h p s)
                ++ trace (run h (f (result (run h p s))) (final (run h p s)));
     final := final (run h (f (result (run h p s))) (final (run h p s)));
     result := result (run h (f (result (run h p s))) (final (run h p s))) |}.
Proof.
  revert s. induction p as [a | X c k IH]; intros s; simpl.
  - destruct (run h (f a) s); reflexivity.
  - destruct (h X c s) as [x s']. rewrite IH. reflexivity.
Qed.

(** Name the answer of the environment to the next call. *)
Ltac answer h :=
  match goal with
  | |- context [h ?X ?c ?s] =>
      let x := fresh "x" in
      let s' := fresh "s" in
      destruct (h X c s) as [x s'];
      cbn [run bind perform trace result final fst snd log] in *
  end.

(** Split an answer into its cases. *)
Ltac split_answer :=
  match goal with
  | x : option error |- _ => destruct x
  | x : (_ + _)%type |- _ => destruct x
  | x : (_ * _)%type |- _ => destruct x
  | b : bool |- context [if ?b' then _ else _] => constr_eq b b'; destruct b
  | |- context [if negb (?f ?e) then _ else _] => destruct (f e) eqn:?
  | |- context [if IsNotFound ?e then _ else _] => destruct (IsNotFound e) eqn:?
  | |- context [if IsNotFound ?e && _ then _ else _] => destruct (IsNotFound e) eqn:?
  end;
  cbn [run bind perform trace result final fst snd log negb andb] in *.

(** Follow a program call by call, through every answer. *)
Ltac norm := cbn [run bind perform trace result final fst snd log negb andb] in *.

Ltac walk h := norm; repeat (first [answer h | split_answer | case_decide]; norm).

(** Point at an event of an explicit trace. *)
Ltac find_event := cbn [In]; repeat first [left; reflexivity | right].

(** ** Version negotiation *)

Lemma negotiate_unhandled advertised group kind gvk :
  "v1" ∉ advertised -> "v1beta1" ∉ advertised ->
  negotiate advertised group kind ["v1"; "v1beta1"; "v1alpha1"] = inr gvk ->
  schema.Version gvk = "v1alpha1".
Proof.
  intros H1 H2. unfold negotiate. cbn [find].
  rewrite !bool_decide_eq_false_2 by assumption.
  case_bool_decide; intros [= <-]; reflexivity.
Qed.

Lemma negotiate_failure advertised group kind candidates e :
  negotiate advertised group kind candidates = inl e ->
  e = ErrKubeVersionNotSupported.
Proof. unfold negotiate. destruct (find _ _); congruence. Qed.

Section Versions.
Context `{Package} {S : Type} (h : handler S).

(** Whatever the negotiator answers outside "v1" and "v1beta1", neither
    operation goes beyond the negotiation. *)
Lemma CreateCSIDriver_unhandled s identity dryRun writer gvk :
  fst (h _ storageNegotiation s) = inr gvk ->
  schema.Version gvk ≠ "v1" -> schema.Version gvk ≠ "v1beta1" ->
  result (run h (CreateCSIDriver identity dryRun writer) s)
    = Some ErrKubeVersionNotSupported /\
  trace (run h (CreateCSIDriver identity dryRun writer) s)
    = [log storageNegotiation (inr gvk)].
Proof.
  intros Hsel H1 H2. unfold CreateCSIDriver, storageNegotiation in *.
  cbn [run bind perform].
  destruct (h _ _ s) as [x s']. cbn [fst] in Hsel. subst x.
  walk h; done.
Qed.

Lemma CreateStorageClass_unhandled s identity dryRun writer gvk :
  fst (h _ storageNegotiation s) = inr gvk ->
  schema.Version gvk ≠ "v1" -> schema.Version gvk ≠ "v1beta1" ->
  result (run h (CreateStorageClass identity dryRun writer) s)
    = Some ErrKubeVersionNotSupported /\
  trace (run h (CreateStorageClass identity dryRun writer) s)
    = [log storageNegotiation (inr gvk)].
Proof.
  intros Hsel H1 H2. unfold CreateStorageClass, storageNegotiation in *.
  cbn [run bind perform].
  destruct (h _ _ s) as [x s']. cbn [fst] in Hsel. subst x.
  walk h; done.
Qed.

(** A failure of the negotiator is returned as it is. *)
Lemma CreateCSIDriver_negotiation_failed s identity dryRun writer e :
  fst (h _ storageNegotiation s) = inl e ->
  result (run h (CreateCSIDriver identity dryRun writer) s) = Some e /\
  trace (run h (CreateCSIDriver identity dryRun writer) s)
    = [log storageNegotiation (inl e)].
Proof.
  intros Hsel. unfold CreateCSIDriver, storageNegotiation in *.
  cbn [run bind perform].
  destruct (h _ _ s) as [x s']. cbn [fst] in Hsel. subst x. done.
Qed.

Lemma CreateStorageClass_negotiation_failed s identity dryRun writer e :
  fst (h _ storageNegotiation s) = inl e ->
  result (run h (CreateStorageClass identity dryRun writer) s) = Some e /\
  trace (run h (CreateStorageClass identity dryRun writer) s)
    = [log storageNegotiation (inl e)].
Proof.
  intros Hsel. unfold CreateStorageClass, storageNegotiation in *.
  cbn [run bind perform].
  destruct (h _ _ s) as [x s']. cbn [fst] in Hsel. subst x. done.
Qed.

(** C10.  [CreateCSIDriver] and [CreateStorageClass] offer "v1alpha1" to
    the negotiator as a third candidate but have no branch for it: when
    the negotiator selects "v1alpha1", either operation returns
    [ErrKubeVersionNotSupported], and the negotiation is the only call
    it makes: no descriptor is built, nothing reaches the writer, no
    create call is issued. *)
Theorem v1alpha1_has_no_build_branch s identity dryRun writer gvk :
  fst (h _ storageNegotiation s) = inr gvk ->
  schema.Version gvk = "v1alpha1" ->
  let driver := run h (CreateCSIDriver identity dryRun writer) s in
  let class := run h (CreateStorageClass identity dryRun writer) s in
  (result driver = Some ErrKubeVersionNotSupported /\
   trace driver = [EvGetGroupKindVersions "storage.k8s.io" "CSIDriver"
                     ["v1"; "v1beta1"; "v1alpha1"] (inr gvk)] /\
   descriptors (trace driver) = [] /\
   existsb is_write (trace driver) = false /\
   existsb is_create (trace driver) = false) /\
  (result class = Some ErrKubeVersionNotSupported /\
   trace class = [EvGetGroupKindVersions "storage.k8s.io" "CSIDriver"
                    ["v1"; "v1beta1"; "v1alpha1"] (inr gvk)] /\
   descriptors (trace class) = [] /\
   existsb is_write (trace class) = false /\
   existsb is_create (trace class) = false).
Proof.
  intros Hsel Hver driver class.
  assert (H1 : schema.Version gvk ≠ "v1") by (rewrite Hver; done).
  assert (H2 : schema.Version gvk ≠ "v1beta1") by (rewrite Hver; done).
  destruct (CreateCSIDriver_unhandled s identity dryRun writer gvk Hsel H1 H2)
    as [Hr Ht].
  destruct (CreateStorageClass_unhandled s identity dryRun writer gvk Hsel H1 H2)
    as [Hr' Ht'].
  subst driver class. rewrite Ht, Ht'.
  repeat split; assumption || reflexivity.
Qed.

(** C4.  When none of the schema versions the operations handle ("v1",
    "v1beta1") is advertised by the cluster, so that the negotiator
    either fails with UnsupportedVersion or selects a candidate without
    a build branch, [CreateCSIDriver] and [CreateStorageClass] return
    [ErrKubeVersionNotSupported], for every identity and dry-run
    setting, and issue no create call (nor any other API call). *)
Theorem unsupported_version_is_fatal s identity dryRun writer advertised :
  "v1" ∉ advertised -> "v1beta1" ∉ advertised ->
  fst (h _ storageNegotiation s)
    = negotiate advertised "storage.k8s.io" "CSIDriver" ["v1"; "v1beta1"; "v1alpha1"] ->
  let driver := run h (CreateCSIDriver identity dryRun writer) s in
  let class := run h (CreateStorageClass identity dryRun writer) s in
  (result driver = Some ErrKubeVersionNotSupported /\
   existsb is_create (trace driver) = false /\
   existsb is_api_call (trace driver) = false) /\
  (result class = Some ErrKubeVersionNotSupported /\
   existsb is_create (trace class) = false /\
   existsb is_api_call (trace class) = false).
Proof.
  intros H1 H2 Hsel driver class. subst driver class.
  destruct (negotiate advertised _ _ _) as [e | gvk] eqn:Hneg.
  - apply negotiate_failure in Hneg as ->.
    destruct (CreateCSIDriver_negotiation_failed s identity dryRun writer _ Hsel)
      as [-> ->].
    destruct (CreateStorageClass_negotiation_failed s identity dryRun writer _ Hsel)
      as [-> ->].
    repeat split; reflexivity.
  - apply negotiate_unhandled in Hneg; [| assumption ..].
    assert (schema.Version gvk ≠ "v1") by (rewrite Hneg; done).
    assert (schema.Version gvk ≠ "v1beta1") by (rewrite Hneg; done).
    destruct (CreateCSIDriver_unhandled s identity dryRun writer gvk Hsel)
      as [-> ->]; [assumption .. |].
    destruct (CreateStorageClass_unhandled s identity dryRun writer gvk Hsel)
      as [-> ->]; [assumption .. |].
    repeat split; reflexivity.
Qed.

End Versions.

Lemma v1alpha1_has_no_build_branch_witness :
  let w := freshWorld ["v1alpha1"] [] sampleCerts in
  let driver := run world (CreateCSIDriver (H := samplePackage) "direct-csi" false (writerTo 1)) w in
  let class := run world (CreateStorageClass (H := samplePackage) "direct-csi" false (writerTo 1)) w in
  result driver = Some ErrKubeVersionNotSupported /\
  existsb is_write (trace driver) = false /\
  result class = Some ErrKubeVersionNotSupported /\
  existsb is_write (trace class) = false.
Proof.
  pose proof (@v1alpha1_has_no_build_branch samplePackage World world
                (freshWorld ["v1alpha1"] [] sampleCerts) "direct-csi" false (writerTo 1)
                {| schema.Group := "storage.k8s.io"; schema.Version := "v1alpha1";
                   schema.Kind := "CSIDriver" |}
                eq_refl eq_refl) as ((H1 & _ & _ & H2 & _) & (H3 & _ & _ & H4 & _)).
  exact (conj H1 (conj H2 (conj H3 H4))).
Defined.

Lemma unsupported_version_is_fatal_witness :
  let w := freshWorld ["v2"] [] sampleCerts in
  result (run world (CreateCSIDriver (H := samplePackage) "direct-csi" false (writerTo 1)) w)
    = Some ErrKubeVersionNotSupported /\
  result (run world (CreateStorageClass (H := samplePackage) "direct-csi" true nilWriter) w)
    = Some ErrKubeVersionNotSupported.
Proof.
  assert (N1 : "v1" ∉ ["v2"]) by (rewrite list_elem_of_singleton; discriminate).
  assert (N2 : "v1beta1" ∉ ["v2"]) by (rewrite list_elem_of_singleton; discriminate).
  split.
  - exact (proj1 (proj1 (@unsupported_version_is_fatal samplePackage World world
             (freshWorld ["v2"] [] sampleCerts) "direct-csi" false (writerTo 1) ["v2"]
             N1 N2 eq_refl))).
  - exact (proj1 (proj2 (@unsupported_version_is_fatal samplePackage World world
             (freshWorld ["v2"] [] sampleCerts) "direct-csi" true nilWriter ["v2"]
             N1 N2 eq_refl))).
Defined.

(** ** The writer and the v1beta1 CSI driver *)

Section DriverWriter.
Context `{Package} {S : Type} (h : handler S).

(** On "v1" the driver goes through the three-step protocol. *)
Lemma CreateCSIDriver_v1 s identity dryRun writer gvk :
  fst (h _ storageNegotiation s) = inr gvk ->
  schema.Version gvk = "v1" ->
  serialized_to writer (ObjCSIDriverV1 (csiDriverV1 identity))
    (trace (run h (CreateCSIDriver identity dryRun writer) s)).
Proof.
  intros Hsel Hver. unfold CreateCSIDriver, storageNegotiation, serialized_to in *.
  cbn [run bind perform].
  destruct (h _ _ s) as [x s']. cbn [fst] in Hsel. subst x. rewrite Hver.
  walk h; try done; eexists; find_event.
Qed.

(** On "v1beta1" the descriptor is built, logged or submitted, and never
    handed to the writer. *)
Lemma CreateCSIDriver_v1beta1 s identity dryRun writer gvk :
  fst (h _ storageNegotiation s) = inr gvk ->
  schema.Version gvk = "v1beta1" ->
  descriptors (trace (run h (CreateCSIDriver identity dryRun writer) s))
    = [ObjCSIDriverV1beta1 (csiDriverV1beta1 identity)] /\
  existsb is_write (trace (run h (CreateCSIDriver identity dryRun writer) s)) = false.
Proof.
  intros Hsel Hver. unfold CreateCSIDriver, storageNegotiation in *.
  cbn [run bind perform].
  destruct (h _ _ s) as [x s']. cbn [fst] in Hsel. subst x. rewrite Hver.
  walk h; done.
Qed.

End DriverWriter.

(** C3.  On the schema version "v1beta1" [CreateCSIDriver] builds a
    descriptor and does not serialize it: on a cluster that advertises
    only "v1beta1", with a writer supplied, the driver is logged (dry
    run) or submitted (otherwise) and the writer receives nothing,
    whereas on "v1" the same operation hands the descriptor to the
    writer first. *)
Theorem CreateCSIDriver_v1beta1_bypasses_writer :
  let driver := csiDriverV1beta1 (H := samplePackage) "direct-csi" in
  let selected : error + schema.GroupVersionKind :=
    inr {| schema.Group := "storage.k8s.io"; schema.Version := "v1beta1";
           schema.Kind := "CSIDriver" |} in
  let CreateCSIDriver' := CreateCSIDriver (H := samplePackage) "direct-csi" in
  let dry :=
    run world (CreateCSIDriver' true (writerTo 1)) (freshWorld ["v1beta1"] [] sampleCerts) in
  let wet :=
    run world (CreateCSIDriver' false (writerTo 1)) (freshWorld ["v1beta1"] [] sampleCerts) in
  let v1 :=
    run world (CreateCSIDriver' true (writerTo 1)) (freshWorld ["v1"] [] sampleCerts) in
  (trace dry = [log storageNegotiation selected;
                EvLogYAML (ObjCSIDriverV1beta1 driver) None] /\
   result dry = None /\ written (final dry) = []) /\
  (trace wet = [log storageNegotiation selected;
                EvCreate StorageV1beta1_CSIDrivers (ObjCSIDriverV1beta1 driver) None] /\
   result wet = None /\ written (final wet) = []) /\
  written (final v1)
    = [(writerTo 1, ObjCSIDriverV1 (csiDriverV1 (H := samplePackage) "direct-csi"))].
Proof. vm_compute. repeat split; reflexivity. Qed.

(** ** The length of the generated name *)

Lemma length_append (s1 s2 : string) :
  String.length (s1 +:+ s2) = (String.length s1 + String.length s2)%nat.
Proof. induction s1 as [| a s1 IH]; simpl; [reflexivity | by rewrite IH]. Qed.

Lemma length_substring_0 (m : nat) (s : string) :
  (m <= String.length s)%nat -> String.length (String.substring 0 m s) = m.
Proof.
  revert s. induction m as [| m IH]; intros [| a s]; simpl; intros Hm;
    try reflexivity; try lia.
  rewrite IH; [reflexivity | lia].
Qed.

Section GeneratedName.
Context `{Package} {S : Type} (h : handler S).

(** Each call draws one random string of five bytes and returns
    [uniqueName] of it. *)
Lemma generateSanitizedUniqueNameFrom_run s name :
  exists r,
    trace (run h (generateSanitizedUniqueNameFrom name) s) = [EvNewRandomString 5 r] /\
    result (run h (generateSanitizedUniqueNameFrom name) s) = uniqueName name r.
Proof.
  unfold generateSanitizedUniqueNameFrom, uniqueName. cbn [run bind perform].
  destruct (h _ _ s) as [r s']. exists r. split; reflexivity.
Qed.

Lemma uniqueName_length name r :
  String.length (uniqueName name r)
  = ((if (255 <=? String.length (SanitizeKubeResourceName name))%nat
      then 249 else String.length (SanitizeKubeResourceName name))
     + 1 + String.length r)%nat.
Proof.
  unfold uniqueName. rewrite !length_append.
  destruct (Nat.leb_spec 255 (String.length (SanitizeKubeResourceName name))) as [Hl | Hl].
  - rewrite length_substring_0 by lia. change (String.length "-") with 1%nat. lia.
  - change (String.length "-") with 1%nat. lia.
Qed.

(** Sanitized names of 250 to 254 bytes escape the truncation. *)
Lemma uniqueName_too_long name r :
  String.length r = 5%nat ->
  (250 <= String.length (SanitizeKubeResourceName name) <= 254)%nat ->
  (255 < String.length (uniqueName name r))%nat.
Proof.
  intros Hr Hl. rewrite uniqueName_length, Hr.
  destruct (Nat.leb_spec 255 (String.length (SanitizeKubeResourceName name))); lia.
Qed.

Lemma uniqueName_fits name r :
  String.length r = 5%nat ->
  (String.length (SanitizeKubeResourceName name) <= 249
   \/ 255 <= String.length (SanitizeKubeResourceName name))%nat ->
  (String.length (uniqueName name r) <= 255)%nat.
Proof.
  intros Hr Hl. rewrite uniqueName_length, Hr.
  destruct (Nat.leb_spec 255 (String.length (SanitizeKubeResourceName name))); lia.
Qed.

End GeneratedName.

(** C5.  [generateSanitizedUniqueNameFrom] truncates only sanitized
    names of 255 bytes or more: a sanitized name of 250 bytes is kept
    whole, and with the hyphen and the five random bytes the name
    returned has 256 bytes, above the limit of 255. *)
Theorem generateSanitizedUniqueNameFrom_exceeds_limit :
  let name := repeatByte 250 "a" in
  let o :=
    run world (generateSanitizedUniqueNameFrom (H := samplePackage) name)
      (freshWorld [] ["x7k2q"] sampleCerts) in
  String.length (SanitizeKubeResourceName (Package := samplePackage) name) = 250%nat /\
  trace o = [EvNewRandomString 5 "x7k2q"] /\
  result o = name +:+ "-x7k2q" /\
  String.length (result o) = 256%nat.
Proof. vm_compute. repeat split; reflexivity. Qed.

(** ** The CA bundle of the validating webhook *)

Section WebhookBundle.
Context `{Package} {S : Type} (h : handler S).

Lemma RegisterDriveValidationRules_descriptors s identity dryRun writer g obj :
  In obj (descriptors (trace (run h (RegisterDriveValidationRules identity dryRun writer g) s))) ->
  obj = ObjValidatingWebhookConfiguration (getDriveValidatingWebhookConfig identity g).
Proof.
  unfold RegisterDriveValidationRules, descriptors.
  walk h; cbn [omap list_omap event_object In]; intuition congruence.
Qed.

(** After a deployment whose certificate step succeeded, the cached
    bundle is the CA certificate obtained. *)
Lemma CreateDeployment_caches_bundle s identity image dryRun registry org writer g
    caCertBytes publicCertBytes privateKeyBytes :
  In (EvGetCerts [admissionWehookDNSName]
        (inr (caCertBytes, publicCertBytes, privateKeyBytes)))
     (trace (run h (CreateDeployment identity image dryRun registry org writer g) s)) ->
  validationWebhookCaBundle
    (snd (result (run h (CreateDeployment identity image dryRun registry org writer g) s)))
  = caCertBytes.
Proof.
  unfold CreateDeployment, generateSanitizedUniqueNameFrom, CreateControllerSecret,
    CreateControllerService.
  walk h; cbn [In validationWebhookCaBundle]; intuition congruence.
Qed.

(** C8, amended.  The CA bundle of the validating webhook configuration
    that [getDriveValidatingWebhookConfig] builds, and that
    [RegisterDriveValidationRules] serializes and submits, is the cached
    [validationWebhookCaBundle] of the moment: it is empty exactly when
    that cache is empty, and the cache holds the CA certificate of the
    last [CreateDeployment] whose certificate step succeeded. *)
Theorem webhook_bundle_is_cached_bundle s identity dryRun writer g :
  caBundles (getDriveValidatingWebhookConfig identity g) = [validationWebhookCaBundle g] /\
  (Forall (fun b => b <> []) (caBundles (getDriveValidatingWebhookConfig identity g))
   <-> validationWebhookCaBundle g <> []) /\
  (forall obj,
     In obj (descriptors
               (trace (run h (RegisterDriveValidationRules identity dryRun writer g) s))) ->
     exists c, obj = ObjValidatingWebhookConfiguration c /\
               caBundles c = [validationWebhookCaBundle g]) /\
  (forall image registry org caCertBytes publicCertBytes privateKeyBytes,
     let deployed := run h (CreateDeployment identity image dryRun registry org writer g) s in
     In (EvGetCerts [admissionWehookDNSName]
           (inr (caCertBytes, publicCertBytes, privateKeyBytes))) (trace deployed) ->
     caBundles (getDriveValidatingWebhookConfig identity (snd (result deployed)))
     = [caCertBytes]).
Proof.
  split; [reflexivity |]. split; [| split].
  - cbn [caBundles getDriveValidatingWebhookConfig admissionv1.vwc_Webhooks map
         admissionv1.vw_ClientConfig admissionv1.wcc_CABundle].
    rewrite Forall_singleton. reflexivity.
  - intros obj Hobj. apply RegisterDriveValidationRules_descriptors in Hobj as ->.
    eexists; split; reflexivity.
  - intros image registry org ca pub priv deployed Hcerts.
    cbn [caBundles getDriveValidatingWebhookConfig admissionv1.vwc_Webhooks map
         admissionv1.vw_ClientConfig admissionv1.wcc_CABundle].
    subst deployed. erewrite CreateDeployment_caches_bundle by eassumption. reflexivity.
Qed.

End WebhookBundle.

(** C8, as stated, fails: in a process that has not yet run
    [CreateDeployment] the cached bundle is nil, and the webhook
    configuration is built, serialized and submitted with an empty CA
    bundle. *)
Lemma webhook_bundle_empty_before_deployment :
  let c := getDriveValidatingWebhookConfig (H := samplePackage) "direct-csi" initialGlobals in
  let o :=
    run world (RegisterDriveValidationRules (H := samplePackage) "direct-csi" false
                 (writerTo 1) initialGlobals)
      (freshWorld ["v1"] [] sampleCerts) in
  caBundles c = [[]] /\
  trace o = [EvWriteObject (writerTo 1) (ObjValidatingWebhookConfiguration c) None;
             EvCreate AdmissionregistrationV1_ValidatingWebhookConfigurations
               (ObjValidatingWebhookConfiguration c) None] /\
  result o = None.
Proof. vm_compute. repeat split; reflexivity. Qed.

(** ** The workload descriptors *)

Section Workloads.
Context `{Package}.

Lemma uniqueName_inj name r1 r2 :
  uniqueName name r1 = uniqueName name r2 -> r1 = r2.
Proof.
  unfold uniqueName. intros Heq.
  apply (inj (String.app _)) in Heq. apply (inj (String.app "-")) in Heq. exact Heq.
Qed.

Lemma selector_of_token tok :
  directCSISelector <> EmptyString ->
  metav1.ls_MatchLabels
    (metav1.AddLabelToSelector metav1.emptyLabelSelector directCSISelector tok)
    !! directCSISelector = Some tok.
Proof.
  intros Hkey. unfold metav1.AddLabelToSelector.
  case_decide; [done |]. cbn [metav1.ls_MatchLabels]. apply lookup_insert_eq.
Qed.

Lemma selector_without_token tok1 tok2 :
  delete directCSISelector
    (metav1.ls_MatchLabels
       (metav1.AddLabelToSelector metav1.emptyLabelSelector directCSISelector tok1))
  = delete directCSISelector
      (metav1.ls_MatchLabels
         (metav1.AddLabelToSelector metav1.emptyLabelSelector directCSISelector tok2)).
Proof.
  unfold metav1.AddLabelToSelector.
  case_decide; [reflexivity |]. cbn [metav1.ls_MatchLabels].
  by rewrite !delete_insert_eq.
Qed.

Section DaemonSet.
Variables (identity image registry org : string) (loopBackOnly : bool)
  (nodeSelector : gmap string string) (tolerations : list corev1.Toleration)
  (seccompProfileName apparmorProfileName : string) (enableDynamicDiscovery : bool).

Local Abbreviation build :=
  (daemonSetObj identity image registry org loopBackOnly nodeSelector tolerations
     seccompProfileName apparmorProfileName enableDynamicDiscovery).

Lemma daemonSetObj_selector tok :
  directCSISelector <> EmptyString ->
  daemonSetSelector (build tok) !! directCSISelector = Some tok.
Proof. intros Hkey. by apply selector_of_token. Qed.

Lemma daemonSetObj_template_label tok :
  templateLabels (daemonSetTemplate (build tok)) !! directCSISelector = Some tok.
Proof. apply lookup_insert_eq. Qed.

Lemma daemonSetObj_without_token tok1 tok2 :
  daemonSetWithoutToken directCSISelector (build tok1)
  = daemonSetWithoutToken directCSISelector (build tok2).
Proof.
  unfold daemonSetWithoutToken. f_equal. f_equal.
  - f_equal. apply selector_without_token.
  - unfold templateWithoutLabel. f_equal. f_equal.
    cbn. by rewrite !delete_insert_eq.
Qed.

Lemma daemonSetObj_securityContexts tok :
  securityContexts (daemonSetTemplate (build tok))
  = [ {| corev1.sc_Privileged := Some true;
         corev1.sc_SeccompProfile :=
           if decide (seccompProfileName = EmptyString) then None
           else Some {| corev1.scp_Type := corev1.SeccompProfileTypeLocalhost;
                        corev1.scp_LocalhostProfile := Some seccompProfileName |} |} ].
Proof.
  unfold build, daemonSetObj, securityContexts, daemonSetTemplate.
  repeat case_decide; try done; destruct enableDynamicDiscovery; reflexivity.
Qed.

Lemma daemonSetObj_annotations tok :
  templateAnnotations (daemonSetTemplate (build tok))
  = if decide (apparmorProfileName = EmptyString)
    then {[ CreatedByLabel := DirectCSIPluginName ]}
    else <[apparmorAnnotation := apparmorProfileName]>
           {[ CreatedByLabel := DirectCSIPluginName ]}.
Proof.
  unfold build, daemonSetObj, templateAnnotations, daemonSetTemplate.
  repeat case_decide; try done; reflexivity.
Qed.

(** What a run of [CreateDaemonSet] draws, builds and serializes. *)
Lemma CreateDaemonSet_descriptor {S : Type} (h : handler S) s dryRun writer :
  let o :=
    run h (CreateDaemonSet identity image dryRun registry org loopBackOnly nodeSelector
             tolerations seccompProfileName apparmorProfileName
             enableDynamicDiscovery writer) s in
  exists r,
    draws (trace o) = [r] /\
    serialized_to writer
      (ObjDaemonSet (build (uniqueName (SanitizeKubeResourceName identity) r))) (trace o) /\
    forall obj, In obj (descriptors (trace o)) ->
      obj = ObjDaemonSet (build (uniqueName (SanitizeKubeResourceName identity) r)).
Proof.
  unfold CreateDaemonSet, generateSanitizedUniqueNameFrom, descriptors, draws,
    serialized_to. norm.
  destruct (h _ _ s) as [r s']. exists r. fold (uniqueName (SanitizeKubeResourceName identity) r).
  fold (build (uniqueName (SanitizeKubeResourceName identity) r)).
  walk h; cbn [omap list_omap event_object In];
    (split; [reflexivity | split; [eexists; find_event | intuition congruence]]).
Qed.

End DaemonSet.

Section Deployment.
Variables (identity image registry org : string).

Local Abbreviation build := (deploymentObj identity image registry org).

Lemma deploymentObj_selector tok :
  directCSISelector <> EmptyString ->
  deploymentSelector (build tok) !! directCSISelector = Some tok.
Proof. intros Hkey. by apply selector_of_token. Qed.

Lemma deploymentObj_template_label tok :
  templateLabels (deploymentTemplate (build tok)) !! directCSISelector = Some tok.
Proof. apply lookup_insert_eq. Qed.

Lemma deploymentObj_without_token tok1 tok2 :
  deploymentWithoutToken directCSISelector (build tok1)
  = deploymentWithoutToken directCSISelector (build tok2).
Proof.
  unfold deploymentWithoutToken. f_equal. f_equal.
  - f_equal. apply selector_without_token.
  - unfold templateWithoutLabel. f_equal. f_equal.
    cbn. by rewrite !delete_insert_eq.
Qed.

(** What a run of [CreateDeployment] draws and which deployment it
    builds; it has built one whenever it returns without error. *)
Lemma CreateDeployment_descriptor {S : Type} (h : handler S) s dryRun writer g :
  let o := run h (CreateDeployment identity image dryRun registry org writer g) s in
  exists r,
    draws (trace o) = [r] /\
    (fst (result o) = None ->
     In (ObjDeployment (build (uniqueName (SanitizeKubeResourceName identity) r)))
       (descriptors (trace o))) /\
    forall d, In (ObjDeployment d) (descriptors (trace o)) ->
      d = build (uniqueName (SanitizeKubeResourceName identity) r).
Proof.
  unfold CreateDeployment, generateSanitizedUniqueNameFrom, CreateControllerSecret,
    CreateControllerService, descriptors, draws. norm.
  destruct (h _ _ s) as [r s']. exists r. fold (uniqueName (SanitizeKubeResourceName identity) r).
  fold (build (uniqueName (SanitizeKubeResourceName identity) r)).
  walk h; cbn [omap list_omap event_object In];
    (split; [reflexivity | split; [try done; intros _; find_event | intuition congruence]]).
Qed.

End Deployment.
End Workloads.

Lemma In_descriptors (ev : event) (obj : Object) (tr : list event) :
  In ev tr -> event_object ev = Some obj -> In obj (descriptors tr).
Proof.
  unfold descriptors. induction tr as [| ev' tr IH]; cbn [In omap list_omap]; [tauto |].
  intros [-> | Hin] Hobj.
  - rewrite Hobj. left. reflexivity.
  - destruct (event_object ev'); [right |]; auto.
Qed.

Section WorkloadClaims.
Context `{Package}.

(** C9.  In [CreateDaemonSet], an empty seccomp profile name leaves the
    container security context without any seccomp profile, and an
    empty apparmor profile name leaves the pod template with the
    created-by annotation alone; a non-empty name puts the seccomp
    profile (of type Localhost, with that name) in the security context,
    respectively the apparmor annotation with that name on the pod
    template.  This holds of the daemon set handed to the writer and of
    every object the run logs or submits. *)
Theorem daemonset_profiles_only_when_named {S : Type} (h : handler S) s
    identity image dryRun registry org loopBackOnly nodeSelector tolerations
    seccompProfileName apparmorProfileName enableDynamicDiscovery writer :
  let o :=
    run h (CreateDaemonSet identity image dryRun registry org loopBackOnly nodeSelector
             tolerations seccompProfileName apparmorProfileName
             enableDynamicDiscovery writer) s in
  (exists ds, serialized_to writer (ObjDaemonSet ds) (trace o)) /\
  forall obj, In obj (descriptors (trace o)) ->
    exists ds, obj = ObjDaemonSet ds /\
      let template := daemonSetTemplate ds in
      (seccompProfileName = EmptyString ->
       Forall (fun sc => corev1.sc_SeccompProfile sc = None) (securityContexts template)) /\
      (seccompProfileName <> EmptyString ->
       securityContexts template
       = [ {| corev1.sc_Privileged := Some true;
              corev1.sc_SeccompProfile :=
                Some {| corev1.scp_Type := corev1.SeccompProfileTypeLocalhost;
                        corev1.scp_LocalhostProfile := Some seccompProfileName |} |} ]) /\
      (apparmorProfileName = EmptyString ->
       templateAnnotations template = {[ CreatedByLabel := DirectCSIPluginName ]}) /\
      (apparmorProfileName = EmptyString -> CreatedByLabel <> apparmorAnnotation ->
       templateAnnotations template !! apparmorAnnotation = None) /\
      (apparmorProfileName <> EmptyString ->
       templateAnnotations template !! apparmorAnnotation = Some apparmorProfileName).
Proof.
  intros o.
  destruct (CreateDaemonSet_descriptor identity image registry org loopBackOnly
              nodeSelector tolerations seccompProfileName apparmorProfileName
              enableDynamicDiscovery h s dryRun writer) as (r & _ & Hser & Hobj).
  split; [eexists; exact Hser |].
  intros obj Hin. apply Hobj in Hin as ->. eexists; split; [reflexivity |].
  cbn zeta. rewrite daemonSetObj_securityContexts, daemonSetObj_annotations.
  repeat split; intros; case_decide; try done.
  - by apply Forall_singleton.
  - by apply lookup_singleton_ne.
  - apply lookup_insert_eq.
Qed.

(** C6, amended.  Within one call of [CreateDaemonSet] or
    [CreateDeployment] the value of the selector label in the workload's
    selector is the value of the same label on the pod template: the
    token generated in that call, which is the sanitized name, a hyphen
    and the one random string the call draws.  [CreateDaemonSet] always
    builds its descriptor, [CreateDeployment] whenever it returns
    without error.  The tokens of two calls differ exactly when the two
    strings drawn differ, so they are distinct only as far as the draws
    are.  With the selector label taken out, the descriptors of two calls
    on the same inputs are equal. *)
Theorem selector_token_fresh_per_call {S1 S2 : Type} (h1 : handler S1) (h2 : handler S2)
    s1 s2 g1 g2 identity image dryRun registry org loopBackOnly nodeSelector tolerations
    seccompProfileName apparmorProfileName enableDynamicDiscovery writer :
  directCSISelector <> EmptyString ->
  let daemonSet {S} (h : handler S) s :=
    run h (CreateDaemonSet identity image dryRun registry org loopBackOnly nodeSelector
             tolerations seccompProfileName apparmorProfileName
             enableDynamicDiscovery writer) s in
  let deployment {S} (h : handler S) s g :=
    run h (CreateDeployment identity image dryRun registry org writer g) s in
  let token := uniqueName (SanitizeKubeResourceName identity) in
  let a := daemonSet h1 s1 in
  let b := daemonSet h2 s2 in
  let c := deployment h1 s1 g1 in
  let d := deployment h2 s2 g2 in
  (exists ra rb,
     draws (trace a) = [ra] /\ draws (trace b) = [rb] /\
     (exists da, In (ObjDaemonSet da) (descriptors (trace a))) /\
     forall da db,
       In (ObjDaemonSet da) (descriptors (trace a)) ->
       In (ObjDaemonSet db) (descriptors (trace b)) ->
       (daemonSetSelector da !! directCSISelector = Some (token ra) /\
        templateLabels (daemonSetTemplate da) !! directCSISelector = Some (token ra)) /\
       (ra <> rb <->
        daemonSetSelector da !! directCSISelector
        <> daemonSetSelector db !! directCSISelector) /\
       daemonSetWithoutToken directCSISelector da
       = daemonSetWithoutToken directCSISelector db) /\
  (exists rc rd,
     draws (trace c) = [rc] /\ draws (trace d) = [rd] /\
     (fst (result c) = None -> exists dc, In (ObjDeployment dc) (descriptors (trace c))) /\
     forall dc dd,
       In (ObjDeployment dc) (descriptors (trace c)) ->
       In (ObjDeployment dd) (descriptors (trace d)) ->
       (deploymentSelector dc !! directCSISelector = Some (token rc) /\
        templateLabels (deploymentTemplate dc) !! directCSISelector = Some (token rc)) /\
       (rc <> rd <->
        deploymentSelector dc !! directCSISelector
        <> deploymentSelector dd !! directCSISelector) /\
       deploymentWithoutToken directCSISelector dc
       = deploymentWithoutToken directCSISelector dd).
Proof.
  intros Hkey daemonSet deployment token a b c d. split.
  - destruct (CreateDaemonSet_descriptor identity image registry org loopBackOnly
                nodeSelector tolerations seccompProfileName apparmorProfileName
                enableDynamicDiscovery h1 s1 dryRun writer) as (ra & Hra & Hsa & Ha).
    destruct (CreateDaemonSet_descriptor identity image registry org loopBackOnly
                nodeSelector tolerations seccompProfileName apparmorProfileName
                enableDynamicDiscovery h2 s2 dryRun writer) as (rb & Hrb & _ & Hb).
    exists ra, rb. split; [exact Hra |]. split; [exact Hrb |].
    split.
    { destruct Hsa as [wr Hwr]. eexists. eapply In_descriptors; [exact Hwr | reflexivity]. }
    intros da db Hda Hdb.
    apply Ha in Hda. apply Hb in Hdb. injection Hda as ->. injection Hdb as ->.
    split; [| split].
    + split; [by apply daemonSetObj_selector | apply daemonSetObj_template_label].
    + rewrite !daemonSetObj_selector by assumption. split.
      * intros Hne [= Heq]. by apply uniqueName_inj in Heq.
      * intros Hne ->. by apply Hne.
    + apply daemonSetObj_without_token.
  - destruct (CreateDeployment_descriptor identity image registry org h1 s1 dryRun writer g1)
      as (rc & Hrc & Hbuilt & Hc).
    destruct (CreateDeployment_descriptor identity image registry org h2 s2 dryRun writer g2)
      as (rd & Hrd & _ & Hd).
    exists rc, rd. split; [exact Hrc |]. split; [exact Hrd |].
    split; [intros Hres; eexists; exact (Hbuilt Hres) |].
    intros dc dd Hdc Hdd.
    apply Hc in Hdc as ->. apply Hd in Hdd as ->.
    split; [| split].
    + split; [by apply deploymentObj_selector | apply deploymentObj_template_label].
    + rewrite !deploymentObj_selector by assumption. split.
      * intros Hne [= Heq]. by apply uniqueName_inj in Heq.
      * intros Hne ->. by apply Hne.
    + apply deploymentObj_without_token.
Qed.

End WorkloadClaims.

(** C6, as stated, fails: nothing in the operations makes the tokens of
    two calls differ.  Two calls of [CreateDaemonSet], and two calls of
    [CreateDeployment], for which the random-string helper returns the
    same string carry the same selector token. *)
Lemma selector_token_can_repeat :
  let w := freshWorld ["v1"] ["x7k2q"; "x7k2q"] sampleCerts in
  let CreateDaemonSet' :=
    CreateDaemonSet (H := samplePackage) "direct-csi" "direct-csi:latest" true
      "quay.io" "minio" false ∅ [] EmptyString EmptyString false (writerTo 1) in
  let CreateDeployment' :=
    CreateDeployment (H := samplePackage) "direct-csi" "direct-csi:latest" true
      "quay.io" "minio" (writerTo 1) initialGlobals in
  let daemonSets := run2 world CreateDaemonSet' CreateDaemonSet' w in
  let deployments := run2 world CreateDeployment' CreateDeployment' w in
  let key := directCSISelector (Package := samplePackage) in
  (exists da db,
     In (ObjDaemonSet da) (descriptors (trace (fst daemonSets))) /\
     In (ObjDaemonSet db) (descriptors (trace (snd daemonSets))) /\
     daemonSetSelector da !! key = Some "direct-csi-x7k2q" /\
     daemonSetSelector db !! key = Some "direct-csi-x7k2q") /\
  (exists dc dd,
     In (ObjDeployment dc) (descriptors (trace (fst deployments))) /\
     In (ObjDeployment dd) (descriptors (trace (snd deployments))) /\
     deploymentSelector dc !! key = Some "direct-csi-x7k2q" /\
     deploymentSelector dd !! key = Some "direct-csi-x7k2q").
Proof.
  split.
  - do 2 eexists. split; [vm_compute; left; reflexivity |].
    split; [vm_compute; left; reflexivity |].
    split; vm_compute; reflexivity.
  - do 2 eexists. split; [vm_compute; right; right; left; reflexivity |].
    split; [vm_compute; right; right; left; reflexivity |].
    split; vm_compute; reflexivity.
Qed.

(** ** Failed create calls *)

Section CreateFailures.
Context `{Package} {S : Type} (h : handler S).

Ltac failures := cbn [create_failures omap list_omap In]; intuition congruence.

Lemma CreateNamespace_verbatim s identity dryRun writer :
  verbatim h s (CreateNamespace identity dryRun writer).
Proof. intros obj e. unfold CreateNamespace. walk h; failures. Qed.

Lemma CreateCSIDriver_verbatim s identity dryRun writer :
  verbatim h s (CreateCSIDriver identity dryRun writer).
Proof. intros obj e. unfold CreateCSIDriver. walk h; failures. Qed.

Lemma CreateStorageClass_verbatim s identity dryRun writer :
  verbatim h s (CreateStorageClass identity dryRun writer).
Proof. intros obj e. unfold CreateStorageClass. walk h; failures. Qed.

Lemma CreateService_verbatim s identity dryRun writer :
  verbatim h s (CreateService identity dryRun writer).
Proof. intros obj e. unfold CreateService. walk h; failures. Qed.

Lemma CreateDaemonSet_verbatim s identity image dryRun registry org loopBackOnly
    nodeSelector tolerations seccompProfileName apparmorProfileName
    enableDynamicDiscovery writer :
  verbatim h s
    (CreateDaemonSet identity image dryRun registry org loopBackOnly nodeSelector
       tolerations seccompProfileName apparmorProfileName enableDynamicDiscovery writer).
Proof.
  intros obj e. unfold CreateDaemonSet, generateSanitizedUniqueNameFrom.
  walk h; failures.
Qed.

Lemma CreateControllerService_verbatim s tok identity dryRun :
  verbatim h s (CreateControllerService tok identity dryRun).
Proof. intros obj e. unfold CreateControllerService. walk h; failures. Qed.

Lemma CreateControllerSecret_verbatim s identity pub priv dryRun :
  verbatim h s (CreateControllerSecret identity pub priv dryRun).
Proof. intros obj e. unfold CreateControllerSecret. walk h; failures. Qed.

Lemma RegisterDriveValidationRules_verbatim s identity dryRun writer g :
  verbatim h s (RegisterDriveValidationRules identity dryRun writer g).
Proof. intros obj e. unfold RegisterDriveValidationRules. walk h; failures. Qed.

Lemma CreateOrUpdateConversionKeyPairSecret_verbatim s identity pub priv dryRun writer :
  verbatim h s (CreateOrUpdateConversionKeyPairSecret identity pub priv dryRun writer).
Proof.
  intros obj e. unfold CreateOrUpdateConversionKeyPairSecret. walk h; failures.
Qed.

Lemma CreateOrUpdateConversionCACertSecret_verbatim s identity ca dryRun writer :
  verbatim h s (CreateOrUpdateConversionCACertSecret identity ca dryRun writer).
Proof.
  intros obj e. unfold CreateOrUpdateConversionCACertSecret. walk h; failures.
Qed.

(** In [CreateDeployment] a failed create call is returned too, unless
    it is the controller secret's and says AlreadyExists: then the
    operation goes on to serialize the deployment, and fails only if a
    later step does. *)
Lemma CreateDeployment_create_failures s identity image dryRun registry org writer g :
  let o := run h (CreateDeployment identity image dryRun registry org writer g) s in
  forall obj e,
    In (obj, e) (create_failures (trace o)) ->
    match obj with
    | ObjSecret _ =>
        if IsAlreadyExists e then
          (exists d wr,
             In (EvWriteObject writer (ObjDeployment d) wr) (trace o) /\
             forall e', fst (result o) = Some e' ->
               wr = Some e' \/
               exists obj', In (obj', e') (create_failures (trace o)) /\
                            forall sec, obj' <> ObjSecret sec)
        else fst (result o) = Some e
    | _ => fst (result o) = Some e
    end.
Proof.
  intros o obj e. subst o.
  unfold CreateDeployment, generateSanitizedUniqueNameFrom, CreateControllerSecret,
    CreateControllerService.
  walk h; cbn [create_failures omap list_omap In]; try tauto;
    intros Hin; decompose [or] Hin; clear Hin; try tauto; simplify_eq;
    repeat match goal with Hae : IsAlreadyExists _ = _ |- _ => rewrite Hae; clear Hae end;
    try reflexivity.
  all: do 2 eexists; (split; [find_event |]); intros e' [= <-];
    first [left; reflexivity | right; eexists; (split; [find_event | done])].
Qed.

(** C7.  An AlreadyExists error (or any other error) of a create call is
    returned as it is by the namespace, CSI driver, storage class,
    service, daemon set, controller service and webhook registration
    operations, by [CreateControllerSecret] on its own, by the two
    conversion-secret reconcilers, and by [CreateDeployment] for the
    deployment object and the controller service; only the
    AlreadyExists of the controller secret inside [CreateDeployment] is
    passed over, the operation continuing with the deployment as if the
    secret had been created. *)
Theorem already_exists_tolerated_only_for_controller_secret s g identity image dryRun
    registry org loopBackOnly nodeSelector tolerations seccompProfileName
    apparmorProfileName enableDynamicDiscovery tok pub priv writer :
  verbatim h s (CreateNamespace identity dryRun writer) /\
  verbatim h s (CreateCSIDriver identity dryRun writer) /\
  verbatim h s (CreateStorageClass identity dryRun writer) /\
  verbatim h s (CreateService identity dryRun writer) /\
  verbatim h s
    (CreateDaemonSet identity image dryRun registry org loopBackOnly nodeSelector
       tolerations seccompProfileName apparmorProfileName enableDynamicDiscovery writer) /\
  verbatim h s (CreateControllerService tok identity dryRun) /\
  verbatim h s (CreateControllerSecret identity pub priv dryRun) /\
  verbatim h s (RegisterDriveValidationRules identity dryRun writer g) /\
  verbatim h s (CreateOrUpdateConversionKeyPairSecret identity pub priv dryRun writer) /\
  verbatim h s (CreateOrUpdateConversionCACertSecret identity pub dryRun writer) /\
  let o := run h (CreateDeployment identity image dryRun registry org writer g) s in
  forall obj e,
    In (obj, e) (create_failures (trace o)) ->
    match obj with
    | ObjSecret _ =>
        if IsAlreadyExists e then
          (exists d wr,
             In (EvWriteObject writer (ObjDeployment d) wr) (trace o) /\
             forall e', fst (result o) = Some e' ->
               wr = Some e' \/
               exists obj', In (obj', e') (create_failures (trace o)) /\
                            forall sec, obj' <> ObjSecret sec)
        else fst (result o) = Some e
    | _ => fst (result o) = Some e
    end.
Proof.
  repeat split.
  - apply CreateNamespace_verbatim.
  - apply CreateCSIDriver_verbatim.
  - apply CreateStorageClass_verbatim.
  - apply CreateService_verbatim.
  - apply CreateDaemonSet_verbatim.
  - apply CreateControllerService_verbatim.
  - apply CreateControllerSecret_verbatim.
  - apply RegisterDriveValidationRules_verbatim.
  - apply CreateOrUpdateConversionKeyPairSecret_verbatim.
  - apply CreateOrUpdateConversionCACertSecret_verbatim.
  - apply CreateDeployment_create_failures.
Qed.

End CreateFailures.

(** ** The secret reconcilers *)

Section Reconcilers.
Context `{Package}.

(** Both reconcilers are the reconciliation of the specification, on
    their own secret. *)
Lemma CreateOrUpdateConversionKeyPairSecret_reconciles identity pub priv dryRun writer :
  same_runs
    (CreateOrUpdateConversionKeyPairSecret identity pub priv dryRun writer)
    (reconcileSecret (CoreV1_Secrets (SanitizeKubeResourceName identity))
       conversionKeyPair
       (secretObj conversionKeyPair identity (keyPairDataMap pub priv)) dryRun writer).
Proof.
  intros S h s. unfold CreateOrUpdateConversionKeyPairSecret, reconcileSecret.
  walk h; try reflexivity; simplify_eq.
Qed.

Lemma CreateOrUpdateConversionCACertSecret_reconciles identity ca dryRun writer :
  same_runs
    (CreateOrUpdateConversionCACertSecret identity ca dryRun writer)
    (reconcileSecret (CoreV1_Secrets (SanitizeKubeResourceName identity))
       conversionCACert
       (secretObj conversionCACert identity (caCertDataMap ca)) dryRun writer).
Proof.
  intros S h s. unfold CreateOrUpdateConversionCACertSecret, reconcileSecret.
  walk h; try reflexivity; simplify_eq.
Qed.

Lemma reconcileSecret_run {S : Type} (h : handler S) s client name secret writer :
  let o := run h (reconcileSecret client name secret false writer) s in
  In (EvWriteObject writer (ObjSecret secret) None) (trace o) ->
  reconcile_run client name secret writer (trace o) (result o).
Proof.
  unfold reconcileSecret.
  walk h; cbn [In]; intros Hin; try (by constructor);
    decompose [or] Hin; try done; simplify_eq.
Qed.

(** A serialization error is returned before the cluster is contacted. *)
Lemma reconcileSecret_write_failed {S : Type} (h : handler S) s client name secret
    writer e :
  let o := run h (reconcileSecret client name secret false writer) s in
  In (EvWriteObject writer (ObjSecret secret) (Some e)) (trace o) ->
  result o = Some e /\ existsb is_api_call (trace o) = false.
Proof.
  unfold reconcileSecret.
  walk h; cbn [In]; intros Hin; decompose [or] Hin; try done; simplify_eq;
    split; reflexivity.
Qed.

(** On the reference cluster a reconciliation creates the secret that is
    absent and updates the one that is present. *)
Lemma reconcileSecret_creates w client name secret writer :
  secrets w !! (client, name) = None ->
  objName (ObjSecret secret) = name ->
  let o := run world (reconcileSecret client name secret false writer) w in
  result o = None /\ secrets (final o) = <[(client, name) := secret]> (secrets w).
Proof.
  intros Hlook Hname. unfold reconcileSecret.
  cbn [run bind perform world world_write].
  unfold world_get. cbn [secrets]. rewrite Hlook.
  cbn [run bind perform world IsNotFound notFound].
  unfold world_create, objName in *. cbn [secrets] in *. rewrite Hname, Hlook.
  split; reflexivity.
Qed.

Lemma reconcileSecret_updates w client name existing secret writer :
  secrets w !! (client, name) = Some existing ->
  objName (ObjSecret existing) = name ->
  let o := run world (reconcileSecret client name secret false writer) w in
  result o = None /\
  secrets (final o)
  = <[(client, name) := withData existing (corev1.sec_Data secret)]> (secrets w).
Proof.
  intros Hlook Hname. unfold reconcileSecret.
  cbn [run bind perform world world_write].
  unfold world_get. cbn [secrets]. rewrite Hlook.
  cbn [run bind perform world].
  unfold world_update, objName in *. cbn [secrets withData corev1.sec_ObjectMeta] in *.
  rewrite Hname, Hlook.
  split; reflexivity.
Qed.

(** Two reconciliations in a row succeed and leave the secret with the
    data of the second. *)
Lemma reconcileSecret_converges w client name secret1 secret2 writer :
  secrets_by_name w ->
  objName (ObjSecret secret1) = name ->
  let o :=
    run2 world (reconcileSecret client name secret1 false writer)
      (reconcileSecret client name secret2 false writer) w in
  result (fst o) = None /\ result (snd o) = None /\
  exists stored,
    secrets (final (snd o)) !! (client, name) = Some stored /\
    corev1.sec_Data stored = corev1.sec_Data secret2.
Proof.
  intros Hwf Hname. unfold run2. cbn [fst snd].
  assert (exists first,
            result (run world (reconcileSecret client name secret1 false writer) w) = None /\
            secrets (final (run world (reconcileSecret client name secret1 false writer) w))
              !! (client, name) = Some first /\
            objName (ObjSecret first) = name) as (first & Hres & Hfirst & Hfname).
  { destruct (secrets w !! (client, name)) as [existing |] eqn:Hlook.
    - destruct (reconcileSecret_updates w client name existing secret1 writer Hlook
                  (Hwf _ _ _ Hlook)) as [Hres Hsec].
      eexists. split; [exact Hres |]. rewrite Hsec, lookup_insert_eq.
      split; [reflexivity | exact (Hwf _ _ _ Hlook)].
    - destruct (reconcileSecret_creates w client name secret1 writer Hlook Hname)
        as [Hres Hsec].
      eexists. split; [exact Hres |]. rewrite Hsec, lookup_insert_eq.
      split; [reflexivity | exact Hname]. }
  destruct (reconcileSecret_updates _ client name first secret2 writer Hfirst Hfname)
    as [Hres2 Hsec2].
  split; [exact Hres |]. split; [exact Hres2 |].
  eexists. rewrite Hsec2, lookup_insert_eq. split; reflexivity.
Qed.

(** The data of the two secrets: the bytes supplied, each under its file
    name, and nothing else. *)
Lemma keyPairDataMap_lookup publicCertBytes privateKeyBytes :
  let data := keyPairDataMap publicCertBytes privateKeyBytes in
  data !! publicCertFileName = Some publicCertBytes /\
  (privateKeyFileName <> publicCertFileName ->
   data !! privateKeyFileName = Some privateKeyBytes) /\
  forall file,
    file <> publicCertFileName -> file <> privateKeyFileName -> data !! file = None.
Proof.
  unfold keyPairDataMap. cbn zeta. split; [apply lookup_insert_eq |]. split.
  - intros Hne. rewrite lookup_insert_ne by done. apply lookup_insert_eq.
  - intros file Hpub Hpriv. rewrite !lookup_insert_ne by done. apply lookup_empty.
Qed.

Lemma caCertDataMap_lookup caCertBytes :
  let data := caCertDataMap caCertBytes in
  data !! caCertFileName = Some caCertBytes /\
  forall file, file <> caCertFileName -> data !! file = None.
Proof.
  unfold caCertDataMap. cbn zeta. split; [apply lookup_insert_eq |].
  intros file Hne. rewrite lookup_insert_ne by done. apply lookup_empty.
Qed.

(** C2, amended.  Not in dry-run mode, and once the secret has been
    serialized to the writer without error,
    [CreateOrUpdateConversionKeyPairSecret] and
    [CreateOrUpdateConversionCACertSecret] fetch the existing secret by
    name; on NotFound they create the secret, which holds the bytes
    supplied under their file names and nothing else; on success they
    overwrite the data of the secret fetched with that data and issue an
    update; any other fetch error is returned.  A serialization error is
    returned before any call to the cluster.  On a cluster that keeps
    what it is given, two successive calls leave the secret holding the
    bytes of the second call. *)
Theorem conversion_secrets_are_reconciled {S : Type} (h : handler S) s identity
    publicCertBytes privateKeyBytes caCertBytes writer :
  let client := CoreV1_Secrets (SanitizeKubeResourceName identity) in
  let keyPair :=
    secretObj conversionKeyPair identity (keyPairDataMap publicCertBytes privateKeyBytes) in
  let caCert := secretObj conversionCACert identity (caCertDataMap caCertBytes) in
  let holdsKeyPair (sec : corev1.Secret) (pub priv : bytes) :=
    corev1.sec_Data sec !! publicCertFileName = Some pub /\
    (privateKeyFileName <> publicCertFileName ->
     corev1.sec_Data sec !! privateKeyFileName = Some priv) /\
    forall file,
      file <> publicCertFileName -> file <> privateKeyFileName ->
      corev1.sec_Data sec !! file = None in
  let holdsCACert (sec : corev1.Secret) (ca : bytes) :=
    corev1.sec_Data sec !! caCertFileName = Some ca /\
    forall file, file <> caCertFileName -> corev1.sec_Data sec !! file = None in
  let a :=
    run h (CreateOrUpdateConversionKeyPairSecret identity publicCertBytes privateKeyBytes
             false writer) s in
  let b := run h (CreateOrUpdateConversionCACertSecret identity caCertBytes false writer) s in
  (holdsKeyPair keyPair publicCertBytes privateKeyBytes /\
   holdsCACert caCert caCertBytes /\
   objName (ObjSecret keyPair) = conversionKeyPair /\
   objName (ObjSecret caCert) = conversionCACert /\
   (forall existing,
      holdsKeyPair (withData existing (corev1.sec_Data keyPair))
        publicCertBytes privateKeyBytes /\
      holdsCACert (withData existing (corev1.sec_Data caCert)) caCertBytes)) /\
  (In (EvWriteObject writer (ObjSecret keyPair) None) (trace a) ->
   reconcile_run client conversionKeyPair keyPair writer (trace a) (result a)) /\
  (In (EvWriteObject writer (ObjSecret caCert) None) (trace b) ->
   reconcile_run client conversionCACert caCert writer (trace b) (result b)) /\
  (forall e,
     (In (EvWriteObject writer (ObjSecret keyPair) (Some e)) (trace a) ->
      result a = Some e /\ existsb is_api_call (trace a) = false) /\
     (In (EvWriteObject writer (ObjSecret caCert) (Some e)) (trace b) ->
      result b = Some e /\ existsb is_api_call (trace b) = false)) /\
  (forall w publicCertBytes' privateKeyBytes',
     secrets_by_name w ->
     let o :=
       run2 world
         (CreateOrUpdateConversionKeyPairSecret identity publicCertBytes privateKeyBytes
            false writer)
         (CreateOrUpdateConversionKeyPairSecret identity publicCertBytes' privateKeyBytes'
            false writer) w in
     result (fst o) = None /\ result (snd o) = None /\
     exists stored,
       secrets (final (snd o)) !! (client, conversionKeyPair) = Some stored /\
       holdsKeyPair stored publicCertBytes' privateKeyBytes') /\
  (forall w caCertBytes',
     secrets_by_name w ->
     let o :=
       run2 world
         (CreateOrUpdateConversionCACertSecret identity caCertBytes false writer)
         (CreateOrUpdateConversionCACertSecret identity caCertBytes' false writer) w in
     result (fst o) = None /\ result (snd o) = None /\
     exists stored,
       secrets (final (snd o)) !! (client, conversionCACert) = Some stored /\
       holdsCACert stored caCertBytes').
Proof.
  intros client keyPair caCert holdsKeyPair holdsCACert a b.
  subst a b holdsKeyPair holdsCACert. cbn beta.
  split; [| split; [| split; [| split; [| split]]]].
  - split; [apply keyPairDataMap_lookup |]. split; [apply caCertDataMap_lookup |].
    split; [reflexivity |]. split; [reflexivity |].
    intros existing. split; [apply keyPairDataMap_lookup | apply caCertDataMap_lookup].
  - rewrite CreateOrUpdateConversionKeyPairSecret_reconciles. apply reconcileSecret_run.
  - rewrite CreateOrUpdateConversionCACertSecret_reconciles. apply reconcileSecret_run.
  - intros e. split; intros Hin.
    + rewrite CreateOrUpdateConversionKeyPairSecret_reconciles in *.
      by eapply reconcileSecret_write_failed.
    + rewrite CreateOrUpdateConversionCACertSecret_reconciles in *.
      by eapply reconcileSecret_write_failed.
  - intros w pub' priv' Hwf. unfold run2. cbn zeta. cbn [fst snd].
    rewrite !CreateOrUpdateConversionKeyPairSecret_reconciles.
    destruct (reconcileSecret_converges w client conversionKeyPair keyPair
                (secretObj conversionKeyPair identity (keyPairDataMap pub' priv'))
                writer Hwf eq_refl) as (Hfst & Hsnd & stored & Hlook & Hdata).
    unfold run2 in *. cbn [fst snd] in *.
    split; [exact Hfst |]. split; [exact Hsnd |].
    exists stored. split; [exact Hlook |]. rewrite Hdata. apply keyPairDataMap_lookup.
  - intros w ca' Hwf. unfold run2. cbn zeta. cbn [fst snd].
    rewrite !CreateOrUpdateConversionCACertSecret_reconciles.
    destruct (reconcileSecret_converges w client conversionCACert caCert
                (secretObj conversionCACert identity (caCertDataMap ca'))
                writer Hwf eq_refl) as (Hfst & Hsnd & stored & Hlook & Hdata).
    unfold run2 in *. cbn [fst snd] in *.
    split; [exact Hfst |]. split; [exact Hsnd |].
    exists stored. split; [exact Hlook |]. rewrite Hdata. apply caCertDataMap_lookup.
Qed.

End Reconcilers.

(** C2, as stated, fails: a reconciler whose secret the writer refuses
    returns the writer's error without fetching, creating or updating
    anything, also outside dry-run mode. *)
Lemma reconcilers_stop_at_write_failure :
  let w := freshWorld ["v1"] [] sampleCerts in
  let keyPair :=
    secretObj (H := samplePackage) "conversion-webhook-tls" "direct-csi"
      (keyPairDataMap (H := samplePackage) [Byte.x03] [Byte.x04]) in
  let caCert :=
    secretObj (H := samplePackage) "conversion-webhook-ca-cert" "direct-csi"
      (caCertDataMap (H := samplePackage) [Byte.x01]) in
  let a :=
    run closedSink
      (CreateOrUpdateConversionKeyPairSecret (H := samplePackage) "direct-csi"
         [Byte.x03] [Byte.x04] false (writerTo 1)) w in
  let b :=
    run closedSink
      (CreateOrUpdateConversionCACertSecret (H := samplePackage) "direct-csi"
         [Byte.x01] false (writerTo 1)) w in
  (trace a = [EvWriteObject (writerTo 1) (ObjSecret keyPair) (Some errSinkClosed)] /\
   existsb is_get (trace a) = false /\
   result a = Some errSinkClosed /\
   final a = w) /\
  (trace b = [EvWriteObject (writerTo 1) (ObjSecret caCert) (Some errSinkClosed)] /\
   existsb is_get (trace b) = false /\
   result b = Some errSinkClosed /\
   final b = w).
Proof. vm_compute. repeat split; reflexivity. Qed.

(** ** The three-step protocol *)

Section Protocol.
Context `{Package}.

(** The simple operations are the protocol of the specification on
    their own descriptor. *)
Lemma CreateNamespace_follows_protocol identity dryRun writer :
  same_runs (CreateNamespace identity dryRun writer)
    (protocol writer (ObjNamespace (namespaceObj identity)) dryRun CoreV1_Namespaces).
Proof. intros S h s. unfold CreateNamespace, protocol. walk h; reflexivity. Qed.

Lemma CreateService_follows_protocol identity dryRun writer :
  same_runs (CreateService identity dryRun writer)
    (protocol writer (ObjService (serviceObj identity)) dryRun
       (CoreV1_Services (SanitizeKubeResourceName identity))).
Proof. intros S h s. unfold CreateService, protocol. walk h; reflexivity. Qed.

Lemma RegisterDriveValidationRules_follows_protocol identity dryRun writer g :
  same_runs (RegisterDriveValidationRules identity dryRun writer g)
    (protocol writer
       (ObjValidatingWebhookConfiguration (getDriveValidatingWebhookConfig identity g))
       dryRun AdmissionregistrationV1_ValidatingWebhookConfigurations).
Proof. intros S h s. unfold RegisterDriveValidationRules, protocol. walk h; reflexivity. Qed.

(** A run of the protocol serializes first and submits only outside
    dry-run mode. *)
Lemma protocol_run {S : Type} (h : handler S) s writer obj dryRun client :
  let o := run h (protocol writer obj dryRun client) s in
  (exists r rest, trace o = EvWriteObject writer obj r :: rest) /\
  (dryRun = true -> existsb is_api_call (trace o) = false).
Proof.
  unfold protocol. walk h; (split; [do 2 eexists; reflexivity |]);
    intros; try done; reflexivity.
Qed.

End Protocol.

(** ** Dry runs *)

Section DryRun.
Context `{Package} {S : Type} (h : handler S).

Ltac calls := cbn [existsb is_api_call is_change is_create is_get is_update orb]; reflexivity.

Lemma CreateNamespace_dry s identity writer :
  quiet h s (CreateNamespace identity true writer).
Proof. unfold quiet, CreateNamespace. walk h; calls. Qed.

Lemma CreateCSIDriver_dry s identity writer :
  quiet h s (CreateCSIDriver identity true writer).
Proof. unfold quiet, CreateCSIDriver. walk h; calls. Qed.

Lemma CreateStorageClass_dry s identity writer :
  quiet h s (CreateStorageClass identity true writer).
Proof. unfold quiet, CreateStorageClass. walk h; calls. Qed.

Lemma CreateService_dry s identity writer :
  quiet h s (CreateService identity true writer).
Proof. unfold quiet, CreateService. walk h; calls. Qed.

Lemma CreateDaemonSet_dry s identity image registry org loopBackOnly nodeSelector
    tolerations seccompProfileName apparmorProfileName enableDynamicDiscovery writer :
  quiet h s
    (CreateDaemonSet identity image true registry org loopBackOnly nodeSelector
       tolerations seccompProfileName apparmorProfileName enableDynamicDiscovery writer).
Proof. unfold quiet, CreateDaemonSet, generateSanitizedUniqueNameFrom. walk h; calls. Qed.

Lemma CreateControllerService_dry s tok identity :
  quiet h s (CreateControllerService tok identity true).
Proof. unfold quiet, CreateControllerService. walk h; calls. Qed.

Lemma CreateControllerSecret_dry s identity pub priv :
  quiet h s (CreateControllerSecret identity pub priv true).
Proof. unfold quiet, CreateControllerSecret. walk h; calls. Qed.

Lemma CreateDeployment_dry s identity image registry org writer g :
  quiet h s (CreateDeployment identity image true registry org writer g).
Proof.
  unfold quiet, CreateDeployment, generateSanitizedUniqueNameFrom,
    CreateControllerSecret, CreateControllerService.
  walk h; calls.
Qed.

Lemma RegisterDriveValidationRules_dry s identity writer g :
  quiet h s (RegisterDriveValidationRules identity true writer g).
Proof. unfold quiet, RegisterDriveValidationRules. walk h; calls. Qed.

Lemma CreateOrUpdateConversionKeyPairSecret_dry s identity pub priv writer :
  quiet h s (CreateOrUpdateConversionKeyPairSecret identity pub priv true writer).
Proof. unfold quiet, CreateOrUpdateConversionKeyPairSecret. walk h; calls. Qed.

Lemma CreateOrUpdateConversionCACertSecret_dry s identity ca writer :
  quiet h s (CreateOrUpdateConversionCACertSecret identity ca true writer).
Proof. unfold quiet, CreateOrUpdateConversionCACertSecret. walk h; calls. Qed.

(** [GetConversionCABundle] starts with a fetch whatever the mode, and
    makes no other call. *)
Lemma GetConversionCABundle_fetches s identity dryRun g :
  exists r,
    trace (run h (GetConversionCABundle identity dryRun g) s)
    = [EvGet (CoreV1_Secrets (SanitizeKubeResourceName identity)) conversionCACert r].
Proof.
  unfold GetConversionCABundle. norm. destruct (h _ _ s) as [r s']. exists r.
  destruct r as [e | secret]; norm.
  - destruct (IsNotFound e && dryRun); reflexivity.
  - destruct (corev1.sec_Data secret !! caCertFileName); reflexivity.
Qed.

(** [CreateConversionWebhookSecrets] starts by fetching the key-pair
    secret whatever the mode; in dry-run mode it fetches at most one
    more secret and changes nothing. *)
Lemma CreateConversionWebhookSecrets_dry s identity writer g :
  let o := run h (CreateConversionWebhookSecrets identity true writer g) s in
  exists r rest,
    trace o = EvGet (CoreV1_Secrets (SanitizeKubeResourceName identity))
                conversionKeyPair r :: rest /\
    existsb is_change (trace o) = false /\
    (length (List.filter is_get (trace o)) <= 2)%nat.
Proof.
  unfold CreateConversionWebhookSecrets, checkConversionSecrets,
    CreateOrUpdateConversionKeyPairSecret, CreateOrUpdateConversionCACertSecret.
  norm. destruct (h _ _ s) as [r s']. exists r. norm.
  walk h; eexists; (split; [reflexivity |]); (split; [calls |]); cbn [List.filter is_get length]; lia.
Qed.

(** Where the descriptor goes in a dry run. *)
Lemma CreateNamespace_written s identity dryRun writer :
  serialized_to writer (ObjNamespace (namespaceObj identity))
    (trace (run h (CreateNamespace identity dryRun writer) s)).
Proof. unfold CreateNamespace, serialized_to. walk h; eexists; find_event. Qed.

Lemma CreateService_written s identity dryRun writer :
  serialized_to writer (ObjService (serviceObj identity))
    (trace (run h (CreateService identity dryRun writer) s)).
Proof. unfold CreateService, serialized_to. walk h; eexists; find_event. Qed.

Lemma RegisterDriveValidationRules_written s identity dryRun writer g :
  serialized_to writer
    (ObjValidatingWebhookConfiguration (getDriveValidatingWebhookConfig identity g))
    (trace (run h (RegisterDriveValidationRules identity dryRun writer g) s)).
Proof. unfold RegisterDriveValidationRules, serialized_to. walk h; eexists; find_event. Qed.

Lemma CreateOrUpdateConversionKeyPairSecret_written s identity pub priv dryRun writer :
  serialized_to writer
    (ObjSecret (secretObj conversionKeyPair identity (keyPairDataMap pub priv)))
    (trace (run h (CreateOrUpdateConversionKeyPairSecret identity pub priv dryRun writer) s)).
Proof.
  unfold CreateOrUpdateConversionKeyPairSecret, serialized_to. walk h; eexists; find_event.
Qed.

Lemma CreateOrUpdateConversionCACertSecret_written s identity ca dryRun writer :
  serialized_to writer
    (ObjSecret (secretObj conversionCACert identity (caCertDataMap ca)))
    (trace (run h (CreateOrUpdateConversionCACertSecret identity ca dryRun writer) s)).
Proof.
  unfold CreateOrUpdateConversionCACertSecret, serialized_to. walk h; eexists; find_event.
Qed.

Lemma CreateStorageClass_v1_written s identity dryRun writer gvk :
  fst (h _ storageNegotiation s) = inr gvk ->
  schema.Version gvk = "v1" ->
  serialized_to writer (ObjStorageClassV1 (storageClassV1 identity))
    (trace (run h (CreateStorageClass identity dryRun writer) s)).
Proof.
  intros Hsel Hver. unfold CreateStorageClass, storageNegotiation, serialized_to in *.
  cbn [run bind perform].
  destruct (h _ _ s) as [x s']. cbn [fst] in Hsel. subst x. rewrite Hver.
  walk h; try done; eexists; find_event.
Qed.

Lemma CreateStorageClass_v1beta1_written s identity dryRun writer gvk :
  fst (h _ storageNegotiation s) = inr gvk ->
  schema.Version gvk = "v1beta1" ->
  serialized_to writer (ObjStorageClassV1beta1 (storageClassV1beta1 identity))
    (trace (run h (CreateStorageClass identity dryRun writer) s)).
Proof.
  intros Hsel Hver. unfold CreateStorageClass, storageNegotiation, serialized_to in *.
  cbn [run bind perform].
  destruct (h _ _ s) as [x s']. cbn [fst] in Hsel. subst x. rewrite Hver.
  walk h; try done; eexists; find_event.
Qed.

Lemma CreateDeployment_written s identity image dryRun registry org writer g :
  let o := run h (CreateDeployment identity image dryRun registry org writer g) s in
  fst (result o) = None ->
  exists r,
    serialized_to writer
      (ObjDeployment
         (deploymentObj identity image registry org
            (uniqueName (SanitizeKubeResourceName identity) r)))
      (trace o).
Proof.
  intros o. subst o.
  unfold CreateDeployment, generateSanitizedUniqueNameFrom, CreateControllerSecret,
    CreateControllerService, serialized_to. norm.
  destruct (h _ _ s) as [r s']. intros Hres. exists r. revert Hres.
  fold (uniqueName (SanitizeKubeResourceName identity) r).
  walk h; intros; try done; eexists; find_event.
Qed.

(** C1, amended.  With [dryRun = true] no operation issues a create or
    an update call, and no operation issues a get call apart from
    [GetConversionCABundle], which always fetches the CA secret first
    (and calls nothing else), and [CreateConversionWebhookSecrets],
    which always starts by fetching the key-pair secret (and fetches at
    most one more).  [CreateNamespace], [CreateService],
    [RegisterDriveValidationRules] and the two conversion-secret
    reconcilers always hand the descriptor to the writer, and so does
    [CreateDaemonSet] with the token it has drawn; [CreateStorageClass]
    does on "v1" and on "v1beta1", [CreateCSIDriver] on "v1", and
    [CreateDeployment] whenever it returns without error. *)
Theorem dry_run_changes_nothing s g identity image registry org loopBackOnly
    nodeSelector tolerations seccompProfileName apparmorProfileName
    enableDynamicDiscovery tok publicCertBytes privateKeyBytes caCertBytes writer :
  let daemonSet :=
    CreateDaemonSet identity image true registry org loopBackOnly nodeSelector
      tolerations seccompProfileName apparmorProfileName enableDynamicDiscovery writer in
  let deployment := CreateDeployment identity image true registry org writer g in
  let keyPair :=
    CreateOrUpdateConversionKeyPairSecret identity publicCertBytes privateKeyBytes
      true writer in
  let caCert := CreateOrUpdateConversionCACertSecret identity caCertBytes true writer in
  let secretsClient := CoreV1_Secrets (SanitizeKubeResourceName identity) in
  (quiet h s (CreateNamespace identity true writer) /\
   quiet h s (CreateCSIDriver identity true writer) /\
   quiet h s (CreateStorageClass identity true writer) /\
   quiet h s (CreateService identity true writer) /\
   quiet h s daemonSet /\
   quiet h s (CreateControllerService tok identity true) /\
   quiet h s (CreateControllerSecret identity publicCertBytes privateKeyBytes true) /\
   quiet h s deployment /\
   quiet h s (RegisterDriveValidationRules identity true writer g) /\
   quiet h s keyPair /\
   quiet h s caCert) /\
  (exists r,
     trace (run h (GetConversionCABundle identity true g) s)
     = [EvGet secretsClient conversionCACert r]) /\
  (let o := run h (CreateConversionWebhookSecrets identity true writer g) s in
   exists r rest,
     trace o = EvGet secretsClient conversionKeyPair r :: rest /\
     existsb is_change (trace o) = false /\
     (length (List.filter is_get (trace o)) <= 2)%nat) /\
  (serialized_to writer (ObjNamespace (namespaceObj identity))
     (trace (run h (CreateNamespace identity true writer) s)) /\
   serialized_to writer (ObjService (serviceObj identity))
     (trace (run h (CreateService identity true writer) s)) /\
   serialized_to writer
     (ObjValidatingWebhookConfiguration (getDriveValidatingWebhookConfig identity g))
     (trace (run h (RegisterDriveValidationRules identity true writer g) s)) /\
   serialized_to writer
     (ObjSecret (secretObj conversionKeyPair identity
                   (keyPairDataMap publicCertBytes privateKeyBytes)))
     (trace (run h keyPair s)) /\
   serialized_to writer
     (ObjSecret (secretObj conversionCACert identity (caCertDataMap caCertBytes)))
     (trace (run h caCert s)) /\
   (exists r,
      serialized_to writer
        (ObjDaemonSet
           (daemonSetObj identity image registry org loopBackOnly nodeSelector
              tolerations seccompProfileName apparmorProfileName
              enableDynamicDiscovery
              (uniqueName (SanitizeKubeResourceName identity) r)))
        (trace (run h daemonSet s))) /\
   (forall gvk,
      fst (h _ storageNegotiation s) = inr gvk ->
      schema.Version gvk = "v1" ->
      serialized_to writer (ObjStorageClassV1 (storageClassV1 identity))
        (trace (run h (CreateStorageClass identity true writer) s)) /\
      serialized_to writer (ObjCSIDriverV1 (csiDriverV1 identity))
        (trace (run h (CreateCSIDriver identity true writer) s))) /\
   (forall gvk,
      fst (h _ storageNegotiation s) = inr gvk ->
      schema.Version gvk = "v1beta1" ->
      serialized_to writer (ObjStorageClassV1beta1 (storageClassV1beta1 identity))
        (trace (run h (CreateStorageClass identity true writer) s))) /\
   (fst (result (run h deployment s)) = None ->
    exists r,
      serialized_to writer
        (ObjDeployment
           (deploymentObj identity image registry org
              (uniqueName (SanitizeKubeResourceName identity) r)))
        (trace (run h deployment s)))).
Proof.
  intros daemonSet deployment keyPair caCert secretsClient.
  split; [| split; [| split]].
  - repeat split.
    + apply CreateNamespace_dry.
    + apply CreateCSIDriver_dry.
    + apply CreateStorageClass_dry.
    + apply CreateService_dry.
    + apply CreateDaemonSet_dry.
    + apply CreateControllerService_dry.
    + apply CreateControllerSecret_dry.
    + apply CreateDeployment_dry.
    + apply RegisterDriveValidationRules_dry.
    + apply CreateOrUpdateConversionKeyPairSecret_dry.
    + apply CreateOrUpdateConversionCACertSecret_dry.
  - apply GetConversionCABundle_fetches.
  - apply CreateConversionWebhookSecrets_dry.
  - split; [apply CreateNamespace_written |].
    split; [apply CreateService_written |].
    split; [apply RegisterDriveValidationRules_written |].
    split; [apply CreateOrUpdateConversionKeyPairSecret_written |].
    split; [apply CreateOrUpdateConversionCACertSecret_written |].
    split.
    { destruct (CreateDaemonSet_descriptor identity image registry org loopBackOnly
                  nodeSelector tolerations seccompProfileName apparmorProfileName
                  enableDynamicDiscovery h s true writer) as (r & _ & Hser & _).
      exists r. exact Hser. }
    split.
    { intros gvk Hsel Hver. split.
      - by apply (CreateStorageClass_v1_written _ _ _ _ gvk).
      - by apply (CreateCSIDriver_v1 h _ _ _ _ gvk). }
    split.
    { intros gvk Hsel Hver. by apply (CreateStorageClass_v1beta1_written _ _ _ _ gvk). }
    apply CreateDeployment_written.
Qed.

End DryRun.

(** C1, as stated, fails: called with [dryRun = true] on a cluster that
    holds no secret, [GetConversionCABundle] and
    [CreateConversionWebhookSecrets] both contact the API to fetch a
    secret. *)
Lemma dry_run_still_fetches :
  let w := freshWorld ["v1"] [] sampleCerts in
  let bundle :=
    run world (GetConversionCABundle (H := samplePackage) "direct-csi" true initialGlobals) w in
  let secrets :=
    run world (CreateConversionWebhookSecrets (H := samplePackage) "direct-csi" true
                 (writerTo 1) initialGlobals) w in
  trace bundle
  = [EvGet (CoreV1_Secrets "direct-csi") "conversion-webhook-ca-cert"
       (inl (notFound "conversion-webhook-ca-cert"))] /\
  existsb is_api_call (trace bundle) = true /\
  hd_error (trace secrets)
  = Some (EvGet (CoreV1_Secrets "direct-csi") "conversion-webhook-tls"
            (inl (notFound "conversion-webhook-tls"))) /\
  existsb is_api_call (trace secrets) = true.
Proof. vm_compute. repeat split; reflexivity. Qed.

(** ** The theorems at work on the reference world *)

Lemma freshWorld_secrets_by_name versions rs cs :
  secrets_by_name (freshWorld versions rs cs).
Proof. intros client name sec Hlook. cbn in Hlook. by rewrite lookup_empty in Hlook. Qed.

Lemma dry_run_changes_nothing_witness :
  let w := freshWorld ["v1"] ["x7k2q"] sampleCerts in
  quiet world w (CreateDaemonSet (H := samplePackage) "direct-csi" "direct-csi:latest" true
                   "quay.io" "minio" false ∅ [] EmptyString EmptyString false (writerTo 1)) /\
  serialized_to (writerTo 1)
    (ObjStorageClassV1 (storageClassV1 (H := samplePackage) "direct-csi"))
    (trace (run world (CreateStorageClass (H := samplePackage) "direct-csi" true (writerTo 1)) w)).
Proof.
  pose proof (@dry_run_changes_nothing samplePackage World world
                (freshWorld ["v1"] ["x7k2q"] sampleCerts) initialGlobals
                "direct-csi" "direct-csi:latest" "quay.io" "minio" false ∅ [] EmptyString EmptyString false
                "direct-csi-x7k2q" [Byte.x03] [Byte.x04] [Byte.x01] (writerTo 1))
    as ((_ & _ & _ & _ & Hquiet & _) & _ & _ & (_ & _ & _ & _ & _ & _ & Hv1 & _)).
  split; [exact Hquiet |].
  exact (proj1 (Hv1 {| schema.Group := "storage.k8s.io"; schema.Version := "v1";
                       schema.Kind := "CSIDriver" |} eq_refl eq_refl)).
Defined.

Lemma conversion_secrets_are_reconciled_witness :
  let w := freshWorld ["v1"] [] sampleCerts in
  let reconcile pub priv :=
    CreateOrUpdateConversionKeyPairSecret (H := samplePackage) "direct-csi" pub priv
      false (writerTo 1) in
  let o := run world (reconcile [Byte.x03] [Byte.x04]) w in
  reconcile_run (CoreV1_Secrets "direct-csi") "conversion-webhook-tls"
    (secretObj (H := samplePackage) "conversion-webhook-tls" "direct-csi"
       (keyPairDataMap (H := samplePackage) [Byte.x03] [Byte.x04]))
    (writerTo 1) (trace o) (result o) /\
  exists stored,
    secrets (final (snd (run2 world (reconcile [Byte.x03] [Byte.x04])
                           (reconcile [Byte.x05] [Byte.x06]) w)))
      !! (CoreV1_Secrets "direct-csi", "conversion-webhook-tls") = Some stored /\
    corev1.sec_Data stored !! "cert.pem" = Some [Byte.x05] /\
    corev1.sec_Data stored !! "key.pem" = Some [Byte.x06].
Proof.
  pose proof (@conversion_secrets_are_reconciled samplePackage World world
                (freshWorld ["v1"] [] sampleCerts) "direct-csi"
                [Byte.x03] [Byte.x04] [Byte.x01] (writerTo 1))
    as (_ & Hrun & _ & _ & Hconv & _).
  split.
  - apply Hrun. vm_compute. left. reflexivity.
  - destruct (Hconv (freshWorld ["v1"] [] sampleCerts) [Byte.x05] [Byte.x06]
                (freshWorld_secrets_by_name _ _ _))
      as (_ & _ & stored & Hlook & Hpub & Hpriv & _).
    exists stored. split; [exact Hlook |]. split; [exact Hpub |].
    apply Hpriv. discriminate.
Defined.

Lemma selector_token_fresh_per_call_witness :
  let CreateDaemonSet' :=
    CreateDaemonSet (H := samplePackage) "direct-csi" "direct-csi:latest" false
      "quay.io" "minio" false ∅ [] EmptyString EmptyString false (writerTo 1) in
  let CreateDeployment' :=
    CreateDeployment (H := samplePackage) "direct-csi" "direct-csi:latest" false
      "quay.io" "minio" (writerTo 1) initialGlobals in
  let a := run world CreateDaemonSet' (freshWorld ["v1"] ["x7k2q"] sampleCerts) in
  let b := run world CreateDaemonSet' (freshWorld ["v1"] ["m3p9z"] sampleCerts) in
  let c := run world CreateDeployment' (freshWorld ["v1"] ["x7k2q"] sampleCerts) in
  directCSISelector (Package := samplePackage) <> EmptyString /\
  (forall da db,
     In (ObjDaemonSet da) (descriptors (trace a)) ->
     In (ObjDaemonSet db) (descriptors (trace b)) ->
     daemonSetSelector da !! directCSISelector (Package := samplePackage)
     <> daemonSetSelector db !! directCSISelector (Package := samplePackage)) /\
  exists dc,
    In (ObjDeployment dc) (descriptors (trace c)) /\
    deploymentSelector dc !! directCSISelector (Package := samplePackage)
    = Some "direct-csi-x7k2q".
Proof.
  assert (Hkey : directCSISelector (Package := samplePackage) <> EmptyString) by discriminate.
  split; [exact Hkey |].
  destruct (@selector_token_fresh_per_call samplePackage World World world world
              (freshWorld ["v1"] ["x7k2q"] sampleCerts)
              (freshWorld ["v1"] ["m3p9z"] sampleCerts)
              initialGlobals initialGlobals
              "direct-csi" "direct-csi:latest" false "quay.io" "minio" false ∅ [] EmptyString EmptyString
              false (writerTo 1) Hkey)
    as [(ra & rb & Hra & Hrb & _ & Hall) (rc & rd & Hrc & _ & Hbuilt & Hdep)].
  split.
  - intros da db Hda Hdb.
    destruct (Hall da db Hda Hdb) as (_ & Hne & _). apply Hne.
    vm_compute in Hra. vm_compute in Hrb.
    injection Hra as <-. injection Hrb as <-. discriminate.
  - destruct (Hbuilt eq_refl) as [dc Hdc]. exists dc. split; [exact Hdc |].
    assert (Hdd : exists dd, In (ObjDeployment dd)
              (descriptors (trace (run world
                 (CreateDeployment (H := samplePackage) "direct-csi" "direct-csi:latest" false
                    "quay.io" "minio" (writerTo 1) initialGlobals)
                 (freshWorld ["v1"] ["m3p9z"] sampleCerts))))).
    { eexists. vm_compute. right. left. reflexivity. }
    destruct Hdd as [dd Hdd].
    destruct (Hdep dc dd Hdc Hdd) as ((Hsel & _) & _).
    rewrite Hsel. vm_compute in Hrc. injection Hrc as <-. reflexivity.
Defined.

Lemma already_exists_tolerated_only_for_controller_secret_witness :
  let fresh := freshWorld ["v1"] ["x7k2q"] sampleCerts in
  let CreateNamespace' := CreateNamespace (H := samplePackage) "direct-csi" false (writerTo 1) in
  let installed := final (run world CreateNamespace' fresh) in
  let withSecret :=
    final (run world (CreateControllerSecret (H := samplePackage) "direct-csi"
                        [Byte.x03] [Byte.x04] false) fresh) in
  let redeployed :=
    run world (CreateDeployment (H := samplePackage) "direct-csi" "direct-csi:latest"
                 false "quay.io" "minio" (writerTo 1) initialGlobals) withSecret in
  result (run world CreateNamespace' installed) = Some (alreadyExists "direct-csi") /\
  (exists d wr, In (EvWriteObject (writerTo 1) (ObjDeployment d) wr) (trace redeployed)) /\
  fst (result redeployed) = None.
Proof.
  intros fresh CreateNamespace' installed withSecret redeployed.
  split; [| split].
  - pose proof (@already_exists_tolerated_only_for_controller_secret samplePackage
                  World world installed initialGlobals
                  "direct-csi" "direct-csi:latest" false "quay.io" "minio" false ∅ [] EmptyString EmptyString
                  false "direct-csi-x7k2q" [Byte.x03] [Byte.x04] (writerTo 1))
      as (Hns & _).
    apply (Hns (ObjNamespace (namespaceObj (H := samplePackage) "direct-csi"))).
    vm_compute. left. reflexivity.
  - pose proof (@already_exists_tolerated_only_for_controller_secret samplePackage
                  World world withSecret initialGlobals
                  "direct-csi" "direct-csi:latest" false "quay.io" "minio" false ∅ [] EmptyString EmptyString
                  false "direct-csi-x7k2q" [Byte.x03] [Byte.x04] (writerTo 1))
      as (_ & _ & _ & _ & _ & _ & _ & _ & _ & _ & Hdep).
    specialize (Hdep (ObjSecret (controllerSecretObj (H := samplePackage) "direct-csi"
                                   [Byte.x03] [Byte.x04]))
                  (alreadyExists "validationwebhookcerts")).
    cbn [IsAlreadyExists alreadyExists] in Hdep.
    destruct Hdep as (d & wr & Hin & _); [vm_compute; left; reflexivity |].
    exists d, wr. exact Hin.
  - vm_compute. reflexivity.
Defined.

Lemma webhook_bundle_is_cached_bundle_witness :
  let deployed :=
    run world (CreateDeployment (H := samplePackage) "direct-csi" "direct-csi:latest"
                 true "quay.io" "minio" (writerTo 1) initialGlobals)
      (freshWorld ["v1"] ["x7k2q"] sampleCerts) in
  caBundles (getDriveValidatingWebhookConfig (H := samplePackage) "direct-csi"
               (snd (result deployed)))
  = [[Byte.x01; Byte.x02]].
Proof.
  pose proof (@webhook_bundle_is_cached_bundle samplePackage World world
                (freshWorld ["v1"] ["x7k2q"] sampleCerts) "direct-csi" true (writerTo 1)
                initialGlobals) as (_ & _ & _ & Hdep).
  apply (Hdep "direct-csi:latest" "quay.io" "minio" _ [Byte.x03] [Byte.x04]).
  vm_compute. right. left. reflexivity.
Defined.

Lemma daemonset_profiles_only_when_named_witness :
  let plain :=
    run world (CreateDaemonSet (H := samplePackage) "direct-csi" "direct-csi:latest" true
                 "quay.io" "minio" false ∅ [] EmptyString EmptyString false (writerTo 1))
      (freshWorld ["v1"] ["x7k2q"] sampleCerts) in
  let confined :=
    run world (CreateDaemonSet (H := samplePackage) "direct-csi" "direct-csi:latest" true
                 "quay.io" "minio" false ∅ [] "direct-csi-seccomp.json" "direct-csi-apparmor"
                 false (writerTo 1))
      (freshWorld ["v1"] ["x7k2q"] sampleCerts) in
  (forall obj, In obj (descriptors (trace plain)) ->
     exists ds, obj = ObjDaemonSet ds /\
       Forall (fun sc => corev1.sc_SeccompProfile sc = None)
         (securityContexts (daemonSetTemplate ds)) /\
       templateAnnotations (daemonSetTemplate ds) !! apparmorAnnotation = None) /\
  (forall obj, In obj (descriptors (trace confined)) ->
     exists ds, obj = ObjDaemonSet ds /\
       templateAnnotations (daemonSetTemplate ds) !! apparmorAnnotation
       = Some "direct-csi-apparmor").
Proof.
  split.
  - intros obj Hin.
    destruct (@daemonset_profiles_only_when_named samplePackage World world
                (freshWorld ["v1"] ["x7k2q"] sampleCerts)
                "direct-csi" "direct-csi:latest" true "quay.io" "minio" false ∅ [] EmptyString EmptyString
                false (writerTo 1)) as [_ Hall].
    destruct (Hall obj Hin) as (ds & -> & Hsec & _ & _ & Happ & _).
    exists ds. split; [reflexivity |]. split; [exact (Hsec eq_refl) |].
    apply Happ; [reflexivity | discriminate].
  - intros obj Hin.
    destruct (@daemonset_profiles_only_when_named samplePackage World world
                (freshWorld ["v1"] ["x7k2q"] sampleCerts)
                "direct-csi" "direct-csi:latest" true "quay.io" "minio" false ∅ []
                "direct-csi-seccomp.json" "direct-csi-apparmor"
                false (writerTo 1)) as [_ Hall].
    destruct (Hall obj Hin) as (ds & -> & _ & _ & _ & _ & Happ).
    exists ds. split; [reflexivity |]. apply Happ. discriminate.
Defined.

(** * Further properties *)

(** ** Retrieving the conversion CA bundle *)

Section Bundle.
Context `{Package} {S : Type} (h : handler S).

(** X1.  [GetConversionCABundle] answers from the secret it has fetched:
    the bytes under the CA file name, whatever they are, without error;
    [errEmptyCABundle] when the secret has no such key.  Whenever it
    returns an error, the bundle it returns is empty. *)
Theorem GetConversionCABundle_from_secret s identity dryRun g :
  let o := run h (GetConversionCABundle identity dryRun g) s in
  let client := CoreV1_Secrets (SanitizeKubeResourceName identity) in
  (forall secret,
     In (EvGet client conversionCACert (inr secret)) (trace o) ->
     result o = match corev1.sec_Data secret !! caCertFileName with
                | Some value => (value, None)
                | None => ([], Some errEmptyCABundle)
                end) /\
  (forall e, snd (result o) = Some e -> fst (result o) = []).
Proof.
  unfold GetConversionCABundle. norm. destruct (h _ _ s) as [r s'].
  destruct r as [e | secret]; norm.
  - destruct (IsNotFound e && dryRun); norm; [case_decide |];
      (split; [cbn [In]; intros secret Hin; decompose [or] Hin; done
              | cbn; congruence]).
  - destruct (corev1.sec_Data secret !! caCertFileName) eqn:Hkey; norm;
      (split; [cbn [In]; intros secret' Hin; decompose [or] Hin; try done;
               simplify_eq; by rewrite Hkey
              | cbn; congruence]).
Qed.

(** X2.  When the fetch fails, [GetConversionCABundle] falls back to the
    cached bundle only for a NotFound error in dry-run mode, and then
    returns the cache if it is non-empty and [errEmptyCABundle]
    otherwise.  Any other failure is returned as it is, so that outside
    dry-run mode the result never depends on the cache. *)
Theorem GetConversionCABundle_fallback s identity dryRun g :
  let o := run h (GetConversionCABundle identity dryRun g) s in
  let client := CoreV1_Secrets (SanitizeKubeResourceName identity) in
  (forall e,
     In (EvGet client conversionCACert (inl e)) (trace o) ->
     result o =
       if IsNotFound e && dryRun then
         match conversionWebhookCaBundle g with
         | [] => ([], Some errEmptyCABundle)
         | _ :: _ => (conversionWebhookCaBundle g, None)
         end
       else ([], Some e)) /\
  (forall g',
     result (run h (GetConversionCABundle identity false g) s)
     = result (run h (GetConversionCABundle identity false g') s)).
Proof.
  split.
  - unfold GetConversionCABundle. norm. destruct (h _ _ s) as [r s'].
    destruct r as [e | secret]; norm.
    + destruct (IsNotFound e && dryRun) eqn:Hfall; norm;
        cbn [In]; intros e' Hin; decompose [or] Hin; try done; simplify_eq;
        rewrite Hfall; [| reflexivity].
      case_decide as Hlen; destruct (conversionWebhookCaBundle g); try done.
    + destruct (corev1.sec_Data secret !! caCertFileName); norm;
        cbn [In]; intros e' Hin; decompose [or] Hin; done.
  - intros g'. unfold GetConversionCABundle. norm. destruct (h _ _ s) as [r s'].
    destruct r as [e | secret]; norm.
    + rewrite andb_false_r. reflexivity.
    + reflexivity.
Qed.

(** ** Installing the conversion secrets *)

(** X3.  [CreateConversionWebhookSecrets] does nothing when its first
    two fetches find both conversion secrets: it returns no error, asks
    for no certificate, serializes nothing and leaves the cached
    bundles as they were.  A first fetch error other than NotFound is
    returned after that one fetch, again with nothing else done. *)
Theorem CreateConversionWebhookSecrets_gate s identity dryRun writer g :
  let o := run h (CreateConversionWebhookSecrets identity dryRun writer g) s in
  let client := CoreV1_Secrets (SanitizeKubeResourceName identity) in
  (forall keyPair caCert rest,
     trace o = EvGet client conversionKeyPair (inr keyPair)
               :: EvGet client conversionCACert (inr caCert) :: rest ->
     result o = (None, g) /\ rest = []) /\
  (forall e rest,
     trace o = EvGet client conversionKeyPair (inl e) :: rest ->
     IsNotFound e = false ->
     result o = (Some e, g) /\ rest = []).
Proof.
  unfold CreateConversionWebhookSecrets, checkConversionSecrets. norm.
  destruct (h _ _ s) as [r1 s1]. destruct r1 as [e1 | keyPair]; norm.
  - split; [intros ? ? ? [=] |].
    intros e rest [= <- <-] Hnf. rewrite Hnf. norm. done.
  - destruct (h _ _ s1) as [r2 s2]. destruct r2 as [e2 | caCert]; norm.
    + split; [intros ? ? ? [=] | intros ? ? [=]].
    + split; [intros ? ? ? [= <- <- <-]; done | intros ? ? [=]].
Qed.

(** The cached conversion bundle after [CreateConversionWebhookSecrets]:
    the CA certificate obtained, if one was, and the bundle cached
    before otherwise. *)
Lemma CreateConversionWebhookSecrets_cache s identity dryRun writer g :
  let o := run h (CreateConversionWebhookSecrets identity dryRun writer g) s in
  let dns := [getConversionWebhookDNSName identity] in
  (forall ca pub priv,
     In (EvGetCerts dns (inr (ca, pub, priv))) (trace o) ->
     snd (result o)
     = {| validationWebhookCaBundle := validationWebhookCaBundle g;
          conversionWebhookCaBundle := ca |}) /\
  (forall e,
     In (EvGetCerts dns (inl e)) (trace o) ->
     result o = (Some e, g) /\ descriptors (trace o) = []).
Proof.
  unfold CreateConversionWebhookSecrets, checkConversionSecrets,
    CreateOrUpdateConversionKeyPairSecret, CreateOrUpdateConversionCACertSecret.
  walk h; (split; [intros ca' pub' priv' | intros e']);
    cbn [In]; intros Hin; decompose [or] Hin; try done; simplify_eq; done.
Qed.

End Bundle.

(** X4.  The dry-run preview of the conversion bundle: when a run of
    [CreateConversionWebhookSecrets] has obtained a non-empty CA
    certificate, a later dry-run [GetConversionCABundle] that finds no
    secret on the cluster returns that certificate, without error. *)
Theorem conversion_bundle_previewed `{Package} {S S' : Type} (h : handler S)
    (h' : handler S') s s' identity dryRun writer g ca pub priv e :
  let o := run h (CreateConversionWebhookSecrets identity dryRun writer g) s in
  In (EvGetCerts [getConversionWebhookDNSName identity] (inr (ca, pub, priv))) (trace o) ->
  ca <> [] ->
  fst (h' _ (Get (CoreV1_Secrets (SanitizeKubeResourceName identity)) conversionCACert) s')
    = inl e ->
  IsNotFound e = true ->
  result (run h' (GetConversionCABundle identity true (snd (result o))) s') = (ca, None).
Proof.
  intros o Hcerts Hca Hget Hnf. subst o.
  rewrite (proj1 (CreateConversionWebhookSecrets_cache h s identity dryRun writer g)
             ca pub priv Hcerts).
  unfold GetConversionCABundle. norm.
  destruct (h' _ _ s') as [r s'']. cbn [fst] in Hget. subst r. norm.
  rewrite Hnf. cbn [andb conversionWebhookCaBundle]. norm.
  case_decide as Hlen; [| reflexivity].
  destruct ca; [done | discriminate Hlen].
Qed.

Lemma conversion_bundle_previewed_witness :
  let w := freshWorld ["v1"] [] sampleCerts in
  let o :=
    run world (CreateConversionWebhookSecrets (H := samplePackage) "direct-csi" true
                 (writerTo 1) initialGlobals) w in
  result (run world (GetConversionCABundle (H := samplePackage) "direct-csi" true
                       (snd (result o))) (final o))
  = ([Byte.x01; Byte.x02], None).
Proof.
  apply (@conversion_bundle_previewed samplePackage World World world world
           (freshWorld ["v1"] [] sampleCerts) _ "direct-csi" true (writerTo 1)
           initialGlobals [Byte.x01; Byte.x02] [Byte.x03] [Byte.x04]
           (notFound "conversion-webhook-ca-cert")).
  - vm_compute. right. left. reflexivity.
  - discriminate.
  - vm_compute. reflexivity.
  - reflexivity.
Defined.

(** ** The conversion secrets on the reference cluster *)

Section OnTheCluster.
Context `{Package}.

Lemma withData_same_data (stored : corev1.Secret) (data : gmap string bytes) :
  corev1.sec_Data stored = data -> withData stored data = stored.
Proof. destruct stored. cbn. intros ->. reflexivity. Qed.

(** A reconciliation on the reference cluster succeeds and stores, under
    the name reconciled, a secret with the data supplied. *)
Lemma reconcileSecret_on_world w client name secret writer :
  secrets_by_name w ->
  objName (ObjSecret secret) = name ->
  let o := run world (reconcileSecret client name secret false writer) w in
  result o = None /\
  secrets_by_name (final o) /\
  exists stored,
    secrets (final o) = <[(client, name) := stored]> (secrets w) /\
    corev1.sec_Data stored = corev1.sec_Data secret /\
    objName (ObjSecret stored) = name.
Proof.
  intros Hwf Hname o.
  assert (exists stored,
            result o = None /\
            secrets (final o) = <[(client, name) := stored]> (secrets w) /\
            corev1.sec_Data stored = corev1.sec_Data secret /\
            objName (ObjSecret stored) = name) as (stored & Hres & Hsec & Hdata & Hsname).
  { destruct (secrets w !! (client, name)) as [existing |] eqn:Hlook.
    - destruct (reconcileSecret_updates w client name existing secret writer Hlook
                  (Hwf _ _ _ Hlook)) as [Hres Hsec].
      eexists. split; [exact Hres |]. split; [exact Hsec |].
      split; [reflexivity | exact (Hwf _ _ _ Hlook)].
    - destruct (reconcileSecret_creates w client name secret writer Hlook Hname)
        as [Hres Hsec].
      eexists. split; [exact Hres |]. split; [exact Hsec |].
      split; [reflexivity | exact Hname]. }
  split; [exact Hres |]. split; [| by exists stored].
  intros client' name' sec Hlook. rewrite Hsec in Hlook.
  destruct (decide ((client, name) = (client', name'))) as [[= <- <-] | Hne].
  - rewrite lookup_insert_eq in Hlook. by injection Hlook as <-.
  - rewrite lookup_insert_ne in Hlook by exact Hne. by apply (Hwf client').
Qed.

(** X5.  Reconciling a conversion secret is idempotent on a cluster that
    keeps what it is given: a second call with the same data succeeds
    and leaves the secrets of the cluster as the first call left them. *)
Theorem reconcilers_are_idempotent w identity publicCertBytes privateKeyBytes
    caCertBytes writer :
  secrets_by_name w ->
  let keyPair :=
    CreateOrUpdateConversionKeyPairSecret identity publicCertBytes privateKeyBytes
      false writer in
  let caCert := CreateOrUpdateConversionCACertSecret identity caCertBytes false writer in
  (result (snd (run2 world keyPair keyPair w)) = None /\
   secrets (final (snd (run2 world keyPair keyPair w)))
   = secrets (final (fst (run2 world keyPair keyPair w)))) /\
  (result (snd (run2 world caCert caCert w)) = None /\
   secrets (final (snd (run2 world caCert caCert w)))
   = secrets (final (fst (run2 world caCert caCert w)))).
Proof.
  intros Hwf keyPair caCert. subst keyPair caCert. unfold run2. cbn [fst snd].
  rewrite !CreateOrUpdateConversionKeyPairSecret_reconciles,
    !CreateOrUpdateConversionCACertSecret_reconciles.
  split.
  - destruct (reconcileSecret_on_world w
                (CoreV1_Secrets (SanitizeKubeResourceName identity)) conversionKeyPair
                (secretObj conversionKeyPair identity
                   (keyPairDataMap publicCertBytes privateKeyBytes)) writer Hwf eq_refl)
      as (_ & _ & stored & Hsec & Hdata & Hname).
    set (w1 := final (run world (reconcileSecret _ _ _ false writer) w)) in *.
    assert (Hlook : secrets w1 !! (CoreV1_Secrets (SanitizeKubeResourceName identity),
                                    conversionKeyPair) = Some stored)
      by (rewrite Hsec; apply lookup_insert_eq).
    destruct (reconcileSecret_updates w1 _ _ stored
                (secretObj conversionKeyPair identity
                   (keyPairDataMap publicCertBytes privateKeyBytes)) writer Hlook Hname)
      as [Hres2 Hsec2].
    split; [exact Hres2 |].
    rewrite Hsec2, withData_same_data by exact Hdata.
    by apply insert_id.
  - destruct (reconcileSecret_on_world w
                (CoreV1_Secrets (SanitizeKubeResourceName identity)) conversionCACert
                (secretObj conversionCACert identity (caCertDataMap caCertBytes))
                writer Hwf eq_refl)
      as (_ & _ & stored & Hsec & Hdata & Hname).
    set (w1 := final (run world (reconcileSecret _ _ _ false writer) w)) in *.
    assert (Hlook : secrets w1 !! (CoreV1_Secrets (SanitizeKubeResourceName identity),
                                    conversionCACert) = Some stored)
      by (rewrite Hsec; apply lookup_insert_eq).
    destruct (reconcileSecret_updates w1 _ _ stored
                (secretObj conversionCACert identity (caCertDataMap caCertBytes))
                writer Hlook Hname)
      as [Hres2 Hsec2].
    split; [exact Hres2 |].
    rewrite Hsec2, withData_same_data by exact Hdata.
    by apply insert_id.
Qed.

(** X6.  Round trip through the cluster: on a cluster that lacks the
    key-pair secret, [CreateConversionWebhookSecrets] (not in dry-run
    mode) installs both secrets without error, and
    [GetConversionCABundle] then returns the CA certificate that the
    certificate helper had produced. *)
Theorem conversion_bundle_round_trip w identity writer g caCertBytes publicCertBytes
    privateKeyBytes :
  secrets_by_name w ->
  certs w = inr (caCertBytes, publicCertBytes, privateKeyBytes) ->
  secrets w !! (CoreV1_Secrets (SanitizeKubeResourceName identity), conversionKeyPair)
    = None ->
  let o := run world (CreateConversionWebhookSecrets identity false writer g) w in
  fst (result o) = None /\
  forall dryRun,
    result (run world (GetConversionCABundle identity dryRun (snd (result o))) (final o))
    = (caCertBytes, None).
Proof.
  intros Hwf Hcerts Hlook o. subst o.
  unfold CreateConversionWebhookSecrets, checkConversionSecrets.
  cbn [run bind perform world]. unfold world_get at 1 2 3. rewrite Hlook.
  cbn [run bind perform world IsNotFound notFound negb result final trace]. rewrite Hcerts.
  rewrite !run_bind. cbn [result final trace].
  rewrite !CreateOrUpdateConversionKeyPairSecret_reconciles.
  destruct (reconcileSecret_on_world w
              (CoreV1_Secrets (SanitizeKubeResourceName identity)) conversionKeyPair
              (secretObj conversionKeyPair identity
                 (keyPairDataMap publicCertBytes privateKeyBytes)) writer Hwf eq_refl)
    as (Hres1 & Hwf1 & _).
  cbn zeta in Hres1, Hwf1. rewrite Hres1.
  set (w1 := final (run world (reconcileSecret _ _ _ false writer) w)) in *.
  rewrite !CreateOrUpdateConversionCACertSecret_reconciles.
  destruct (reconcileSecret_on_world w1
              (CoreV1_Secrets (SanitizeKubeResourceName identity)) conversionCACert
              (secretObj conversionCACert identity (caCertDataMap caCertBytes))
              writer Hwf1 eq_refl)
    as (Hres2 & _ & stored & Hsec & Hdata & _).
  cbn zeta in Hres2, Hsec. rewrite Hres2.
  set (w2 := final (run world (reconcileSecret _ _ _ false writer) w1)) in *.
  cbn [run result final fst snd]. split; [reflexivity |]. intros dryRun.
  unfold GetConversionCABundle. cbn [run bind perform world]. unfold world_get.
  rewrite Hsec, lookup_insert_eq. cbn [run result].
  rewrite Hdata. unfold secretObj, caCertDataMap. cbn [corev1.sec_Data].
  by rewrite lookup_insert_eq.
Qed.

End OnTheCluster.

Lemma reconcilers_are_idempotent_witness :
  let w := freshWorld ["v1"] [] sampleCerts in
  let caCert :=
    CreateOrUpdateConversionCACertSecret (H := samplePackage) "direct-csi" [Byte.x01]
      false (writerTo 1) in
  secrets (final (snd (run2 world caCert caCert w)))
  = secrets (final (fst (run2 world caCert caCert w))).
Proof.
  exact (proj2 (proj2 (@reconcilers_are_idempotent samplePackage
                         (freshWorld ["v1"] [] sampleCerts) "direct-csi"
                         [Byte.x03] [Byte.x04] [Byte.x01] (writerTo 1)
                         (freshWorld_secrets_by_name _ _ _)))).
Defined.

Lemma conversion_bundle_round_trip_witness :
  let w := freshWorld ["v1"] [] sampleCerts in
  let o :=
    run world (CreateConversionWebhookSecrets (H := samplePackage) "direct-csi" false
                 (writerTo 1) initialGlobals) w in
  result (run world (GetConversionCABundle (H := samplePackage) "direct-csi" false
                       (snd (result o))) (final o))
  = ([Byte.x01; Byte.x02], None).
Proof.
  exact (proj2 (@conversion_bundle_round_trip samplePackage
                  (freshWorld ["v1"] [] sampleCerts) "direct-csi" (writerTo 1)
                  initialGlobals [Byte.x01; Byte.x02] [Byte.x03] [Byte.x04]
                  (freshWorld_secrets_by_name _ _ _) eq_refl eq_refl) false).
Defined.

(** ** What a result says about the calls made *)

Section Outcomes.
Context `{Package} {S : Type} (h : handler S).

Ltac lists :=
  cbn [creates created logged write_failures descriptors omap list_omap event_object In
       existsb is_api_call is_create is_get is_update orb] in *.

(** X7.  Outside dry-run mode an operation that returns no error has
    made exactly one successful create call, for the object it has
    built, on the client interface of that object's kind and schema
    version.  [CreateCSIDriver] and [CreateStorageClass] submit a v1
    object to the v1 interface or a v1beta1 object to the v1beta1
    interface, never one to the other. *)
Theorem success_means_submitted s g identity image registry org loopBackOnly
    nodeSelector tolerations seccompProfileName apparmorProfileName
    enableDynamicDiscovery writer :
  let submitted (p : Prog (option error)) (calls : list (Endpoint * Object)) :=
    result (run h p s) = None -> created (trace (run h p s)) = calls in
  let ns := SanitizeKubeResourceName identity in
  submitted (CreateNamespace identity false writer)
    [(CoreV1_Namespaces, ObjNamespace (namespaceObj identity))] /\
  submitted (CreateService identity false writer)
    [(CoreV1_Services ns, ObjService (serviceObj identity))] /\
  submitted (RegisterDriveValidationRules identity false writer g)
    [(AdmissionregistrationV1_ValidatingWebhookConfigurations,
      ObjValidatingWebhookConfiguration (getDriveValidatingWebhookConfig identity g))] /\
  (let p := CreateCSIDriver identity false writer in
   result (run h p s) = None ->
   created (trace (run h p s))
   = [(StorageV1_CSIDrivers, ObjCSIDriverV1 (csiDriverV1 identity))] \/
   created (trace (run h p s))
   = [(StorageV1beta1_CSIDrivers, ObjCSIDriverV1beta1 (csiDriverV1beta1 identity))]) /\
  (let p := CreateStorageClass identity false writer in
   result (run h p s) = None ->
   created (trace (run h p s))
   = [(StorageV1_StorageClasses, ObjStorageClassV1 (storageClassV1 identity))] \/
   created (trace (run h p s))
   = [(StorageV1beta1_StorageClasses,
       ObjStorageClassV1beta1 (storageClassV1beta1 identity))]) /\
  (let p :=
     CreateDaemonSet identity image false registry org loopBackOnly nodeSelector
       tolerations seccompProfileName apparmorProfileName enableDynamicDiscovery writer in
   result (run h p s) = None ->
   exists r,
     draws (trace (run h p s)) = [r] /\
     created (trace (run h p s))
     = [(AppsV1_DaemonSets ns,
         ObjDaemonSet
           (daemonSetObj identity image registry org loopBackOnly nodeSelector
              tolerations seccompProfileName apparmorProfileName
              enableDynamicDiscovery (uniqueName ns r)))]).
Proof.
  intros submitted ns. subst submitted ns. cbn beta zeta.
  split; [| split; [| split; [| split; [| split]]]].
  - unfold CreateNamespace. walk h; lists; done.
  - unfold CreateService. walk h; lists; done.
  - unfold RegisterDriveValidationRules. walk h; lists; done.
  - unfold CreateCSIDriver. walk h; lists; try done; intros _; by (left + right).
  - unfold CreateStorageClass. walk h; lists; try done; intros _; by (left + right).
  - unfold CreateDaemonSet, generateSanitizedUniqueNameFrom. norm.
    destruct (h _ _ s) as [r s']. norm.
    fold (uniqueName (SanitizeKubeResourceName identity) r).
    walk h; try done; intros _; exists r; split; reflexivity.
Qed.

(** Close a goal [stops_at_write_failure] once the run has been walked
    through: the trace at hand ends in the failed serialization. *)
Ltac stopped :=
  lists; intros Hin; decompose [or] Hin; try done; simplify_eq;
  (split; [reflexivity |]).

Lemma CreateNamespace_stops s identity dryRun writer :
  stops_at_write_failure h s (CreateNamespace identity dryRun writer) id (fun calls => calls = []).
Proof.
  intros e. unfold CreateNamespace. walk h; stopped.
  by exists [], writer, (ObjNamespace (namespaceObj identity)).
Qed.

Lemma CreateService_stops s identity dryRun writer :
  stops_at_write_failure h s (CreateService identity dryRun writer) id (fun calls => calls = []).
Proof.
  intros e. unfold CreateService. walk h; stopped.
  by exists [], writer, (ObjService (serviceObj identity)).
Qed.

Lemma RegisterDriveValidationRules_stops s identity dryRun writer g :
  stops_at_write_failure h s (RegisterDriveValidationRules identity dryRun writer g) id
    (fun calls => calls = []).
Proof.
  intros e. unfold RegisterDriveValidationRules. walk h; stopped.
  by exists [], writer,
       (ObjValidatingWebhookConfiguration (getDriveValidatingWebhookConfig identity g)).
Qed.

Lemma CreateDaemonSet_stops s identity image dryRun registry org loopBackOnly
    nodeSelector tolerations seccompProfileName apparmorProfileName
    enableDynamicDiscovery writer :
  stops_at_write_failure h s
    (CreateDaemonSet identity image dryRun registry org loopBackOnly nodeSelector
       tolerations seccompProfileName apparmorProfileName enableDynamicDiscovery writer)
    id (fun calls => exists r, calls = [EvNewRandomString 5 r]).
Proof.
  intros e. unfold CreateDaemonSet, generateSanitizedUniqueNameFrom.
  walk h; stopped.
  eexists [_], writer, _. split; [reflexivity |]. eexists; reflexivity.
Qed.

Lemma CreateCSIDriver_stops s identity dryRun writer :
  stops_at_write_failure h s (CreateCSIDriver identity dryRun writer) id
    (fun calls => exists gvk, calls = [log storageNegotiation (inr gvk)]).
Proof.
  intros e. unfold CreateCSIDriver. walk h; stopped;
    (eexists [_], writer, _; split; [reflexivity |]; eexists; reflexivity).
Qed.

Lemma CreateStorageClass_stops s identity dryRun writer :
  stops_at_write_failure h s (CreateStorageClass identity dryRun writer) id
    (fun calls => exists gvk, calls = [log storageNegotiation (inr gvk)]).
Proof.
  intros e. unfold CreateStorageClass. walk h; stopped;
    (eexists [_], writer, _; split; [reflexivity |]; eexists; reflexivity).
Qed.

(** In [CreateDeployment] the deployment is serialized after the
    controller secret has been dealt with. *)
Lemma CreateDeployment_stops s identity image dryRun registry org writer g :
  stops_at_write_failure h s (CreateDeployment identity image dryRun registry org writer g)
    fst
    (fun calls =>
       exists r certs sec answer,
         calls = [EvNewRandomString 5 r; EvGetCerts [admissionWehookDNSName] (inr certs);
                  if dryRun then EvLogYAML (ObjSecret sec) answer
                  else EvCreate (CoreV1_Secrets (SanitizeKubeResourceName identity))
                         (ObjSecret sec) answer]).
Proof.
  intros e.
  unfold CreateDeployment, generateSanitizedUniqueNameFrom, CreateControllerSecret,
    CreateControllerService.
  walk h; stopped;
    (eexists [_; _; _], writer, _; split; [reflexivity |]; do 4 eexists; reflexivity).
Qed.

(** X8.  A serialization error stops the operation: the error is
    returned and the failed serialization is the last call made.  Before
    it [CreateNamespace], [CreateService] and
    [RegisterDriveValidationRules] have made no call, and
    [CreateDaemonSet] has only drawn its random string: the cluster has
    not been contacted.  [CreateCSIDriver] and [CreateStorageClass] have
    put their question to the version negotiator, which queries the
    cluster, and have made no other call.  [CreateDeployment] has drawn
    its random string, obtained the certificates and logged (in dry-run
    mode) or submitted the controller secret, and nothing else. *)
Theorem write_failure_stops_the_operation s g identity image (dryRun : bool) registry org
    loopBackOnly nodeSelector tolerations seccompProfileName apparmorProfileName
    enableDynamicDiscovery writer :
  let nothing (calls : list event) := calls = [] in
  let drawn (calls : list event) := exists r, calls = [EvNewRandomString 5 r] in
  let negotiated (calls : list event) :=
    exists gvk : schema.GroupVersionKind, calls = [log storageNegotiation (inr gvk)] in
  let secretDone (calls : list event) :=
    exists r certs sec answer,
      calls = [EvNewRandomString 5 r; EvGetCerts [admissionWehookDNSName] (inr certs);
               if dryRun then EvLogYAML (ObjSecret sec) answer
               else EvCreate (CoreV1_Secrets (SanitizeKubeResourceName identity))
                      (ObjSecret sec) answer] in
  stops_at_write_failure h s (CreateNamespace identity dryRun writer) id nothing /\
  stops_at_write_failure h s (CreateService identity dryRun writer) id nothing /\
  stops_at_write_failure h s (RegisterDriveValidationRules identity dryRun writer g) id
    nothing /\
  stops_at_write_failure h s
    (CreateDaemonSet identity image dryRun registry org loopBackOnly nodeSelector
       tolerations seccompProfileName apparmorProfileName enableDynamicDiscovery writer)
    id drawn /\
  stops_at_write_failure h s (CreateCSIDriver identity dryRun writer) id negotiated /\
  stops_at_write_failure h s (CreateStorageClass identity dryRun writer) id negotiated /\
  stops_at_write_failure h s
    (CreateDeployment identity image dryRun registry org writer g) fst secretDone /\
  (forall calls,
     nothing calls \/ drawn calls ->
     existsb is_api_call calls = false /\ existsb is_discovery calls = false) /\
  (forall calls,
     negotiated calls ->
     existsb is_api_call calls = false /\ existsb is_discovery calls = true).
Proof.
  cbn zeta.
  split; [apply CreateNamespace_stops |].
  split; [apply CreateService_stops |].
  split; [apply RegisterDriveValidationRules_stops |].
  split; [apply CreateDaemonSet_stops |].
  split; [apply CreateCSIDriver_stops |].
  split; [apply CreateStorageClass_stops |].
  split; [apply CreateDeployment_stops |].
  split.
  - intros calls [-> | [r ->]]; split; reflexivity.
  - intros calls [gvk ->]. split; reflexivity.
Qed.

End Outcomes.

Lemma write_failure_stops_the_operation_witness :
  let w := freshWorld ["v1"] [] sampleCerts in
  let namespace :=
    run closedSink (CreateNamespace (H := samplePackage) "direct-csi" false (writerTo 1)) w in
  let driver :=
    run closedSink (CreateCSIDriver (H := samplePackage) "direct-csi" false (writerTo 1)) w in
  (result namespace = Some errSinkClosed /\
   exists writer obj, trace namespace = [EvWriteObject writer obj (Some errSinkClosed)]) /\
  (result driver = Some errSinkClosed /\
   exists gvk writer obj,
     trace driver
     = [log storageNegotiation (inr gvk); EvWriteObject writer obj (Some errSinkClosed)]).
Proof.
  destruct (@write_failure_stops_the_operation samplePackage World closedSink
              (freshWorld ["v1"] [] sampleCerts) initialGlobals
              "direct-csi" "direct-csi:latest" false "quay.io" "minio" false ∅ []
              EmptyString EmptyString false (writerTo 1))
    as (Hns & _ & _ & _ & Hdriver & _).
  split.
  - destruct (Hns errSinkClosed) as [Hres (calls & writer & obj & Htrace & ->)].
    { vm_compute. left. reflexivity. }
    split; [exact Hres |]. exists writer, obj. exact Htrace.
  - destruct (Hdriver errSinkClosed) as [Hres (calls & writer & obj & Htrace & gvk & ->)].
    { vm_compute. left. reflexivity. }
    split; [exact Hres |]. exists gvk, writer, obj. exact Htrace.
Defined.

(** ** The composite deployment operation *)

Section DeploymentSteps.
Context `{Package} {S : Type} (h : handler S).

Ltac lists :=
  cbn [creates created logged write_failures descriptors omap list_omap event_object In
       existsb is_api_call is_create is_get is_update orb] in *.

(** X9.  The steps of [CreateDeployment] come in order.  A failure of
    the certificate helper is returned before anything is built, and
    the cached bundle stays as it was.  The deployment is submitted only
    once it has been serialized without error and the controller secret
    has been created or found to exist already; the controller service
    is submitted only once the deployment has been created. *)
Theorem CreateDeployment_steps_in_order s identity image dryRun registry org writer g :
  let o := run h (CreateDeployment identity image dryRun registry org writer g) s in
  let ns := SanitizeKubeResourceName identity in
  (forall e,
     In (EvGetCerts [admissionWehookDNSName] (inl e)) (trace o) ->
     result o = (Some e, g) /\ descriptors (trace o) = []) /\
  (forall d r,
     In (EvCreate (AppsV1_Deployments ns) (ObjDeployment d) r) (trace o) ->
     In (EvWriteObject writer (ObjDeployment d) None) (trace o) /\
     exists sec r',
       In (EvCreate (CoreV1_Secrets ns) (ObjSecret sec) r') (trace o) /\
       match r' with Some e => IsAlreadyExists e = true | None => True end) /\
  (forall svc r,
     In (EvCreate (CoreV1_Services ns) (ObjService svc) r) (trace o) ->
     exists d, In (AppsV1_Deployments ns, ObjDeployment d) (created (trace o))).
Proof.
  intros o ns. subst o ns.
  unfold CreateDeployment, generateSanitizedUniqueNameFrom, CreateControllerSecret,
    CreateControllerService.
  walk h; lists; (split; [| split]).
  all: try (intros e' Hin; decompose [or] Hin; try done; simplify_eq; done).
  all: try (intros d r Hin; decompose [or] Hin; try done; simplify_eq;
            (split; [find_event |]); do 2 eexists; (split; [find_event |]);
            first [exact I | assumption]).
  all: intros svc r Hin; decompose [or] Hin; try done; simplify_eq;
    eexists; find_event.
Qed.

(** X10.  The controller service that [CreateDeployment] submits selects
    the pods of the deployment submitted in the same call: its selector
    is the selector label with the token of that call, which is a label
    of the deployment's pod template. *)
Theorem controller_service_selects_deployment_pods s identity image dryRun registry org
    writer g :
  let o := run h (CreateDeployment identity image dryRun registry org writer g) s in
  forall svc d,
    In (ObjService svc) (descriptors (trace o)) ->
    In (ObjDeployment d) (descriptors (trace o)) ->
    (exists tok,
       corev1.ss_Selector (corev1.svc_Spec svc) = {[ directCSISelector := tok ]}) /\
    selects (corev1.ss_Selector (corev1.svc_Spec svc))
      (templateLabels (deploymentTemplate d)).
Proof.
  intros o svc d. subst o.
  unfold CreateDeployment, generateSanitizedUniqueNameFrom, CreateControllerSecret,
    CreateControllerService.
  walk h; lists; intros Hs Hd; decompose [or] Hs; try done; simplify_eq;
    decompose [or] Hd; try done; simplify_eq.
  all: split; [eexists; reflexivity |].
  all: intros key value;
    cbn [controllerServiceObj corev1.svc_Spec corev1.ss_Selector];
    intros [<- <-]%lookup_singleton_Some;
    apply deploymentObj_template_label.
Qed.

End DeploymentSteps.

Lemma controller_service_selects_deployment_pods_witness :
  let o :=
    run world (CreateDeployment (H := samplePackage) "direct-csi" "direct-csi:latest"
                 false "quay.io" "minio" (writerTo 1) initialGlobals)
      (freshWorld ["v1"] ["x7k2q"] sampleCerts) in
  (exists svc, In (ObjService svc) (descriptors (trace o))) /\
  forall svc d,
    In (ObjService svc) (descriptors (trace o)) ->
    In (ObjDeployment d) (descriptors (trace o)) ->
    selects (corev1.ss_Selector (corev1.svc_Spec svc))
      (templateLabels (deploymentTemplate d)).
Proof.
  split.
  - eexists. vm_compute. do 3 right. left. reflexivity.
  - intros svc d Hs Hd.
    exact (proj2 (@controller_service_selects_deployment_pods samplePackage World world
                    (freshWorld ["v1"] ["x7k2q"] sampleCerts) "direct-csi"
                    "direct-csi:latest" false "quay.io" "minio" (writerTo 1)
                    initialGlobals svc d Hs Hd)).
Defined.

(** ** How the installed objects fit together *)

Section Addressing.
Context `{Package} {S : Type} (h : handler S).

Ltac addressed :=
  unfold well_addressed;
  cbn [creates omap list_omap In];
  intros client obj ns Hin Hep; decompose [or] Hin; try done; simplify_eq;
  cbn [endpointNamespace] in Hep; simplify_eq; reflexivity.

(** X11.  Every create call goes through the client interface of the
    namespace that the submitted object itself names: the service, the
    daemon set, the deployment with its controller secret and
    controller service, and the conversion secrets are all submitted to
    the namespace written in their metadata. *)
Theorem creates_are_well_addressed s g identity image dryRun registry org loopBackOnly
    nodeSelector tolerations seccompProfileName apparmorProfileName
    enableDynamicDiscovery tok publicCertBytes privateKeyBytes caCertBytes writer :
  well_addressed (trace (run h (CreateService identity dryRun writer) s)) /\
  well_addressed
    (trace (run h (CreateDaemonSet identity image dryRun registry org loopBackOnly
                     nodeSelector tolerations seccompProfileName apparmorProfileName
                     enableDynamicDiscovery writer) s)) /\
  well_addressed (trace (run h (CreateControllerService tok identity dryRun) s)) /\
  well_addressed
    (trace (run h (CreateControllerSecret identity publicCertBytes privateKeyBytes
                     dryRun) s)) /\
  well_addressed
    (trace (run h (CreateDeployment identity image dryRun registry org writer g) s)) /\
  well_addressed
    (trace (run h (CreateOrUpdateConversionKeyPairSecret identity publicCertBytes
                     privateKeyBytes dryRun writer) s)) /\
  well_addressed
    (trace (run h (CreateOrUpdateConversionCACertSecret identity caCertBytes dryRun
                     writer) s)) /\
  well_addressed
    (trace (run h (CreateConversionWebhookSecrets identity dryRun writer g) s)).
Proof.
  repeat split.
  - unfold CreateService. walk h; addressed.
  - unfold CreateDaemonSet, generateSanitizedUniqueNameFrom. walk h; addressed.
  - unfold CreateControllerService. walk h; addressed.
  - unfold CreateControllerSecret. walk h; addressed.
  - unfold CreateDeployment, generateSanitizedUniqueNameFrom, CreateControllerSecret,
      CreateControllerService.
    walk h; addressed.
  - unfold CreateOrUpdateConversionKeyPairSecret. walk h; addressed.
  - unfold CreateOrUpdateConversionCACertSecret. walk h; addressed.
  - unfold CreateConversionWebhookSecrets, checkConversionSecrets,
      CreateOrUpdateConversionKeyPairSecret, CreateOrUpdateConversionCACertSecret.
    walk h; addressed.
Qed.

End Addressing.

Section Wiring.
Context `{Package}.
Variables (identity image registry org : string) (loopBackOnly : bool)
  (nodeSelector : gmap string string) (tolerations : list corev1.Toleration)
  (seccompProfileName apparmorProfileName : string) (enableDynamicDiscovery : bool)
  (tok : string).

Local Abbreviation daemonSet :=
  (daemonSetObj identity image registry org loopBackOnly nodeSelector tolerations
     seccompProfileName apparmorProfileName enableDynamicDiscovery tok).

Local Abbreviation deployment := (deploymentObj identity image registry org tok).

(** X12.  Every volume that a container of the daemon set or of the
    deployment mounts is a volume that the pod declares, with or without
    dynamic discovery. *)
Theorem mounts_are_declared_volumes :
  (forall name,
     In name (mountedVolumeNames (daemonSetTemplate daemonSet)) ->
     In name (volumeNames (daemonSetTemplate daemonSet))) /\
  (forall name,
     In name (mountedVolumeNames (deploymentTemplate deployment)) ->
     In name (volumeNames (deploymentTemplate deployment))).
Proof.
  split; intros name.
  - unfold mountedVolumeNames, volumeNames, daemonSetTemplate, daemonSetObj.
    destruct enableDynamicDiscovery; cbn; intuition auto.
  - unfold mountedVolumeNames, volumeNames, deploymentTemplate, deploymentObj.
    cbn; intuition auto.
Qed.

(** X13.  The daemon set passes [--loopback-only] exactly when loop-back
    mode is requested and [--enable-dynamic-discovery] exactly when
    dynamic discovery is; its pods use the host network, with the
    matching DNS policy, exactly when dynamic discovery is enabled. *)
Theorem daemonset_flags :
  let template := daemonSetTemplate daemonSet in
  (In "--loopback-only" (containerArguments template) <-> loopBackOnly = true) /\
  (In "--enable-dynamic-discovery" (containerArguments template)
   <-> enableDynamicDiscovery = true) /\
  corev1.ps_HostNetwork (corev1.pts_Spec template) = enableDynamicDiscovery /\
  (corev1.ps_DNSPolicy (corev1.pts_Spec template) = corev1.DNSClusterFirstWithHostNet
   <-> enableDynamicDiscovery = true).
Proof.
  unfold containerArguments, daemonSetTemplate, daemonSetObj.
  destruct loopBackOnly, enableDynamicDiscovery; cbn; repeat split; try done.
  all: try solve [intros _; repeat first [left; reflexivity | right]].
  all: intros Hin; decompose [or] Hin; try done.
  all: match goal with
       | Heq : _ = _ |- _ => cbv beta iota delta [String.app] in Heq; discriminate Heq
       end.
Qed.

(** X14.  The named ports that the services target exist in the pods they
    select: the conversion webhook port of the service of
    [CreateService] is declared, under that name and number, by a
    container of the daemon set and by one of the deployment, and the
    admission webhook port of the controller service by a container of
    the deployment. *)
Theorem services_target_declared_ports :
  (forall port,
     In port (targetedPorts (serviceObj identity)) ->
     In port (containerPorts (daemonSetTemplate daemonSet)) /\
     In port (containerPorts (deploymentTemplate deployment))) /\
  targetedPorts (serviceObj identity)
  = [(conversionWebhookPortName, ConversionWebhookPort)] /\
  (forall port,
     In port (targetedPorts (controllerServiceObj tok identity)) ->
     In port (containerPorts (deploymentTemplate deployment))) /\
  targetedPorts (controllerServiceObj tok identity)
  = [(admissionControllerWebhookName, admissionControllerWebhookPort)].
Proof.
  unfold targetedPorts, containerPorts, daemonSetTemplate, deploymentTemplate,
    daemonSetObj, deploymentObj, serviceObj, controllerServiceObj.
  destruct enableDynamicDiscovery; cbn; repeat split; intros; intuition auto.
Qed.

(** X15.  The secret volumes of the pods are the secrets that the
    installer creates, in the namespace of the workload: the daemon set
    mounts the two conversion secrets, the deployment the controller
    secret and the two conversion secrets, each under the name and in
    the namespace of the secret object submitted. *)
Theorem secret_volumes_are_installed_secrets publicCertBytes privateKeyBytes caCertBytes :
  let controller := ObjSecret (controllerSecretObj identity publicCertBytes privateKeyBytes) in
  let caCert := ObjSecret (secretObj conversionCACert identity (caCertDataMap caCertBytes)) in
  let keyPair :=
    ObjSecret (secretObj conversionKeyPair identity
                 (keyPairDataMap publicCertBytes privateKeyBytes)) in
  secretVolumeSources (daemonSetTemplate daemonSet) = map objName [caCert; keyPair] /\
  secretVolumeSources (deploymentTemplate deployment)
  = map objName [controller; caCert; keyPair] /\
  Forall (fun sec => objNamespace sec = objNamespace (ObjDaemonSet daemonSet)
                     /\ objNamespace sec = objNamespace (ObjDeployment deployment))
    [controller; caCert; keyPair].
Proof.
  unfold secretVolumeSources, daemonSetTemplate, deploymentTemplate, daemonSetObj,
    deploymentObj.
  destruct enableDynamicDiscovery; cbn; repeat split; repeat constructor.
Qed.

(** X16.  The validating webhook calls the controller service: the
    service reference of the configuration built by
    [getDriveValidatingWebhookConfig] carries the namespace and the name
    of the service that [CreateControllerService] submits. *)
Theorem webhook_calls_controller_service g :
  webhookServices (getDriveValidatingWebhookConfig identity g)
  = [(objNamespace (ObjService (controllerServiceObj tok identity)),
      objName (ObjService (controllerServiceObj tok identity)))].
Proof. reflexivity. Qed.

(** X17.  The service of [CreateService] selects the pods of the daemon
    set and of the deployment, provided the two selector labels are
    different labels. *)
Theorem service_selects_workload_pods :
  directCSISelector <> webhookSelector ->
  let selector := corev1.ss_Selector (corev1.svc_Spec (serviceObj identity)) in
  selector = {[ webhookSelector := selectorValueEnabled ]} /\
  selects selector (templateLabels (daemonSetTemplate daemonSet)) /\
  selects selector (templateLabels (deploymentTemplate deployment)).
Proof.
  intros Hne selector. subst selector. split; [reflexivity |].
  split; intros key value; cbn [serviceObj corev1.svc_Spec corev1.ss_Selector];
    intros [<- <-]%lookup_singleton_Some.
  - unfold templateLabels, daemonSetTemplate, daemonSetObj. cbn.
    rewrite lookup_insert_ne by exact Hne. apply lookup_singleton_eq.
  - unfold templateLabels, deploymentTemplate, deploymentObj. cbn.
    rewrite lookup_insert_ne by exact Hne. apply lookup_singleton_eq.
Qed.

(** X18.  When sanitizing the identity a second time changes nothing,
    the pod templates of the daemon set and of the deployment carry the
    name and the namespace of the workload itself. *)
Theorem templates_named_after_workload :
  SanitizeKubeResourceName (SanitizeKubeResourceName identity)
    = SanitizeKubeResourceName identity ->
  let named (meta : metav1.ObjectMeta) := (metav1.om_Name meta, metav1.om_Namespace meta) in
  named (corev1.pts_ObjectMeta (daemonSetTemplate daemonSet))
    = named (appsv1.ds_ObjectMeta daemonSet) /\
  named (corev1.pts_ObjectMeta (deploymentTemplate deployment))
    = named (appsv1.dp_ObjectMeta deployment).
Proof.
  intros Hidem named. subst named.
  unfold daemonSetTemplate, deploymentTemplate, daemonSetObj, deploymentObj. cbn.
  rewrite Hidem. split; reflexivity.
Qed.

End Wiring.

Lemma service_selects_workload_pods_witness :
  let selector :=
    corev1.ss_Selector (corev1.svc_Spec (serviceObj (H := samplePackage) "direct-csi")) in
  selects selector
    (templateLabels
       (deploymentTemplate
          (deploymentObj (H := samplePackage) "direct-csi" "direct-csi:latest"
             "quay.io" "minio" "direct-csi-x7k2q"))).
Proof.
  assert (Hne : directCSISelector (Package := samplePackage)
                <> webhookSelector (Package := samplePackage))
    by (intros Heq; vm_compute in Heq; discriminate Heq).
  exact (proj2 (proj2 (@service_selects_workload_pods samplePackage "direct-csi"
                         "direct-csi:latest" "quay.io" "minio" false ∅ [] EmptyString
                         EmptyString false "direct-csi-x7k2q" Hne))).
Defined.

Lemma templates_named_after_workload_witness :
  let d :=
    deploymentObj (H := samplePackage) "Direct CSI" "direct-csi:latest" "quay.io" "minio"
      "direct-csi-x7k2q" in
  metav1.om_Name (corev1.pts_ObjectMeta (deploymentTemplate d))
  = metav1.om_Name (appsv1.dp_ObjectMeta d).
Proof.
  pose proof (@templates_named_after_workload samplePackage "Direct CSI"
                "direct-csi:latest" "quay.io" "minio" false ∅ [] EmptyString EmptyString
                false "direct-csi-x7k2q" eq_refl) as [_ Hdep].
  exact (f_equal fst Hdep).
Defined.

(** ** The generated name, in general *)

(** X19.  With a random string of five bytes, the name that
    [generateSanitizedUniqueNameFrom] returns is the random string after
    a hyphen after the sanitized name or its first 249 bytes; it has at
    most 260 bytes, and at most 255 exactly when the sanitized name does
    not have 250 to 254 bytes. *)
Theorem generated_name_length `{Package} {S : Type} (h : handler S) s name r :
  let o := run h (generateSanitizedUniqueNameFrom name) s in
  let sanitized := String.length (SanitizeKubeResourceName name) in
  draws (trace o) = [r] ->
  String.length r = 5%nat ->
  result o = uniqueName name r /\
  (String.length (result o) <= 260)%nat /\
  ((String.length (result o) <= 255)%nat <-> ~ (250 <= sanitized <= 254)%nat).
Proof.
  intros o sanitized Hdraw Hr. subst o sanitized.
  destruct (generateSanitizedUniqueNameFrom_run h s name) as (r' & Htrace & Hres).
  rewrite Htrace in Hdraw. cbn in Hdraw. injection Hdraw as ->.
  rewrite Hres, uniqueName_length, Hr.
  split; [reflexivity |].
  destruct (Nat.leb_spec 255 (String.length (SanitizeKubeResourceName name))); lia.
Qed.

Lemma generated_name_length_witness :
  let o :=
    run world (generateSanitizedUniqueNameFrom (H := samplePackage) "Direct CSI")
      (freshWorld [] ["x7k2q"] sampleCerts) in
  result o = "direct-csi-x7k2q" /\ (String.length (result o) <= 255)%nat.
Proof.
  destruct (@generated_name_length samplePackage World world
              (freshWorld [] ["x7k2q"] sampleCerts) "Direct CSI" "x7k2q"
              eq_refl eq_refl) as (Hres & _ & Hfits).
  split.
  - rewrite Hres. vm_compute. reflexivity.
  - apply Hfits. vm_compute. lia.
Defined.

(** ** Operations as instances of one procedure *)

(** X20.  In every environment [CreateNamespace], [CreateService] and
    [RegisterDriveValidationRules] behave as one and the same procedure
    applied to their own descriptor and client interface: serialize, then
    log in dry-run mode or else create.  [CreateDaemonSet] is that
    procedure after the draw of the token, and [CreateStorageClass] is
    that procedure after the negotiation, on "v1" and on "v1beta1"
    alike. *)
Theorem operations_follow_one_procedure `{Package} identity image dryRun registry org
    loopBackOnly nodeSelector tolerations seccompProfileName apparmorProfileName
    enableDynamicDiscovery writer g :
  let ns := SanitizeKubeResourceName identity in
  same_runs (CreateNamespace identity dryRun writer)
    (protocol writer (ObjNamespace (namespaceObj identity)) dryRun CoreV1_Namespaces) /\
  same_runs (CreateService identity dryRun writer)
    (protocol writer (ObjService (serviceObj identity)) dryRun (CoreV1_Services ns)) /\
  same_runs (RegisterDriveValidationRules identity dryRun writer g)
    (protocol writer
       (ObjValidatingWebhookConfiguration (getDriveValidatingWebhookConfig identity g))
       dryRun AdmissionregistrationV1_ValidatingWebhookConfigurations) /\
  same_runs
    (CreateDaemonSet identity image dryRun registry org loopBackOnly nodeSelector
       tolerations seccompProfileName apparmorProfileName enableDynamicDiscovery writer)
    (bind (generateSanitizedUniqueNameFrom ns) (fun tok =>
       protocol writer
         (ObjDaemonSet
            (daemonSetObj identity image registry org loopBackOnly nodeSelector
               tolerations seccompProfileName apparmorProfileName
               enableDynamicDiscovery tok))
         dryRun (AppsV1_DaemonSets ns))) /\
  same_runs (CreateStorageClass identity dryRun writer)
    (bind (perform storageNegotiation) (fun negotiated =>
       match negotiated with
       | inl err => Ret (Some err)
       | inr gvk =>
           if decide (schema.Version gvk = "v1") then
             protocol writer (ObjStorageClassV1 (storageClassV1 identity)) dryRun
               StorageV1_StorageClasses
           else if decide (schema.Version gvk = "v1beta1") then
             protocol writer (ObjStorageClassV1beta1 (storageClassV1beta1 identity))
               dryRun StorageV1beta1_StorageClasses
           else Ret (Some ErrKubeVersionNotSupported)
       end)).
Proof.
  intros ns. subst ns. repeat split; intros S h s.
  - unfold CreateNamespace, protocol. walk h; reflexivity.
  - unfold CreateService, protocol. walk h; reflexivity.
  - unfold RegisterDriveValidationRules, protocol. walk h; reflexivity.
  - unfold CreateDaemonSet, generateSanitizedUniqueNameFrom, protocol. walk h; reflexivity.
  - unfold CreateStorageClass, storageNegotiation, protocol. walk h; reflexivity.
Qed.
